(** * owl-sr: the match predictor ([predictor.py])

    A shallow embedding of the standings tracker, the score-distribution
    builder, the stage post-processing and the rating-based win/draw
    probability of [predictor.py], with the properties its specification
    states about them.

    Conventions of the embedding.
    - Python [int] is [Z]; Python [float] is idealised as a real number [R]
      (rounding is not modelled); [str] is [string].
    - A [defaultdict(int)] is a [gmap] read through [dget], which returns [0]
      for an absent key; [d[k] += n] is [incr]; [d.clear()] is [∅].
    - A plain [dict] lookup of an absent key raises [KeyError]; exceptions are
      values of [exn], carried by [result] for pure code and by [outcome]
      (which keeps the object as the exception left it) for methods that
      mutate [self].
    - The methods [predict] and [_train], abstract in [Predictor], are
      parameters of the code that calls them.
    - The functions of the [trueskill] package ([env.cdf],
      [calc_draw_margin], [env.rate]) are parameters, or stand-ins that
      always return.  What the package itself refuses (a rating of zero
      [sigma], for one) and the overflow of a float are not modelled: a
      statement about the TrueSkill predictor is about the arithmetic of
      [predictor.py] on the ratings it is given. *)

From Stdlib Require Import ZArith Reals Lra Lia String List.
From stdpp Require Import base gmap strings list sorting.

#[local] Open Scope string_scope.
#[local] Open Scope list_scope.
#[local] Open Scope Z_scope.

(** ** Exceptions *)

Inductive exn : Set :=
  | NotImplementedError
  | KeyError
  | TypeError
  | NameError
  | IndexError
  | ValueError
  | ZeroDivisionError.

Inductive result (A : Type) : Type :=
  | Ok (a : A)
  | Raise (e : exn).
Arguments Ok {A} a.
Arguments Raise {A} e.

#[global] Instance result_ret : MRet result := @Ok.
#[global] Instance result_bind : MBind result := fun A B f m =>
  match m with
  | Ok a => f a
  | Raise e => Raise e
  end.

(** ** Python containers *)

(** [d[k]] on a [defaultdict(int)]. *)
Definition dget `{Countable K} (d : gmap K Z) (k : K) : Z := default 0 (d !! k).

(** [d[k] += n] on a [defaultdict(int)]. *)
Definition incr `{Countable K} (k : K) (n : Z) (d : gmap K Z) : gmap K Z :=
  <[k := dget d k + n]> d.

(** [sum(d.values())]. *)
Definition sum_values `{Countable K} (d : gmap K Z) : Z :=
  map_fold (fun _ v acc => v + acc) 0 d.

(** [sub in s] on strings. *)
Fixpoint str_in (sub s : string) : bool :=
  String.prefix sub s ||
  match s with
  | EmptyString => false
  | String _ s' => str_in sub s'
  end.

(** [s.startswith(p)]. *)
Definition startswith (s p : string) : bool := String.prefix p s.

(** ** Games ([game.Game]) *)

Definition Roster := list string.
Definition FullRoster := list string.

Module Game.
Record t := {
  teams : string * string;
  rosters : option (Roster * Roster);
  full_rosters : option (FullRoster * FullRoster);
  score : Z * Z;
  drawable : bool;
  stage : string;
  match_id : Z;
  match_format : string
}.
End Game.

(** ** The predictor object ([Predictor.__init__]) *)

Record Predictor := {
  roster_queue_size : nat;
  roster_queues : gmap string (list Roster);
  last_full_rosters : gmap string FullRoster;
  (* Season standings. *)
  wins : gmap string Z;
  losses : gmap string Z;
  map_diffs : gmap string Z;
  head_to_head_diffs : gmap (string * string) Z;
  head_to_head_map_diffs : gmap (string * string) Z;
  (* Stage standings. *)
  stage : option string;
  base_stage : option string;
  stage_wins : gmap string Z;
  stage_losses : gmap string Z;
  stage_map_diffs : gmap string Z;
  stage_head_to_head_map_diffs : gmap (string * string) Z;
  stage_title_wins : gmap string Z;
  stage_title_losses : gmap string Z;
  playoff_wins : gmap string Z;
  playoff_losses : gmap string Z;
  (* Match standings.  [score] is the very dict stored at
     [scores[match_id]]: a write through [self.score] is a write to both. *)
  match_id : option Z;
  score : option (gmap string Z);
  scores : gmap Z (gmap string Z);
  match_history : gmap (option string) (gmap string (list Z));
  (* Draw counts. *)
  expected_draws : R;
  real_draws : R;
  (* Evaluation history. *)
  points : list R;
  corrects : list bool
}.

Definition init (roster_queue_size : nat) : Predictor :=
  {| roster_queue_size := roster_queue_size;
     roster_queues := ∅; last_full_rosters := ∅;
     wins := ∅; losses := ∅; map_diffs := ∅;
     head_to_head_diffs := ∅; head_to_head_map_diffs := ∅;
     stage := None; base_stage := None;
     stage_wins := ∅; stage_losses := ∅; stage_map_diffs := ∅;
     stage_head_to_head_map_diffs := ∅;
     stage_title_wins := ∅; stage_title_losses := ∅;
     playoff_wins := ∅; playoff_losses := ∅;
     match_id := None; score := None; scores := ∅; match_history := ∅;
     expected_draws := 0%R; real_draws := 0%R;
     points := []; corrects := [] |}.

(** Attribute assignment [self.f = v], one setter per attribute. *)
Definition set_roster_queues v (self : Predictor) : Predictor :=
  Build_Predictor (self.(roster_queue_size)) v (self.(last_full_rosters))
    (self.(wins)) (self.(losses)) (self.(map_diffs))
    (self.(head_to_head_diffs)) (self.(head_to_head_map_diffs))
    (self.(stage)) (self.(base_stage)) (self.(stage_wins))
    (self.(stage_losses)) (self.(stage_map_diffs))
    (self.(stage_head_to_head_map_diffs)) (self.(stage_title_wins))
    (self.(stage_title_losses)) (self.(playoff_wins)) (self.(playoff_losses))
    (self.(match_id)) (self.(score)) (self.(scores)) (self.(match_history))
    (self.(expected_draws)) (self.(real_draws)) (self.(points))
    (self.(corrects)).
Definition set_last_full_rosters v (self : Predictor) : Predictor :=
  Build_Predictor (self.(roster_queue_size)) (self.(roster_queues)) v
    (self.(wins)) (self.(losses)) (self.(map_diffs))
    (self.(head_to_head_diffs)) (self.(head_to_head_map_diffs))
    (self.(stage)) (self.(base_stage)) (self.(stage_wins))
    (self.(stage_losses)) (self.(stage_map_diffs))
    (self.(stage_head_to_head_map_diffs)) (self.(stage_title_wins))
    (self.(stage_title_losses)) (self.(playoff_wins)) (self.(playoff_losses))
    (self.(match_id)) (self.(score)) (self.(scores)) (self.(match_history))
    (self.(expected_draws)) (self.(real_draws)) (self.(points))
    (self.(corrects)).
Definition set_wins v (self : Predictor) : Predictor :=
  Build_Predictor (self.(roster_queue_size)) (self.(roster_queues))
    (self.(last_full_rosters)) v (self.(losses)) (self.(map_diffs))
    (self.(head_to_head_diffs)) (self.(head_to_head_map_diffs))
    (self.(stage)) (self.(base_stage)) (self.(stage_wins))
    (self.(stage_losses)) (self.(stage_map_diffs))
    (self.(stage_head_to_head_map_diffs)) (self.(stage_title_wins))
    (self.(stage_title_losses)) (self.(playoff_wins)) (self.(playoff_losses))
    (self.(match_id)) (self.(score)) (self.(scores)) (self.(match_history))
    (self.(expected_draws)) (self.(real_draws)) (self.(points))
    (self.(corrects)).
Definition set_losses v (self : Predictor) : Predictor :=
  Build_Predictor (self.(roster_queue_size)) (self.(roster_queues))
    (self.(last_full_rosters)) (self.(wins)) v (self.(map_diffs))
    (self.(head_to_head_diffs)) (self.(head_to_head_map_diffs))
    (self.(stage)) (self.(base_stage)) (self.(stage_wins))
    (self.(stage_losses)) (self.(stage_map_diffs))
    (self.(stage_head_to_head_map_diffs)) (self.(stage_title_wins))
    (self.(stage_title_losses)) (self.(playoff_wins)) (self.(playoff_losses))
    (self.(match_id)) (self.(score)) (self.(scores)) (self.(match_history))
    (self.(expected_draws)) (self.(real_draws)) (self.(points))
    (self.(corrects)).
Definition set_map_diffs v (self : Predictor) : Predictor :=
  Build_Predictor (self.(roster_queue_size)) (self.(roster_queues))
    (self.(last_full_rosters)) (self.(wins)) (self.(losses)) v
    (self.(head_to_head_diffs)) (self.(head_to_head_map_diffs))
    (self.(stage)) (self.(base_stage)) (self.(stage_wins))
    (self.(stage_losses)) (self.(stage_map_diffs))
    (self.(stage_head_to_head_map_diffs)) (self.(stage_title_wins))
    (self.(stage_title_losses)) (self.(playoff_wins)) (self.(playoff_losses))
    (self.(match_id)) (self.(score)) (self.(scores)) (self.(match_history))
    (self.(expected_draws)) (self.(real_draws)) (self.(points))
    (self.(corrects)).
Definition set_head_to_head_diffs v (self : Predictor) : Predictor :=
  Build_Predictor (self.(roster_queue_size)) (self.(roster_queues))
    (self.(last_full_rosters)) (self.(wins)) (self.(losses))
    (self.(map_diffs)) v (self.(head_to_head_map_diffs)) (self.(stage))
    (self.(base_stage)) (self.(stage_wins)) (self.(stage_losses))
    (self.(stage_map_diffs)) (self.(stage_head_to_head_map_diffs))
    (self.(stage_title_wins)) (self.(stage_title_losses))
    (self.(playoff_wins)) (self.(playoff_losses)) (self.(match_id))
    (self.(score)) (self.(scores)) (self.(match_history))
    (self.(expected_draws)) (self.(real_draws)) (self.(points))
    (self.(corrects)).
Definition set_head_to_head_map_diffs v (self : Predictor) : Predictor :=
  Build_Predictor (self.(roster_queue_size)) (self.(roster_queues))
    (self.(last_full_rosters)) (self.(wins)) (self.(losses))
    (self.(map_diffs)) (self.(head_to_head_diffs)) v (self.(stage))
    (self.(base_stage)) (self.(stage_wins)) (self.(stage_losses))
    (self.(stage_map_diffs)) (self.(stage_head_to_head_map_diffs))
    (self.(stage_title_wins)) (self.(stage_title_losses))
    (self.(playoff_wins)) (self.(playoff_losses)) (self.(match_id))
    (self.(score)) (self.(scores)) (self.(match_history))
    (self.(expected_draws)) (self.(real_draws)) (self.(points))
    (self.(corrects)).
Definition set_stage v (self : Predictor) : Predictor :=
  Build_Predictor (self.(roster_queue_size)) (self.(roster_queues))
    (self.(last_full_rosters)) (self.(wins)) (self.(losses))
    (self.(map_diffs)) (self.(head_to_head_diffs))
    (self.(head_to_head_map_diffs)) v (self.(base_stage)) (self.(stage_wins))
    (self.(stage_losses)) (self.(stage_map_diffs))
    (self.(stage_head_to_head_map_diffs)) (self.(stage_title_wins))
    (self.(stage_title_losses)) (self.(playoff_wins)) (self.(playoff_losses))
    (self.(match_id)) (self.(score)) (self.(scores)) (self.(match_history))
    (self.(expected_draws)) (self.(real_draws)) (self.(points))
    (self.(corrects)).
Definition set_base_stage v (self : Predictor) : Predictor :=
  Build_Predictor (self.(roster_queue_size)) (self.(roster_queues))
    (self.(last_full_rosters)) (self.(wins)) (self.(losses))
    (self.(map_diffs)) (self.(head_to_head_diffs))
    (self.(head_to_head_map_diffs)) (self.(stage)) v (self.(stage_wins))
    (self.(stage_losses)) (self.(stage_map_diffs))
    (self.(stage_head_to_head_map_diffs)) (self.(stage_title_wins))
    (self.(stage_title_losses)) (self.(playoff_wins)) (self.(playoff_losses))
    (self.(match_id)) (self.(score)) (self.(scores)) (self.(match_history))
    (self.(expected_draws)) (self.(real_draws)) (self.(points))
    (self.(corrects)).
Definition set_stage_wins v (self : Predictor) : Predictor :=
  Build_Predictor (self.(roster_queue_size)) (self.(roster_queues))
    (self.(last_full_rosters)) (self.(wins)) (self.(losses))
    (self.(map_diffs)) (self.(head_to_head_diffs))
    (self.(head_to_head_map_diffs)) (self.(stage)) (self.(base_stage)) v
    (self.(stage_losses)) (self.(stage_map_diffs))
    (self.(stage_head_to_head_map_diffs)) (self.(stage_title_wins))
    (self.(stage_title_losses)) (self.(playoff_wins)) (self.(playoff_losses))
    (self.(match_id)) (self.(score)) (self.(scores)) (self.(match_history))
    (self.(expected_draws)) (self.(real_draws)) (self.(points))
    (self.(corrects)).
Definition set_stage_losses v (self : Predictor) : Predictor :=
  Build_Predictor (self.(roster_queue_size)) (self.(roster_queues))
    (self.(last_full_rosters)) (self.(wins)) (self.(losses))
    (self.(map_diffs)) (self.(head_to_head_diffs))
    (self.(head_to_head_map_diffs)) (self.(stage)) (self.(base_stage))
    (self.(stage_wins)) v (self.(stage_map_diffs))
    (self.(stage_head_to_head_map_diffs)) (self.(stage_title_wins))
    (self.(stage_title_losses)) (self.(playoff_wins)) (self.(playoff_losses))
    (self.(match_id)) (self.(score)) (self.(scores)) (self.(match_history))
    (self.(expected_draws)) (self.(real_draws)) (self.(points))
    (self.(corrects)).
Definition set_stage_map_diffs v (self : Predictor) : Predictor :=
  Build_Predictor (self.(roster_queue_size)) (self.(roster_queues))
    (self.(last_full_rosters)) (self.(wins)) (self.(losses))
    (self.(map_diffs)) (self.(head_to_head_diffs))
    (self.(head_to_head_map_diffs)) (self.(stage)) (self.(base_stage))
    (self.(stage_wins)) (self.(stage_losses)) v
    (self.(stage_head_to_head_map_diffs)) (self.(stage_title_wins))
    (self.(stage_title_losses)) (self.(playoff_wins)) (self.(playoff_losses))
    (self.(match_id)) (self.(score)) (self.(scores)) (self.(match_history))
    (self.(expected_draws)) (self.(real_draws)) (self.(points))
    (self.(corrects)).
Definition set_stage_head_to_head_map_diffs v (self : Predictor) : Predictor :=
  Build_Predictor (self.(roster_queue_size)) (self.(roster_queues))
    (self.(last_full_rosters)) (self.(wins)) (self.(losses))
    (self.(map_diffs)) (self.(head_to_head_diffs))
    (self.(head_to_head_map_diffs)) (self.(stage)) (self.(base_stage))
    (self.(stage_wins)) (self.(stage_losses)) (self.(stage_map_diffs)) v
    (self.(stage_title_wins)) (self.(stage_title_losses))
    (self.(playoff_wins)) (self.(playoff_losses)) (self.(match_id))
    (self.(score)) (self.(scores)) (self.(match_history))
    (self.(expected_draws)) (self.(real_draws)) (self.(points))
    (self.(corrects)).
Definition set_stage_title_wins v (self : Predictor) : Predictor :=
  Build_Predictor (self.(roster_queue_size)) (self.(roster_queues))
    (self.(last_full_rosters)) (self.(wins)) (self.(losses))
    (self.(map_diffs)) (self.(head_to_head_diffs))
    (self.(head_to_head_map_diffs)) (self.(stage)) (self.(base_stage))
    (self.(stage_wins)) (self.(stage_losses)) (self.(stage_map_diffs))
    (self.(stage_head_to_head_map_diffs)) v (self.(stage_title_losses))
    (self.(playoff_wins)) (self.(playoff_losses)) (self.(match_id))
    (self.(score)) (self.(scores)) (self.(match_history))
    (self.(expected_draws)) (self.(real_draws)) (self.(points))
    (self.(corrects)).
Definition set_stage_title_losses v (self : Predictor) : Predictor :=
  Build_Predictor (self.(roster_queue_size)) (self.(roster_queues))
    (self.(last_full_rosters)) (self.(wins)) (self.(losses))
    (self.(map_diffs)) (self.(head_to_head_diffs))
    (self.(head_to_head_map_diffs)) (self.(stage)) (self.(base_stage))
    (self.(stage_wins)) (self.(stage_losses)) (self.(stage_map_diffs))
    (self.(stage_head_to_head_map_diffs)) (self.(stage_title_wins)) v
    (self.(playoff_wins)) (self.(playoff_losses)) (self.(match_id))
    (self.(score)) (self.(scores)) (self.(match_history))
    (self.(expected_draws)) (self.(real_draws)) (self.(points))
    (self.(corrects)).
Definition set_playoff_wins v (self : Predictor) : Predictor :=
  Build_Predictor (self.(roster_queue_size)) (self.(roster_queues))
    (self.(last_full_rosters)) (self.(wins)) (self.(losses))
    (self.(map_diffs)) (self.(head_to_head_diffs))
    (self.(head_to_head_map_diffs)) (self.(stage)) (self.(base_stage))
    (self.(stage_wins)) (self.(stage_losses)) (self.(stage_map_diffs))
    (self.(stage_head_to_head_map_diffs)) (self.(stage_title_wins))
    (self.(stage_title_losses)) v (self.(playoff_losses)) (self.(match_id))
    (self.(score)) (self.(scores)) (self.(match_history))
    (self.(expected_draws)) (self.(real_draws)) (self.(points))
    (self.(corrects)).
Definition set_playoff_losses v (self : Predictor) : Predictor :=
  Build_Predictor (self.(roster_queue_size)) (self.(roster_queues))
    (self.(last_full_rosters)) (self.(wins)) (self.(losses))
    (self.(map_diffs)) (self.(head_to_head_diffs))
    (self.(head_to_head_map_diffs)) (self.(stage)) (self.(base_stage))
    (self.(stage_wins)) (self.(stage_losses)) (self.(stage_map_diffs))
    (self.(stage_head_to_head_map_diffs)) (self.(stage_title_wins))
    (self.(stage_title_losses)) (self.(playoff_wins)) v (self.(match_id))
    (self.(score)) (self.(scores)) (self.(match_history))
    (self.(expected_draws)) (self.(real_draws)) (self.(points))
    (self.(corrects)).
Definition set_match_id v (self : Predictor) : Predictor :=
  Build_Predictor (self.(roster_queue_size)) (self.(roster_queues))
    (self.(last_full_rosters)) (self.(wins)) (self.(losses))
    (self.(map_diffs)) (self.(head_to_head_diffs))
    (self.(head_to_head_map_diffs)) (self.(stage)) (self.(base_stage))
    (self.(stage_wins)) (self.(stage_losses)) (self.(stage_map_diffs))
    (self.(stage_head_to_head_map_diffs)) (self.(stage_title_wins))
    (self.(stage_title_losses)) (self.(playoff_wins)) (self.(playoff_losses))
    v (self.(score)) (self.(scores)) (self.(match_history))
    (self.(expected_draws)) (self.(real_draws)) (self.(points))
    (self.(corrects)).
Definition set_score v (self : Predictor) : Predictor :=
  Build_Predictor (self.(roster_queue_size)) (self.(roster_queues))
    (self.(last_full_rosters)) (self.(wins)) (self.(losses))
    (self.(map_diffs)) (self.(head_to_head_diffs))
    (self.(head_to_head_map_diffs)) (self.(stage)) (self.(base_stage))
    (self.(stage_wins)) (self.(stage_losses)) (self.(stage_map_diffs))
    (self.(stage_head_to_head_map_diffs)) (self.(stage_title_wins))
    (self.(stage_title_losses)) (self.(playoff_wins)) (self.(playoff_losses))
    (self.(match_id)) v (self.(scores)) (self.(match_history))
    (self.(expected_draws)) (self.(real_draws)) (self.(points))
    (self.(corrects)).
Definition set_scores v (self : Predictor) : Predictor :=
  Build_Predictor (self.(roster_queue_size)) (self.(roster_queues))
    (self.(last_full_rosters)) (self.(wins)) (self.(losses))
    (self.(map_diffs)) (self.(head_to_head_diffs))
    (self.(head_to_head_map_diffs)) (self.(stage)) (self.(base_stage))
    (self.(stage_wins)) (self.(stage_losses)) (self.(stage_map_diffs))
    (self.(stage_head_to_head_map_diffs)) (self.(stage_title_wins))
    (self.(stage_title_losses)) (self.(playoff_wins)) (self.(playoff_losses))
    (self.(match_id)) (self.(score)) v (self.(match_history))
    (self.(expected_draws)) (self.(real_draws)) (self.(points))
    (self.(corrects)).
Definition set_match_history v (self : Predictor) : Predictor :=
  Build_Predictor (self.(roster_queue_size)) (self.(roster_queues))
    (self.(last_full_rosters)) (self.(wins)) (self.(losses))
    (self.(map_diffs)) (self.(head_to_head_diffs))
    (self.(head_to_head_map_diffs)) (self.(stage)) (self.(base_stage))
    (self.(stage_wins)) (self.(stage_losses)) (self.(stage_map_diffs))
    (self.(stage_head_to_head_map_diffs)) (self.(stage_title_wins))
    (self.(stage_title_losses)) (self.(playoff_wins)) (self.(playoff_losses))
    (self.(match_id)) (self.(score)) (self.(scores)) v
    (self.(expected_draws)) (self.(real_draws)) (self.(points))
    (self.(corrects)).
Definition set_expected_draws v (self : Predictor) : Predictor :=
  Build_Predictor (self.(roster_queue_size)) (self.(roster_queues))
    (self.(last_full_rosters)) (self.(wins)) (self.(losses))
    (self.(map_diffs)) (self.(head_to_head_diffs))
    (self.(head_to_head_map_diffs)) (self.(stage)) (self.(base_stage))
    (self.(stage_wins)) (self.(stage_losses)) (self.(stage_map_diffs))
    (self.(stage_head_to_head_map_diffs)) (self.(stage_title_wins))
    (self.(stage_title_losses)) (self.(playoff_wins)) (self.(playoff_losses))
    (self.(match_id)) (self.(score)) (self.(scores)) (self.(match_history)) v
    (self.(real_draws)) (self.(points)) (self.(corrects)).
Definition set_real_draws v (self : Predictor) : Predictor :=
  Build_Predictor (self.(roster_queue_size)) (self.(roster_queues))
    (self.(last_full_rosters)) (self.(wins)) (self.(losses))
    (self.(map_diffs)) (self.(head_to_head_diffs))
    (self.(head_to_head_map_diffs)) (self.(stage)) (self.(base_stage))
    (self.(stage_wins)) (self.(stage_losses)) (self.(stage_map_diffs))
    (self.(stage_head_to_head_map_diffs)) (self.(stage_title_wins))
    (self.(stage_title_losses)) (self.(playoff_wins)) (self.(playoff_losses))
    (self.(match_id)) (self.(score)) (self.(scores)) (self.(match_history))
    (self.(expected_draws)) v (self.(points)) (self.(corrects)).
Definition set_points v (self : Predictor) : Predictor :=
  Build_Predictor (self.(roster_queue_size)) (self.(roster_queues))
    (self.(last_full_rosters)) (self.(wins)) (self.(losses))
    (self.(map_diffs)) (self.(head_to_head_diffs))
    (self.(head_to_head_map_diffs)) (self.(stage)) (self.(base_stage))
    (self.(stage_wins)) (self.(stage_losses)) (self.(stage_map_diffs))
    (self.(stage_head_to_head_map_diffs)) (self.(stage_title_wins))
    (self.(stage_title_losses)) (self.(playoff_wins)) (self.(playoff_losses))
    (self.(match_id)) (self.(score)) (self.(scores)) (self.(match_history))
    (self.(expected_draws)) (self.(real_draws)) v (self.(corrects)).
Definition set_corrects v (self : Predictor) : Predictor :=
  Build_Predictor (self.(roster_queue_size)) (self.(roster_queues))
    (self.(last_full_rosters)) (self.(wins)) (self.(losses))
    (self.(map_diffs)) (self.(head_to_head_diffs))
    (self.(head_to_head_map_diffs)) (self.(stage)) (self.(base_stage))
    (self.(stage_wins)) (self.(stage_losses)) (self.(stage_map_diffs))
    (self.(stage_head_to_head_map_diffs)) (self.(stage_title_wins))
    (self.(stage_title_losses)) (self.(playoff_wins)) (self.(playoff_losses))
    (self.(match_id)) (self.(score)) (self.(scores)) (self.(match_history))
    (self.(expected_draws)) (self.(real_draws)) (self.(points)) v.

(** The object after a method call: as the call left it on return, or as the
    exception left it. *)
Inductive outcome : Type :=
  | Returned (self : Predictor)
  | Raised (e : exn) (self : Predictor).

Definition state_of (o : outcome) : Predictor :=
  match o with
  | Returned self => self
  | Raised _ self => self
  end.

Definition raised (o : outcome) : option exn :=
  match o with
  | Returned _ => None
  | Raised e _ => Some e
  end.

(** ** Standings tracker *)

(** [Predictor.stage_finished]. *)
Definition stage_finished (self : Predictor) : bool :=
  bool_decide (sum_values (stage_title_losses self) = 3).

(** [Predictor._update_stage]. *)
Definition _update_stage (stage' : string) (self : Predictor) : Predictor :=
  if bool_decide (Some stage' ≠ stage self) then
    if match stage self with
       | Some cur => startswith stage' cur
       | None => false
       end
    then
      (* Entering the title matches. *)
      let self := set_base_stage (stage self) self in
      set_stage (Some stage') self
    else
      (* Entering a new stage. *)
      let self := set_base_stage (Some stage') self in
      let self := set_stage (Some stage') self in
      let self := set_stage_wins ∅ self in
      let self := set_stage_losses ∅ self in
      let self := set_stage_map_diffs ∅ self in
      let self := set_stage_head_to_head_map_diffs ∅ self in
      let self := set_stage_title_wins ∅ self in
      set_stage_title_losses ∅ self
  else self.

(** [self.match_history[stage][team].append(match_id)] on the nested
    [defaultdict]. *)
Definition history_append (stage : option string) (team : string) (id : Z)
    (h : gmap (option string) (gmap string (list Z)))
    : gmap (option string) (gmap string (list Z)) :=
  let of_stage : gmap string (list Z) := default ∅ (h !! stage) in
  <[stage := <[team := (default [] (of_stage !! team) ++ [id])%list]> of_stage]> h.

(** [{team: 0 for team in teams}]. *)
Definition zero_tally (teams : string * string) : gmap string Z :=
  <[teams.2 := 0]> (<[teams.1 := 0]> ∅).

(** [Predictor._update_match_ids]. *)
Definition _update_match_ids (match_id' : Z) (teams : string * string)
    (self : Predictor) : Predictor :=
  if bool_decide (Some match_id' ≠ match_id self) then
    (* Record a new match. *)
    let self := set_match_id (Some match_id') self in
    let self := set_score (Some (zero_tally teams)) self in
    let self := set_scores (<[match_id' := zero_tally teams]> (scores self)) self in
    foldl (fun self team =>
             set_match_history
               (history_append (stage self) team match_id' (match_history self))
               self)
          self [teams.1; teams.2]
  else self.

(** [self.score[team]]: [self.score] is [None] until a match is recorded, and
    a plain dict afterwards. *)
Definition score_get (self : Predictor) (team : string) : result Z :=
  match score self with
  | None => Raise TypeError
  | Some tally =>
      match tally !! team with
      | Some n => Ok n
      | None => Raise KeyError
      end
  end.

(** [self.score[team] = n], seen through both [self.score] and
    [self.scores[self.match_id]]. *)
Definition score_set (team : string) (n : Z) (self : Predictor) : Predictor :=
  match score self with
  | None => self
  | Some tally =>
      let self := set_score (Some (<[team := n]> tally)) self in
      match match_id self with
      | Some id => set_scores (<[id := <[team := n]> tally]> (scores self)) self
      | None => self
      end
  end.

(** [_update_standings], the block under [if is_regular:] that records the
    map won: season standings, then stage standings. *)
Definition record_map (winner loser : string) (self : Predictor) : Predictor :=
  (* Season standings. *)
  let self := set_map_diffs (incr winner 1 (map_diffs self)) self in
  let self := set_map_diffs (incr loser (-1) (map_diffs self)) self in
  let self := set_head_to_head_map_diffs
                (incr (winner, loser) 1 (head_to_head_map_diffs self)) self in
  let self := set_head_to_head_map_diffs
                (incr (loser, winner) (-1) (head_to_head_map_diffs self)) self in
  (* Stage standings. *)
  let self := set_stage_map_diffs (incr winner 1 (stage_map_diffs self)) self in
  let self := set_stage_map_diffs (incr loser (-1) (stage_map_diffs self)) self in
  let self := set_stage_head_to_head_map_diffs
                (incr (winner, loser) 1 (stage_head_to_head_map_diffs self)) self in
  set_stage_head_to_head_map_diffs
    (incr (loser, winner) (-1) (stage_head_to_head_map_diffs self)) self.

(** [_update_standings], the block under "The winner won the match." *)
Definition credit_match (is_regular is_title is_playoff : bool)
    (winner loser : string) (self : Predictor) : Predictor :=
  if is_regular then
    (* Season standings. *)
    let self := set_wins (incr winner 1 (wins self)) self in
    let self := set_losses (incr loser 1 (losses self)) self in
    let self := set_head_to_head_diffs
                  (incr (winner, loser) 1 (head_to_head_diffs self)) self in
    let self := set_head_to_head_diffs
                  (incr (loser, winner) (-1) (head_to_head_diffs self)) self in
    (* Stage standings. *)
    let self := set_stage_wins (incr winner 1 (stage_wins self)) self in
    set_stage_losses (incr loser 1 (stage_losses self)) self
  else if is_title then
    let self := set_stage_title_wins (incr winner 1 (stage_title_wins self)) self in
    set_stage_title_losses (incr loser 1 (stage_title_losses self)) self
  else if is_playoff then
    let self := set_playoff_wins (incr winner 1 (playoff_wins self)) self in
    set_playoff_losses (incr loser 1 (playoff_losses self)) self
  else self.

(** [_update_standings], the block under "The winner avoided the loss." *)
Definition uncredit_match (is_regular is_title is_playoff : bool)
    (winner loser : string) (self : Predictor) : Predictor :=
  if is_regular then
    (* Season standings. *)
    let self := set_wins (incr loser (-1) (wins self)) self in
    let self := set_losses (incr winner (-1) (losses self)) self in
    let self := set_head_to_head_diffs
                  (incr (winner, loser) 1 (head_to_head_diffs self)) self in
    let self := set_head_to_head_diffs
                  (incr (loser, winner) (-1) (head_to_head_diffs self)) self in
    (* Stage standings. *)
    let self := set_stage_wins (incr loser (-1) (stage_wins self)) self in
    set_stage_losses (incr winner (-1) (stage_losses self)) self
  else if is_title then
    let self := set_stage_title_wins (incr loser (-1) (stage_title_wins self)) self in
    set_stage_title_losses (incr winner (-1) (stage_title_losses self)) self
  else if is_playoff then
    let self := set_playoff_wins (incr loser (-1) (playoff_wins self)) self in
    set_playoff_losses (incr winner (-1) (playoff_losses self)) self
  else self.

(** [_update_standings], "Handle the match result": the comparison of the
    two tallies, then [self.score[winner] += 1]. *)
Definition handle_result (is_regular is_title is_playoff : bool)
    (winner loser : string) (self : Predictor) : outcome :=
  match (w ← score_get self winner; l ← score_get self loser; mret (w, l)) with
  | Raise e => Raised e self
  | Ok (w, l) =>
      let self :=
        if bool_decide (w = l) then
          credit_match is_regular is_title is_playoff winner loser self
        else if bool_decide (w = l - 1) then
          uncredit_match is_regular is_title is_playoff winner loser self
        else self in
      Returned (score_set winner (w + 1) self)
  end.

(** [Predictor._update_standings], from "Wins & map diffs" on (the part after
    the stage and the match id are resolved). *)
Definition _update_standings_body (game : Game.t) (self : Predictor) : outcome :=
  let '(team1, team2) := Game.teams game in
  let '(score1, score2) := Game.score game in
  let is_regular := bool_decide (Game.match_format game = "regular") in
  let is_title := str_in "Title" (Game.stage game) in
  let is_playoff := bool_decide (Game.match_format game = "playoff") in
  if bool_decide (score1 ≠ score2) then
    let '(winner, loser) :=
      if bool_decide (score1 > score2) then (team1, team2) else (team2, team1) in
    let self := if is_regular then record_map winner loser self else self in
    handle_result is_regular is_title is_playoff winner loser self
  else Returned self.

(** [Predictor._update_standings]. *)
Definition _update_standings (game : Game.t) (self : Predictor) : outcome :=
  let self := _update_stage (Game.stage game) self in
  let self := _update_match_ids (Game.match_id game) (Game.teams game) self in
  _update_standings_body game self.

(** [for game in games: self._update_standings(game)]: an exception ends the
    loop. *)
Fixpoint update_standings_all (games : list Game.t) (self : Predictor)
    : outcome :=
  match games with
  | [] => Returned self
  | game :: games =>
      match _update_standings game self with
      | Returned self => update_standings_all games self
      | Raised e self => Raised e self
      end
  end.

(** ** Abstract methods

    [predict] and [_train] raise [NotImplementedError] in [Predictor] and are
    supplied by its subclasses, whose own attributes are the model [M]. *)

Definition predict_method (M : Type) : Type :=
  Predictor → M → string * string → option (Roster * Roster) →
  option (FullRoster * FullRoster) → bool → result (R * R).

Definition train_method (M : Type) : Type :=
  Game.t → Predictor → M → result M.

(** [Predictor.predict]. *)
Definition Predictor_predict {M : Type} : predict_method M :=
  fun _ _ _ _ _ _ => Raise NotImplementedError.

(** [Predictor._train]. *)
Definition Predictor__train {M : Type} : train_method M :=
  fun _ _ _ => Raise NotImplementedError.

#[global] Instance Rlt_decision : RelDecision Rlt := Rlt_dec.
#[global] Instance Req_decision : EqDecision R := Req_dec_T.

(** ** Score-distribution builder *)

(** [PScores]: a [defaultdict(float)] keyed by the score, in insertion
    order. *)
Definition PScores := list ((Z * Z) * R).

(** [d[k] += v] on a [defaultdict(float)]. *)
Fixpoint padd (k : Z * Z) (v : R) (d : PScores) : PScores :=
  match d with
  | [] => [(k, (0 + v)%R)]
  | (k', v') :: d' =>
      if bool_decide (k = k') then (k', (v' + v)%R) :: d'
      else (k', v') :: padd k v d'
  end.

(** [d[k]] without the insertion of the default. *)
Fixpoint pget (d : PScores) (k : Z * Z) : R :=
  match d with
  | [] => 0%R
  | (k', v') :: d' => if bool_decide (k = k') then v' else pget d' k
  end.

(** [sum(d.values())]. *)
Definition total (d : PScores) : R :=
  foldr (fun kv acc => (kv.2 + acc)%R) 0%R d.

Section Methods.
Context {M : Type}.
Variable predict : predict_method M.
Variable _train : train_method M.

(** [_predict_bo_score], the body of [for (score1, score2), p in
    p_scores.items()] for a scheduled game: one live score fans out.  The
    state is [(new_p_scores, p_finished_scores)]. *)
Definition bo_branch (drawable : bool) (p_win p_draw p_loss : R) (max_wins : Z)
    (state : PScores * PScores) (item : (Z * Z) * R) : PScores * PScores :=
  let '(new_p_scores, p_finished_scores) := state in
  let '((score1, score2), p) := item in
  let '(new_p_scores, p_finished_scores) :=
    if bool_decide (score1 + 1 = max_wins) then
      (new_p_scores, padd (score1 + 1, score2) (p * p_win)%R p_finished_scores)
    else
      (padd (score1 + 1, score2) (p * p_win)%R new_p_scores, p_finished_scores) in
  let '(new_p_scores, p_finished_scores) :=
    if bool_decide (score2 + 1 = max_wins) then
      (new_p_scores, padd (score1, score2 + 1) (p * p_loss)%R p_finished_scores)
    else
      (padd (score1, score2 + 1) (p * p_loss)%R new_p_scores, p_finished_scores) in
  let new_p_scores :=
    if drawable then padd (score1, score2) (p * p_draw)%R new_p_scores
    else new_p_scores in
  (new_p_scores, p_finished_scores).

(** One scheduled game of [_predict_bo_score]: the body of
    [for drawable in drawables], given the game's probabilities.  Returns
    [(new_p_scores, p_finished_scores)]. *)
Definition bo_game (drawable : bool) (p_win p_draw p_loss : R) (max_wins : Z)
    (p_scores p_finished_scores : PScores) : PScores * PScores :=
  foldl (bo_branch drawable p_win p_draw p_loss max_wins)
        ([], p_finished_scores) p_scores.

(** The scheduled games: [for drawable in drawables].  The state is
    [(p_scores, p_finished_scores, p_loss)]; [p_loss] is unbound ([None])
    until the first game binds it, and keeps the value of the last game. *)
Definition bo_games (p_undrawable p_drawable : R * R) (max_wins : Z)
    (drawables : list bool) (st : PScores * PScores * option R)
    : PScores * PScores * option R :=
  foldl
    (fun '(p_scores, p_finished_scores, _) (drawable : bool) =>
       let '(p_win, p_draw) := if drawable then p_drawable else p_undrawable in
       let p_loss := (1 - p_win - p_draw)%R in
       let '(new_p_scores, p_finished_scores) :=
         bo_game drawable p_win p_draw p_loss max_wins
                 p_scores p_finished_scores in
       (new_p_scores, p_finished_scores, Some p_loss))
    st drawables.

(** [_predict_bo_score], the body of the tie-breaker's loop over the live
    scores. *)
Definition bo_tie_branch (p_win : R) (p_loss : option R)
    (acc : result PScores) (item : (Z * Z) * R) : result PScores :=
  let '((score1, score2), p) := item in
  new_p_scores ← acc;
  if bool_decide (score1 = score2) then
    let new_p_scores := padd (score1 + 1, score2) (p * p_win)%R new_p_scores in
    match p_loss with
    | Some p_loss => Ok (padd (score1, score2 + 1) (p * p_loss)%R new_p_scores)
    | None => Raise NameError
    end
  else Ok (padd (score1, score2) p new_p_scores).

(** "Add a tie-breaker game if needed": [p_win] is rebound to the
    undrawable one, [p_loss] is the variable the last scheduled game left. *)
Definition bo_tie_break (p_win : R) (p_loss : option R) (p_scores : PScores)
    : result PScores :=
  foldl (bo_tie_branch p_win p_loss) (Ok []) p_scores.

(** "Merge finished scores back." *)
Definition bo_merge (p_scores p_finished_scores : PScores) : PScores :=
  foldl (fun p_scores '(scores, p) => padd scores p p_scores)
        p_scores p_finished_scores.

(** [_predict_bo_score] once the two predictions are known. *)
Definition bo_score (p_undrawable p_drawable : R * R)
    (drawables : list bool) (max_wins : Z) : result PScores :=
  let '(p_scores, p_finished_scores, p_loss) :=
    bo_games p_undrawable p_drawable max_wins drawables
             ([((0, 0), 1%R)], [], None) in
  p_scores ← bo_tie_break p_undrawable.1 p_loss p_scores;
  Ok (bo_merge p_scores p_finished_scores).

(** [Predictor._predict_bo_score]. *)
Definition _predict_bo_score (self : Predictor) (model : M)
    (teams : string * string) (rosters : option (Roster * Roster))
    (full_rosters : option (FullRoster * FullRoster))
    (drawables : list bool) (max_wins : Z) : result PScores :=
  p_undrawable ← predict self model teams rosters full_rosters false;
  p_drawable ← predict self model teams rosters full_rosters true;
  bo_score p_undrawable p_drawable drawables max_wins.

(** The game pattern and clinch count [predict_match_score] chooses.  The
    second and third tests are [in] on a parenthesised string, so they are
    substring tests. *)
Definition match_pattern (match_format : string) : result (list bool * Z) :=
  if bool_decide (match_format = "preseason") || bool_decide (match_format = "regular")
  then Ok ([true; false; true; false], 4)
  else if str_in match_format "best-of-5"
  then Ok ([false; false; false; false; false], 3)
  else if str_in match_format "best-of-7"
  then Ok ([false; false; false; false; false; false; false], 4)
  else Raise NotImplementedError.

(** [Predictor.predict_match_score]. *)
Definition predict_match_score (self : Predictor) (model : M) (match_ : Game.t)
    : result PScores :=
  '(drawables, max_wins) ← match_pattern (Game.match_format match_);
  _predict_bo_score self model (Game.teams match_) (Game.rosters match_)
                    (Game.full_rosters match_) drawables max_wins.


(** ** Evaluation and training loop *)

(** [Predictor.evaluate]. *)
Definition evaluate (self : Predictor) (model : M) (game : Game.t)
    : result (R * bool) :=
  if bool_decide ((Game.score game).1 = (Game.score game).2) then
    Ok (0%R, false)
  else
    '(p_win, p_draw) ←
      predict self model (Game.teams game) (Game.rosters game) None false;
    let p_win := Rmax 0 (Rmin p_win 1) in
    let p_draw := Rmax 0 (Rmin p_draw 1) in
    let p_loss := (1 - p_win - p_draw)%R in
    let '(p, correct) :=
      if bool_decide ((Game.score game).1 > (Game.score game).2) then
        (p_win, bool_decide (p_loss < p_win)%R)
      else
        (p_loss, bool_decide (p_win < p_loss)%R) in
    (* [math.log] raises [ValueError] outside its domain. *)
    if bool_decide (0 < 2 * p)%R then Ok (ln (2 * p), correct)
    else Raise ValueError.

(** [Predictor._update_rosters]: [appendleft] on a [deque] of bounded
    length drops from the right. *)
Definition _update_rosters (game : Game.t) (self : Predictor) : outcome :=
  match Game.rosters game, Game.full_rosters game with
  | Some (roster1, roster2), Some (full_roster1, full_roster2) =>
      Returned
        (foldl
           (fun self '(team, roster, full_roster) =>
              let queue := default [] (roster_queues self !! team) in
              let self := set_roster_queues
                            (<[team := take (roster_queue_size self) (roster :: queue)]>
                               (roster_queues self)) self in
              set_last_full_rosters
                (<[team := full_roster]> (last_full_rosters self)) self)
           self
           [((Game.teams game).1, roster1, full_roster1);
            ((Game.teams game).2, roster2, full_roster2)])
  | _, _ => Raised TypeError self
  end.

(** [Predictor._update_draws]. *)
Definition _update_draws (game : Game.t) (self : Predictor) (model : M)
    : outcome :=
  match
    (if Game.drawable game then
       '(_, p_draw) ←
         predict self model (Game.teams game) (Game.rosters game) None true;
       Ok (set_expected_draws (expected_draws self + p_draw)%R self)
     else Ok self)
  with
  | Raise e => Raised e self
  | Ok self =>
      if bool_decide ((Game.score game).1 = (Game.score game).2) then
        Returned (set_real_draws (real_draws self + 1)%R self)
      else Returned self
  end.

(** What a call of [train] leaves: the point it returns or the exception it
    raises, with the object and the model as they are then. *)
Definition trained : Type := result R * (Predictor * M).

(** [Predictor.train] after the evaluation is recorded: the four updates and
    [return point]. *)
Definition train_updates (game : Game.t) (point : R) (self : Predictor)
    (model : M) : trained :=
  match _update_rosters game self with
  | Raised e self => (Raise e, (self, model))
  | Returned self =>
      match _update_standings game self with
      | Raised e self => (Raise e, (self, model))
      | Returned self =>
          match _update_draws game self model with
          | Raised e self => (Raise e, (self, model))
          | Returned self =>
              match _train game self model with
              | Raise e => (Raise e, (self, model))
              | Ok model => (Ok point, (self, model))
              end
          end
      end
  end.

(** [Predictor.train]. *)
Definition train (game : Game.t) (self : Predictor) (model : M) : trained :=
  match evaluate self model game with
  | Raise e => (Raise e, (self, model))
  | Ok (point, correct) =>
      let self := set_points (points self ++ [point])%list self in
      let self := set_corrects (corrects self ++ [correct])%list self in
      train_updates game point self model
  end.

(** The loop of [Predictor.train_games], from a running [total_point]. *)
Fixpoint train_games_from (total_point : R) (games : list Game.t)
    (self : Predictor) (model : M) : trained :=
  match games with
  | [] => (Ok total_point, (self, model))
  | game :: games =>
      match train game self model with
      | (Raise e, st) => (Raise e, st)
      | (Ok point, (self, model)) =>
          train_games_from (total_point + point)%R games self model
      end
  end.

(** [Predictor.train_games]. *)
Definition train_games (games : list Game.t) (self : Predictor) (model : M)
    : trained :=
  train_games_from 0.0%R games self model.
End Methods.

(** ** Stage prediction: normalising 0% and 100% *)

(** Python's order on tuples of two integers. *)
Definition tuple_lt (x y : Z * Z) : Prop :=
  x.1 < y.1 ∨ (x.1 = y.1 ∧ x.2 < y.2).
Definition tuple_le (x y : Z * Z) : Prop :=
  x.1 < y.1 ∨ (x.1 = y.1 ∧ x.2 ≤ y.2).

#[global] Instance tuple_lt_dec : RelDecision tuple_lt.
Proof. intros x y. unfold tuple_lt. apply _. Defined.
#[global] Instance tuple_le_dec : RelDecision tuple_le.
Proof. intros x y. unfold tuple_le. apply _. Defined.

(** [sorted(l)] on such tuples. *)
Definition sorted (l : list (Z * Z)) : list (Z * Z) := merge_sort tuple_le l.

(** [l[-k]] for [k ≥ 1]. *)
Definition from_end {A : Type} (k : nat) (l : list A) : result A :=
  if bool_decide (k ≤ length l)%nat then
    match l !! (length l - k)%nat with
    | Some x => Ok x
    | None => Raise IndexError
    end
  else Raise IndexError.

(** [d.values()]. *)
Definition values {A : Type} (d : gmap string A) : list A := (map_to_list d).*2.

(** [d[k]] on a plain dict. *)
Definition dict_get {A : Type} (d : gmap string A) (k : string) : result A :=
  match d !! k with
  | Some x => Ok x
  | None => Raise KeyError
  end.

(** A probability as [predict_stage] returns it: the simulated frequency, or
    the boolean that replaces it. *)
Inductive prob : Type :=
  | Float (p : R)
  | Bool (b : bool).

Section Stage.
(** [game.TEAMS], and what [_predict_stage] returns for the matches (the
    frequencies of a random simulation, one pair per team). *)
Variable TEAMS : list string.
Variable _predict_stage : Predictor → list Game.t → gmap string (R * R).

(** The matches [predict_stage] keeps. *)
Definition stage_matches (self : Predictor) (matches : list Game.t)
    : list Game.t :=
  filter (fun match_ => Some (Game.stage match_) = stage self ∧
                        Game.match_format match_ = "regular") matches.

(** [wins = {team: (self.stage_wins[team], self.stage_map_diffs[team])
             for team in TEAMS}]. *)
Definition stage_table (self : Predictor) : gmap string (Z * Z) :=
  list_to_map
    ((fun team => (team, (dget (stage_wins self) team,
                          dget (stage_map_diffs self) team))) <$> TEAMS).

(** The body of [for team in match.teams]. *)
Definition bound_team (tables : gmap string (Z * Z) * gmap string (Z * Z))
    (team : string) : result (gmap string (Z * Z) * gmap string (Z * Z)) :=
  let '(min_wins, max_wins) := tables in
  '(win, map_diff) ← dict_get min_wins team;
  let min_wins := <[team := (win, map_diff - 4)]> min_wins in
  '(win, map_diff) ← dict_get max_wins team;
  let max_wins := <[team := (win + 1, map_diff + 4)]> max_wins in
  Ok (min_wins, max_wins).

(** [for match in matches: for team in match.teams: ...], from
    [min_wins = wins.copy()] and [max_wins = wins.copy()]. *)
Definition stage_bounds (wins : gmap string (Z * Z)) (matches : list Game.t)
    : result (gmap string (Z * Z) * gmap string (Z * Z)) :=
  foldl
    (fun acc match_ =>
       tables ← acc;
       tables ← bound_team tables (Game.teams match_).1;
       bound_team tables (Game.teams match_).2)
    (Ok (wins, wins)) matches.

(** The body of [for team, (p_title, p_top1) in prediction.items()]: the
    pair stored back at [prediction[team]]. *)
Definition normalize_team (self : Predictor)
    (min_wins max_wins : gmap string (Z * Z))
    (min_8th_wins max_9th_wins : Z * Z)
    (team : string) (p : prob * prob) : result (prob * prob) :=
  let '(p_title, p_top1) := p in
  max_team ← dict_get max_wins team;
  if bool_decide (tuple_lt max_team min_8th_wins) then
    Ok (Bool false, Bool false)
  else
    min_team ← dict_get min_wins team;
    if bool_decide (tuple_lt max_9th_wins min_team) then
      let p_title := Bool true in
      let p_top1 :=
        if bool_decide (dget (stage_title_losses self) team > 0) then Bool false
        else if stage_finished self then Bool true
        else p_top1 in
      Ok (p_title, p_top1)
    else Ok (p_title, p_top1).

(** [Predictor.predict_stage]. *)
Definition predict_stage (self : Predictor) (matches : list Game.t)
    : result (gmap string (prob * prob)) :=
  let matches := stage_matches self matches in
  let prediction : gmap string (prob * prob) :=
    (fun p => (Float p.1, Float p.2)) <$> _predict_stage self matches in
  (* Normalize 0% and 100% for predictions. *)
  let wins := stage_table self in
  '(min_wins, max_wins) ← stage_bounds wins matches;
  min_8th_wins ← from_end 8 (sorted (values min_wins));
  max_9th_wins ← from_end 9 (sorted (values max_wins));
  map_fold
    (fun team p acc =>
       prediction ← acc;
       p ← normalize_team self min_wins max_wins min_8th_wins max_9th_wins
                          team p;
       Ok (<[team := p]> prediction))
    (Ok prediction) prediction.
End Stage.


(** ** [SimplePredictor] *)

Module SimplePredictor.
Record t := { alpha : R; beta : R }.

(** [SimplePredictor.__init__]. *)
Definition init : t := {| alpha := 0.2; beta := 0.0 |}.

(** [SimplePredictor._train]. *)
Definition _train : train_method t := fun _ _ model => Ok model.

(** [SimplePredictor.predict]. *)
Definition predict : predict_method t := fun self model teams _ _ _ =>
  let '(team1, team2) := teams in
  let diff1 := dget (map_diffs self) team1 in
  let diff2 := dget (map_diffs self) team2 in
  let p_win :=
    if bool_decide (diff1 > diff2) then (0.5 + alpha model)%R
    else if bool_decide (diff1 = diff2) then
      let record := dget (head_to_head_map_diffs self) teams in
      if bool_decide (record > 0) then (0.5 + beta model)%R
      else if bool_decide (record = 0) then 0.5%R
      else (0.5 - beta model)%R
    else (0.5 - alpha model)%R in
  Ok (p_win, 0.0%R).
End SimplePredictor.

(** ** [TrueSkillPredictor] *)

(** [trueskill.Rating]. *)
Module Rating.
Record t := { mu : R; sigma : R }.
End Rating.

(** [trueskill.TrueSkill]: the attributes of a rating environment. *)
Module TrueSkill.
Record t := { mu : R; sigma : R; beta : R; tau : R; draw_probability : R }.

(** [env.create_rating()]. *)
Definition create_rating (env : t) : Rating.t :=
  {| Rating.mu := mu env; Rating.sigma := sigma env |}.
End TrueSkill.

(** [sum(l)] on floats. *)
Definition Rsum (l : list R) : R := foldl Rplus 0%R l.

Module TrueSkillPredictor.
Record t := {
  mu : R;
  sigma : R;
  beta : R;
  tau : R;
  draw_probability : R;
  env_drawable : TrueSkill.t;
  env_undrawable : TrueSkill.t;
  ratings : gmap string Rating.t
}.

(** [TrueSkillPredictor.__init__]. *)
Definition init (mu sigma beta tau draw_probability : R) : t :=
  {| mu := mu; sigma := sigma; beta := beta; tau := tau;
     draw_probability := draw_probability;
     env_drawable :=
       {| TrueSkill.mu := mu; TrueSkill.sigma := sigma; TrueSkill.beta := beta;
          TrueSkill.tau := tau; TrueSkill.draw_probability := draw_probability |};
     env_undrawable :=
       {| TrueSkill.mu := mu; TrueSkill.sigma := sigma; TrueSkill.beta := beta;
          TrueSkill.tau := tau; TrueSkill.draw_probability := 0.0 |};
     ratings := ∅ |}.

(** [self.ratings[name]]: the jar is a [defaultdict] whose default is
    [self.env_drawable.create_rating()].  The entry a read leaves behind is
    that same default, so it is not recorded. *)
Definition rating (self : t) (name : string) : Rating.t :=
  default (TrueSkill.create_rating (env_drawable self)) (ratings self !! name).

(** [TrueSkillPredictor._teams_ratings]. *)
Definition _teams_ratings (self : t) (teams : string * string)
    : list Rating.t * list Rating.t :=
  ([rating self teams.1], [rating self teams.2]).

Section Backend.
(** What the [trueskill] package supplies: the normal distribution function
    [env.cdf], [calc_draw_margin] and [env.rate]. *)
Variable cdf : R → R.
Variable calc_draw_margin : R → nat → TrueSkill.t → R.
Variable rate :
  TrueSkill.t → list (list Rating.t) → list Z → list (list Rating.t).

(** [TrueSkillPredictor.predict]. *)
Definition predict : predict_method t :=
  fun _ self teams rosters full_rosters drawable =>
  let env := if drawable then env_drawable self else env_undrawable self in
  let '(team1_ratings, team2_ratings) := _teams_ratings self teams in
  let size := (length team1_ratings + length team2_ratings)%nat in
  let delta_mu := (Rsum (Rating.mu <$> team1_ratings) -
                   Rsum (Rating.mu <$> team2_ratings))%R in
  let draw_margin := calc_draw_margin (TrueSkill.draw_probability env) size env in
  let sum_sigma :=
    Rsum ((fun r => (Rating.sigma r ^ 2)%R) <$> (team1_ratings ++ team2_ratings)%list) in
  let radicand := (INR size * TrueSkill.beta env ^ 2 + sum_sigma)%R in
  (* [math.sqrt] raises [ValueError] on a negative number, and the division
     [ZeroDivisionError] on a zero denominator. *)
  if bool_decide (radicand < 0)%R then Raise ValueError
  else
    let denom := sqrt radicand in
    if bool_decide (denom = 0%R) then Raise ZeroDivisionError
    else
      let p_win := cdf ((delta_mu - draw_margin) / denom) in
      let p_not_loss := cdf ((delta_mu + draw_margin) / denom) in
      Ok (p_win, (p_not_loss - p_win)%R).

(** [TrueSkillPredictor._update_teams_ratings]. *)
Definition _update_teams_ratings (game : Game.t)
    (teams_ratings : list (list Rating.t)) (self : t) : result t :=
  foldl
    (fun acc '(team, team_ratings) =>
       self ← acc;
       (* [self.ratings[team] = ratings[0]] *)
       match team_ratings with
       | rating :: _ =>
           Ok {| mu := mu self; sigma := sigma self; beta := beta self;
                 tau := tau self; draw_probability := draw_probability self;
                 env_drawable := env_drawable self;
                 env_undrawable := env_undrawable self;
                 ratings := <[team := rating]> (ratings self) |}
       | [] => Raise IndexError
       end)
    (Ok self)
    (zip [(Game.teams game).1; (Game.teams game).2] teams_ratings).

(** [TrueSkillPredictor._train]. *)
Definition _train : train_method t := fun game _ self =>
  let '(score1, score2) := Game.score game in
  let ranks :=
    if bool_decide (score1 > score2) then [0; 1]      (* Team 1 wins. *)
    else if bool_decide (score1 = score2) then [0; 0] (* Draw. *)
    else [1; 0] in                                    (* Team 2 wins. *)
  let env := if Game.drawable game then env_drawable self else env_undrawable self in
  let '(team1_ratings, team2_ratings) := _teams_ratings self (Game.teams game) in
  let teams_ratings := rate env [team1_ratings; team2_ratings] ranks in
  _update_teams_ratings game teams_ratings self.
End Backend.
End TrueSkillPredictor.


(** ** Vocabulary of the properties *)

(** The game opens a stage that is neither the current one nor an extension
    of its name. *)
Definition genuinely_new_stage (game : Game.t) (self : Predictor) : Prop :=
  Some (Game.stage game) ≠ stage self ∧
  ∀ cur, stage self = Some cur → startswith (Game.stage game) cur = false.

(** The object on which [_update_standings] applies the game's own effect:
    the stage and the match id are resolved. *)
Definition entering (game : Game.t) (self : Predictor) : Predictor :=
  _update_match_ids (Game.match_id game) (Game.teams game)
                    (_update_stage (Game.stage game) self).

(** Every stage counter reads zero, for every team and every pair. *)
Definition stage_counters_zero (self : Predictor) : Prop :=
  (∀ team, dget (stage_wins self) team = 0) ∧
  (∀ team, dget (stage_losses self) team = 0) ∧
  (∀ team, dget (stage_map_diffs self) team = 0) ∧
  (∀ pair, dget (stage_head_to_head_map_diffs self) pair = 0) ∧
  (∀ team, dget (stage_title_wins self) team = 0) ∧
  (∀ team, dget (stage_title_losses self) team = 0).

(** Every playoff counter reads zero. *)
Definition playoff_counters_zero (self : Predictor) : Prop :=
  (∀ team, dget (playoff_wins self) team = 0) ∧
  (∀ team, dget (playoff_losses self) team = 0).

(** The four map-differential tables of two objects agree. *)
Definition same_map_diffs (a b : Predictor) : Prop :=
  map_diffs a = map_diffs b ∧
  head_to_head_map_diffs a = head_to_head_map_diffs b ∧
  stage_map_diffs a = stage_map_diffs b ∧
  stage_head_to_head_map_diffs a = stage_head_to_head_map_diffs b.

(** All win/loss, map-differential, head-to-head, title and playoff tables of
    two objects agree. *)
Definition same_counters (a b : Predictor) : Prop :=
  wins a = wins b ∧ losses a = losses b ∧
  head_to_head_diffs a = head_to_head_diffs b ∧
  stage_wins a = stage_wins b ∧ stage_losses a = stage_losses b ∧
  stage_title_wins a = stage_title_wins b ∧
  stage_title_losses a = stage_title_losses b ∧
  playoff_wins a = playoff_wins b ∧ playoff_losses a = playoff_losses b ∧
  same_map_diffs a b.

(** A game as the tracker reads it. *)
Definition a_game (teams : string * string) (score : Z * Z) (stage : string)
    (match_id : Z) (match_format : string) : Game.t :=
  {| Game.teams := teams; Game.rosters := None; Game.full_rosters := None;
     Game.score := score; Game.drawable := false; Game.stage := stage;
     Game.match_id := match_id; Game.match_format := match_format |}.

(** A tracker in "Stage 1" whose playoff and stage tables are not empty. *)
Definition tracker_in_stage_1 : Predictor :=
  set_stage_map_diffs {[ "NYE" := 3 ]}
    (set_playoff_wins {[ "NYE" := 2 ]}
       (set_base_stage (Some "Stage 1") (set_stage (Some "Stage 1") (init 12)))).

(** A drawn playoff game of "Stage 2", and one that is won. *)
Definition stage_2_draw : Game.t :=
  a_game ("NYE", "PHI") (2, 2) "Stage 2" 7 "playoff".
Definition stage_2_win : Game.t :=
  a_game ("NYE", "PHI") (3, 1) "Stage 2" 7 "playoff".

(** A tracker that has seen a game of match 1 and then a game of match 2,
    and a drawn game of match 1 that arrives afterwards. *)
Definition after_two_matches : Predictor :=
  state_of
    (update_standings_all
       [a_game ("NYE", "PHI") (2, 1) "Stage 1" 1 "regular";
        a_game ("BOS", "LDN") (2, 0) "Stage 1" 2 "regular"]
       (init 12)).
Definition late_draw : Game.t :=
  a_game ("NYE", "PHI") (1, 1) "Stage 1" 1 "regular".

(** [lead x y] is 1 when a tally of [x] is ahead of a tally of [y]. *)
Definition lead (x y : Z) : Z := if bool_decide (x > y) then 1 else 0.

(** A game of the match [match_id] between [A] and [B] that is not drawn. *)
Definition in_match (A B stage : string) (match_id : Z) (match_format : string)
    (game : Game.t) : Prop :=
  Game.teams game = (A, B) ∧ Game.stage game = stage ∧
  Game.match_id game = match_id ∧ Game.match_format game = match_format ∧
  (Game.score game).1 ≠ (Game.score game).2.

(** The win/loss counters of a team: season, stage, title and playoff. *)
Definition win_loss_counters (self : Predictor) (team : string) : list Z :=
  [dget (wins self) team; dget (losses self) team;
   dget (stage_wins self) team; dget (stage_losses self) team;
   dget (stage_title_wins self) team; dget (stage_title_losses self) team;
   dget (playoff_wins self) team; dget (playoff_losses self) team].

(** The games' own effects in turn, the stage and the match id being
    resolved already. *)
Fixpoint standings_body_all (games : list Game.t) (self : Predictor) : outcome :=
  match games with
  | [] => Returned self
  | game :: games =>
      match _update_standings_body game self with
      | Returned self => standings_body_all games self
      | Raised e self => Raised e self
      end
  end.

(** The win/loss counters of [team] with the credit for the match between
    [A] and [B] taken out, when their tallies are [a] and [b]: the credit goes
    to the season and stage counters for a regular match, to the title
    counters for a title match, to the playoff counters for a playoff
    match. *)
Definition uncredited (match_format stage A B : string) (a b : Z)
    (self : Predictor) (team : string) : list Z :=
  let won := (if decide (team = A) then lead a b else 0) +
             (if decide (team = B) then lead b a else 0) in
  let lost := (if decide (team = A) then lead b a else 0) +
              (if decide (team = B) then lead a b else 0) in
  let is_regular := bool_decide (match_format = "regular") in
  let is_title := negb is_regular && str_in "Title" stage in
  let is_playoff :=
    negb is_regular && negb (str_in "Title" stage) &&
    bool_decide (match_format = "playoff") in
  let on (b : bool) (n : Z) := if b then n else 0 in
  [dget (wins self) team - on is_regular won;
   dget (losses self) team - on is_regular lost;
   dget (stage_wins self) team - on is_regular won;
   dget (stage_losses self) team - on is_regular lost;
   dget (stage_title_wins self) team - on is_title won;
   dget (stage_title_losses self) team - on is_title lost;
   dget (playoff_wins self) team - on is_playoff won;
   dget (playoff_losses self) team - on is_playoff lost].

(** The games of a best-of-5 title match that "NYE" wins 3-1, and two orders
    in which they may arrive. *)
Definition title_game_won : Game.t :=
  a_game ("NYE", "PHI") (2, 1) "Stage 1 Title Matches" 9 "best-of-5".
Definition title_game_lost : Game.t :=
  a_game ("NYE", "PHI") (0, 2) "Stage 1 Title Matches" 9 "best-of-5".
Definition clinched_last : list Game.t :=
  [title_game_won; title_game_lost; title_game_won; title_game_won].
Definition lost_first : list Game.t :=
  [title_game_lost; title_game_won; title_game_won; title_game_won].

(** The games of a list that the first team, and the second team, won. *)
Definition first_won (games : list Game.t) : Z :=
  Z.of_nat (length (filter (fun game => (Game.score game).1 > (Game.score game).2) games)).
Definition second_won (games : list Game.t) : Z :=
  Z.of_nat (length (filter (fun game => (Game.score game).1 < (Game.score game).2) games)).

(** The exception a failed read of [self.score[team]] raises. *)
Definition score_error (self : Predictor) : exn :=
  match score self with
  | None => TypeError
  | Some _ => KeyError
  end.

(** A pair [(p_win, p_draw)] of per-game probabilities. *)
Definition valid_probabilities (p : R * R) : Prop :=
  (0 <= p.1)%R ∧ (0 <= p.2)%R ∧ (p.1 + p.2 <= 1)%R.

(** Every score of a distribution has a non-negative probability. *)
Definition non_negative (d : PScores) : Prop :=
  Forall (fun kv => (0 <= kv.2)%R) d.

(** A [predict] method that answers with fixed pairs, one for undrawable and
    one for drawable games. *)
Definition fixed_predict (p_undrawable p_drawable : R * R) : predict_method unit :=
  fun _ _ _ _ _ drawable => Ok (if drawable then p_drawable else p_undrawable).

(** A best-of-5 match, and a regular match. *)
Definition best_of_5_match : Game.t :=
  a_game ("NYE", "PHI") (0, 0) "Stage 1 Title Matches" 9 "best-of-5".
Definition regular_match : Game.t :=
  a_game ("NYE", "PHI") (0, 0) "Stage 1" 3 "regular".

(** A distribution function with the symmetry of the normal one, and a draw
    margin that grows with the draw probability: stand-ins for the two
    functions of the [trueskill] package. *)
Definition rational_cdf (x : R) : R := ((1 + x / (1 + Rabs x)) / 2)%R.
Definition linear_draw_margin (draw_probability : R) (size : nat)
    (env : TrueSkill.t) : R :=
  (draw_probability * sqrt (INR size) * TrueSkill.beta env)%R.

(** The default predictor of [TrueSkillPredictor.__init__]. *)
Definition default_trueskill : TrueSkillPredictor.t :=
  TrueSkillPredictor.init 2500.0 (2500.0 / 3.0) (2500.0 / 2.0) (25.0 / 3.0) 0.06.

(** The number of the matches in which a team plays. *)
Definition appearances (matches : list Game.t) (team : string) : Z :=
  Z.of_nat (length (filter (fun match_ => (Game.teams match_).1 = team) matches)) +
  Z.of_nat (length (filter (fun match_ => (Game.teams match_).2 = team) matches)).

(** The standing [(wins, map diff)] of a team after [k] more matches, all lost
    0-4 without a win credited, or all won 4-0. *)
Definition worst_possible (standing : Z * Z) (k : Z) : Z * Z :=
  (standing.1, standing.2 - 4 * k).
Definition best_possible (standing : Z * Z) (k : Z) : Z * Z :=
  (standing.1 + k, standing.2 + 4 * k).

(** The stage standing [(stage wins, stage map diff)] of a team. *)
Definition stage_standing (self : Predictor) (team : string) : Z * Z :=
  (dget (stage_wins self) team, dget (stage_map_diffs self) team).

(** Twelve teams; a tracker late in "Stage 1" with eight teams ahead and four
    behind; the two matches still to play; and a simulation that gave every
    team the frequencies (0.5, 0.1). *)
Definition TWELVE_TEAMS : list string :=
  ["BOS"; "DAL"; "FLA"; "GLA"; "HOU"; "LDN"; "NYE"; "PHI"; "SEO"; "SFS"; "SHD";
   "VAL"].
Definition late_stage_1 : Predictor :=
  set_stage_wins
    (list_to_map
       [("NYE", 9); ("BOS", 8); ("LDN", 8); ("SEO", 7); ("HOU", 7); ("PHI", 6);
        ("GLA", 6); ("VAL", 5); ("DAL", 3); ("SFS", 3); ("FLA", 1); ("SHD", 0)])
    (set_base_stage (Some "Stage 1") (set_stage (Some "Stage 1") (init 12))).
Definition last_matches : list Game.t :=
  [a_game ("DAL", "SFS") (0, 0) "Stage 1" 57 "regular";
   a_game ("FLA", "SHD") (0, 0) "Stage 1" 58 "regular";
   a_game ("NYE", "BOS") (0, 0) "Stage 1 Title Matches" 59 "best-of-5"].
Definition even_simulation (_ : Predictor) (_ : list Game.t) : gmap string (R * R) :=
  list_to_map ((fun team => (team, (0.5, 0.1)%R)) <$> TWELVE_TEAMS).

(** An undrawable regular-season game that "NYE" wins, and a [rate] that
    moves the first-ranked rating up by one and the other down by one. *)
Definition won_game : Game.t :=
  a_game ("NYE", "PHI") (2, 1) "Stage 1" 3 "regular".
Definition unit_rate (_ : TrueSkill.t) (teams_ratings : list (list Rating.t))
    (ranks : list Z) : list (list Rating.t) :=
  zip_with
    (fun (team_ratings : list Rating.t) (rank : Z) =>
       (fun r => {| Rating.mu := if bool_decide (rank = 0)
                                 then (Rating.mu r + 1)%R
                                 else (Rating.mu r - 1)%R;
                    Rating.sigma := Rating.sigma r |}) <$> team_ratings)
    teams_ratings ranks.


(** A density to go with [rational_cdf]: its derivative. *)
Definition rational_pdf (x : R) : R := (/ (2 * (1 + Rabs x) ^ 2))%R.

(** ** The rating update

    [env.rate] is the update of the rating system.  For two teams of one
    rating each, which is how [TrueSkillPredictor._train] calls it, the
    update has a closed form: with the variances widened by [tau ^ 2],
    [c ^ 2 = 2 * beta ^ 2 + var1 + var2], the margin [eps = draw_margin / c]
    and [t] the difference of the means over [c], counted from the side
    ranked first, the means move by [var / c * v] and the variances shrink
    by the factor [1 - var / c ^ 2 * w], where [v] and [w] are the
    correction functions of a win or of a draw.  [pdf] and [cdf] are the
    density and the distribution function of the environment. *)
Section Update.
Variable pdf cdf : R → R.
Variable calc_draw_margin : R → nat → TrueSkill.t → R.

(** The correction functions of a win. *)
Definition v_win (t eps : R) : R := (pdf (t - eps) / cdf (t - eps))%R.
Definition w_win (t eps : R) : R := (v_win t eps * (v_win t eps + t - eps))%R.

(** The correction functions of a draw. *)
Definition v_draw (t eps : R) : R :=
  ((pdf (- eps - t) - pdf (eps - t)) / (cdf (eps - t) - cdf (- eps - t)))%R.
Definition w_draw (t eps : R) : R :=
  (v_draw t eps ^ 2 +
   ((eps - t) * pdf (eps - t) + (eps + t) * pdf (eps + t)) /
   (cdf (eps - t) - cdf (- eps - t)))%R.

(** The update of two teams of one rating each; [ranks] orders them, the
    lower rank being the better one.  Other shapes are returned as they
    are. *)
Definition standard_rate (env : TrueSkill.t)
    (teams_ratings : list (list Rating.t)) (ranks : list Z)
    : list (list Rating.t) :=
  match teams_ratings, ranks with
  | [[rating1]; [rating2]], [rank1; rank2] =>
      let var1 := (Rating.sigma rating1 ^ 2 + TrueSkill.tau env ^ 2)%R in
      let var2 := (Rating.sigma rating2 ^ 2 + TrueSkill.tau env ^ 2)%R in
      let c := sqrt (2 * TrueSkill.beta env ^ 2 + var1 + var2) in
      let eps :=
        (calc_draw_margin (TrueSkill.draw_probability env) 2%nat env / c)%R in
      let '(v, w) :=
        if bool_decide (rank1 < rank2) then
          let t := ((Rating.mu rating1 - Rating.mu rating2) / c)%R in
          (v_win t eps, w_win t eps)
        else if bool_decide (rank2 < rank1) then
          let t := ((Rating.mu rating2 - Rating.mu rating1) / c)%R in
          ((- v_win t eps)%R, w_win t eps)
        else
          let t := ((Rating.mu rating1 - Rating.mu rating2) / c)%R in
          (v_draw t eps, w_draw t eps) in
      [[{| Rating.mu := Rating.mu rating1 + var1 / c * v;
           Rating.sigma := sqrt (var1 * (1 - var1 / c ^ 2 * w)) |}%R];
       [{| Rating.mu := Rating.mu rating2 - var2 / c * v;
           Rating.sigma := sqrt (var2 * (1 - var2 / c ^ 2 * w)) |}%R]]
  | _, _ => teams_ratings
  end.
End Update.

(** The winner and the loser of a game that is not drawn. *)
Definition winning_team (game : Game.t) : string :=
  if bool_decide ((Game.score game).1 > (Game.score game).2)
  then (Game.teams game).1 else (Game.teams game).2.
Definition losing_team (game : Game.t) : string :=
  if bool_decide ((Game.score game).1 > (Game.score game).2)
  then (Game.teams game).2 else (Game.teams game).1.


(** * Further vocabulary *)

(** A head-to-head table is antisymmetric: what one team has over another,
    the other has under it. *)
Definition antisymmetric (d : gmap (string * string) Z) : Prop :=
  ∀ a b, dget d (a, b) = - dget d (b, a).

(** The three head-to-head tables of the tracker are antisymmetric. *)
Definition head_to_head_antisymmetric (self : Predictor) : Prop :=
  antisymmetric (head_to_head_diffs self) ∧
  antisymmetric (head_to_head_map_diffs self) ∧
  antisymmetric (stage_head_to_head_map_diffs self).

(** Every win is somebody's loss and every map won is somebody's map lost:
    the sums that balance in the tracker. *)
Definition balanced (self : Predictor) : Prop :=
  sum_values (wins self) = sum_values (losses self) ∧
  sum_values (stage_wins self) = sum_values (stage_losses self) ∧
  sum_values (stage_title_wins self) = sum_values (stage_title_losses self) ∧
  sum_values (playoff_wins self) = sum_values (playoff_losses self) ∧
  sum_values (map_diffs self) = 0 ∧
  sum_values (stage_map_diffs self) = 0.

(** Two win probabilities that mirror each other around one half by [x]. *)
Definition mirrored (x p p' : R) : Prop :=
  (p = (0.5 + x)%R ∧ p' = (0.5 - x)%R) ∨ (p = (0.5 - x)%R ∧ p' = (0.5 + x)%R).

(** A distribution function that is monotone with values in [0, 1]: a ramp
    from 0 at -1 to 1 at 1. *)
Definition ramp_cdf (x : R) : R := Rmax 0 (Rmin 1 ((x + 1) / 2)).

(** A final score is decided: the two sides differ and neither exceeds the
    clinch count. *)
Definition decided (max_wins : Z) (scores : Z * Z) : Prop :=
  scores.1 ≠ scores.2 ∧ 0 ≤ scores.1 ≤ max_wins ∧ 0 ≤ scores.2 ≤ max_wins.

(** ** Sampling tables *)

(** [_match_scores_cum_weights], the loop over one distribution: the scores
    in the order of the dict and the running sums of their probabilities.
    The state is [(scores, cum_weights, cum_weight)]. *)
Definition cum_weights_of (p_scores : PScores) : list (Z * Z) * list R :=
  let '(scores, cum_weights, _) :=
    foldl
      (fun '(scores, cum_weights, cum_weight) '(score, p) =>
         let cum_weight := (cum_weight + p)%R in
         (scores ++ [score], cum_weights ++ [cum_weight], cum_weight))
      ([], [], 0.0%R) p_scores in
  (scores, cum_weights).

(** [Predictor._match_scores_cum_weights]. *)
Definition _match_scores_cum_weights {M : Type} (predict : predict_method M)
    (self : Predictor) (model : M) (matches : list Game.t)
    : result (list (list (Z * Z)) * list (list R)) :=
  foldl
    (fun acc match_ =>
       '(scores_list, cum_weights_list) ← acc;
       p_scores ← predict_match_score predict self model match_;
       let '(scores, cum_weights) := cum_weights_of p_scores in
       Ok (scores_list ++ [scores], cum_weights_list ++ [cum_weights]))
    (Ok ([], [])) matches.

(** A list of floats never decreases. *)
Definition non_decreasing (l : list R) : Prop :=
  ∀ i j x y, (i ≤ j)%nat → l !! i = Some x → l !! j = Some y → (x <= y)%R.

(** What is true of the live and of the finished scores while the scheduled
    games are played. *)
Definition live_score (max_wins : Z) (scores : Z * Z) : Prop :=
  0 ≤ scores.1 < max_wins ∧ 0 ≤ scores.2 < max_wins.
Definition finished_score (max_wins : Z) (scores : Z * Z) : Prop :=
  (scores.1 = max_wins ∧ 0 ≤ scores.2 < max_wins) ∨
  (scores.2 = max_wins ∧ 0 ≤ scores.1 < max_wins).

(** A dict of scores with distinct keys, all of which satisfy [P]. *)
Definition score_table (P : Z * Z → Prop) (d : PScores) : Prop :=
  NoDup d.*1 ∧ Forall (fun kv => P kv.1) d.

(** The running sums [w + p1], [w + p1 + p2], ... of a dict's values. *)
Fixpoint running (w : R) (d : PScores) : list R :=
  match d with
  | [] => []
  | (_, p) :: d' => (w + p)%R :: running (w + p) d'
  end.

(** What one match's pair of lists is to the distribution [p_scores]: the
    scores are its keys in the order of the dict, and the cumulative weight
    at position [j] is the sum, from the left, of its first [j + 1]
    probabilities; the weights never decrease. *)
Definition sampling_table (p_scores : PScores) (scores : list (Z * Z))
    (cum_weights : list R) : Prop :=
  scores = p_scores.*1 ∧
  length cum_weights = length scores ∧
  (∀ j, (j < length scores)%nat →
        cum_weights !! j = Some (Rsum (take (S j) p_scores.*2))) ∧
  non_decreasing cum_weights.

(** The same, for the lists of lists of a sequence of matches. *)
Definition sampling_tables {M : Type} (predict : predict_method M)
    (self : Predictor) (model : M) (matches : list Game.t)
    (scores_list : list (list (Z * Z))) (cum_weights_list : list (list R))
    : Prop :=
  length scores_list = length matches ∧
  length cum_weights_list = length matches ∧
  ∀ i match_ scores cum_weights,
    matches !! i = Some match_ →
    scores_list !! i = Some scores →
    cum_weights_list !! i = Some cum_weights →
    ∃ p_scores,
      predict_match_score predict self model match_ = Ok p_scores ∧
      sampling_table p_scores scores cum_weights.

(** [predict] answers valid probabilities on the matches of a list. *)
Definition predicts_validly {M : Type} (predict : predict_method M)
    (self : Predictor) (model : M) (matches : list Game.t) : Prop :=
  ∀ match_ drawable p,
    match_ ∈ matches →
    predict self model (Game.teams match_) (Game.rosters match_)
            (Game.full_rosters match_) drawable = Ok p →
    valid_probabilities p.

(** Two trackers with the same evaluation history. *)
Definition same_history (a b : Predictor) : Prop :=
  points a = points b ∧ corrects a = corrects b.

(** A predictor whose history has one more entry. *)
Definition logged (point : R) (correct : bool) (self : Predictor) : Predictor :=
  set_corrects (corrects self ++ [correct])
    (set_points (points self ++ [point]) self).

(** A drawn game of a regular match that carries its rosters. *)
Definition drawn_game : Game.t :=
  {| Game.teams := ("NYE", "PHI");
     Game.rosters := Some (["Saebyeolbe"; "Pine"], ["Carpe"; "Eqo"]);
     Game.full_rosters := Some (["Saebyeolbe"; "Pine"; "Libero"], ["Carpe"; "Eqo"]);
     Game.score := (1, 1); Game.drawable := false; Game.stage := "Stage 1";
     Game.match_id := 3; Game.match_format := "regular" |}.

(** Two trackers with the same roster records. *)
Definition same_rosters (a b : Predictor) : Prop :=
  roster_queue_size a = roster_queue_size b ∧
  roster_queues a = roster_queues b ∧
  last_full_rosters a = last_full_rosters b.

(** No roster queue is longer than the [maxlen] of the deques. *)
Definition queues_bounded (self : Predictor) : Prop :=
  ∀ team queue,
    roster_queues self !! team = Some queue →
    (length queue ≤ roster_queue_size self)%nat.

(** Two trackers with the same draw counts. *)
Definition same_draws (a b : Predictor) : Prop :=
  expected_draws a = expected_draws b ∧ real_draws a = real_draws b.

(** The number of drawn games among [games]. *)
Definition drawn_games (games : list Game.t) : nat :=
  length (filter (fun game => (Game.score game).1 = (Game.score game).2) games).

(** [predict] never answers a negative draw probability. *)
Definition no_negative_draw {M : Type} (predict : predict_method M) : Prop :=
  ∀ self model teams rosters full_rosters drawable p,
    predict self model teams rosters full_rosters drawable = Ok p →
    (0 <= p.2)%R.

(** ** Simulated standings *)

(** [_predict_stage], the body of the loop over the matches of one
    iteration: [choices] has drawn [(score1, score2)] from the match's
    scores, and the copies [wins], [map_diffs] and [head_to_head_map_diffs] of
    the stage tables take it in. *)
Definition simulate_match (teams : string * string) (score : Z * Z)
    (tables : gmap string Z * gmap string Z * gmap (string * string) Z)
    : gmap string Z * gmap string Z * gmap (string * string) Z :=
  let '(wins, map_diffs, head_to_head_map_diffs) := tables in
  let '(team1, team2) := teams in
  let '(score1, score2) := score in
  let wins :=
    if bool_decide (score1 > score2) then incr team1 1 wins
    else if bool_decide (score1 < score2) then incr team2 1 wins
    else wins in
  let map_diff := score1 - score2 in
  let map_diffs := incr team1 map_diff map_diffs in
  let map_diffs := incr team2 (- map_diff) map_diffs in
  let head_to_head_map_diffs :=
    incr (team1, team2) map_diff head_to_head_map_diffs in
  let head_to_head_map_diffs :=
    incr (team2, team1) (- map_diff) head_to_head_map_diffs in
  (wins, map_diffs, head_to_head_map_diffs).

(** One iteration's loop over the matches, from the copies of the stage
    tables; [samples] holds the score drawn for each match. *)
Definition simulate_matches (self : Predictor) (matches : list Game.t)
    (samples : list (Z * Z))
    : gmap string Z * gmap string Z * gmap (string * string) Z :=
  foldl (fun tables '(match_, score) =>
           simulate_match (Game.teams match_) score tables)
        (stage_wins self, stage_map_diffs self,
         stage_head_to_head_map_diffs self)
        (zip matches samples).

(** [cmp_team] of [_stage_standings]; [u] is what [random()] returns if the
    comparison gets that far.  The three tables are [defaultdict]s, the
    table of win probabilities is a plain dict. *)
Definition cmp_team (wins map_diffs : gmap string Z)
    (head_to_head_map_diffs : gmap (string * string) Z)
    (p_wins_regular : gmap (string * string) R) (u : R)
    (team1 team2 : string) : result Z :=
  if bool_decide (dget wins team1 < dget wins team2) then Ok (-1)
  else if bool_decide (dget wins team1 > dget wins team2) then Ok 1
  else if bool_decide (dget map_diffs team1 < dget map_diffs team2) then Ok (-1)
  else if bool_decide (dget map_diffs team1 > dget map_diffs team2) then Ok 1
  else if bool_decide (dget head_to_head_map_diffs (team1, team2) < 0) then Ok (-1)
  else if bool_decide (dget head_to_head_map_diffs (team1, team2) > 0) then Ok 1
  else
    match p_wins_regular !! (team1, team2) with
    | None => Raise KeyError
    | Some p => if bool_decide (u < p)%R then Ok 1 else Ok (-1)
    end.

(** The records tell two teams apart: they differ in wins, in map diff, or
    their head-to-head map diff is not level. *)
Definition separated (wins map_diffs : gmap string Z)
    (head_to_head_map_diffs : gmap (string * string) Z)
    (team1 team2 : string) : Prop :=
  dget wins team1 ≠ dget wins team2 ∨
  dget map_diffs team1 ≠ dget map_diffs team2 ∨
  dget head_to_head_map_diffs (team1, team2) ≠ 0.

(** ** Seeds and title matches of one simulated stage *)

Section Playoffs.
(** [game.TEAM_DIVISIONS], a plain dict from team to division. *)
Context {Division : Type} `{EqDecision Division}.
Variable TEAM_DIVISIONS : gmap string Division.

(** [_predict_stage], "Seed 1": the loop
    [for i, team in enumerate(teams)] that looks for the first team of
    another division than [seeds[0]].  Returns the team found and [teams]
    after [del teams[i]], or [None] when the loop ends without a [break]. *)
Fixpoint other_division (seed0 : string) (teams : list string)
    : result (option (string * list string)) :=
  match teams with
  | [] => Ok None
  | team :: teams' =>
      division ← dict_get TEAM_DIVISIONS team;
      division0 ← dict_get TEAM_DIVISIONS seed0;
      if bool_decide (division ≠ division0) then Ok (Some (team, teams'))
      else
        found ← other_division seed0 teams';
        match found with
        | Some (seed1, rest) => Ok (Some (seed1, team :: rest))
        | None => Ok None
        end
  end.

(** [_predict_stage], "Determine the seeds" from the standings [teams]:
    seed 0, seed 1, seeds 2-7. *)
Definition stage_seeds (teams : list string) : result (list string) :=
  match teams with
  | [] => Raise IndexError
  | seed0 :: teams =>
      found ← other_division seed0 teams;
      let '(seeds, teams) :=
        match found with
        | Some (seed1, rest) => ([seed0; seed1], rest)
        | None => ([seed0], teams)
        end in
      Ok (seeds ++ take 6 teams)
  end.

(** [count[team] += 1] on a plain dict. *)
Definition count_up (count : gmap string Z) (team : string)
    : result (gmap string Z) :=
  n ← dict_get count team;
  Ok (<[team := n + 1]> count).

(** One title match: [if random() < p_wins[(seeds[i], seeds[j])]:
    seeds[j] = None else: seeds[i] = None], where [u] is what [random()]
    returned.  A pair with [None] in it is no key of [p_wins]. *)
Definition duel (p_wins : gmap (string * string) R) (u : R) (i j : nat)
    (seeds : list (option string)) : result (list (option string)) :=
  match seeds !! i with
  | None => Raise IndexError
  | Some team1 =>
      match seeds !! j with
      | None => Raise IndexError
      | Some team2 =>
          match team1, team2 with
          | Some team1, Some team2 =>
              match p_wins !! (team1, team2) with
              | None => Raise KeyError
              | Some p =>
                  if bool_decide (u < p)%R then Ok (<[j := None]> seeds)
                  else Ok (<[i := None]> seeds)
              end
          | _, _ => Raise KeyError
          end
      end
  end.

(** [[team for team in seeds if team is not None]]. *)
Definition survivors (seeds : list (option string)) : list (option string) :=
  filter (fun team => team ≠ None) seeds.

(** [_predict_stage], "Determine top 1 teams": first round, semi-finals and
    finals; [u k] is what the [k]-th call of [random()] in the iteration
    returns.  The result is [seeds[0]] after the finals. *)
Definition title_matches (p_wins_ft3 p_wins_ft4 : gmap (string * string) R)
    (u : nat → R) (seeds : list string) : result (option string) :=
  let seeds : list (option string) := Some <$> seeds in
  (* First round. *)
  seeds ← duel p_wins_ft3 (u 0%nat) 0 7 seeds;
  seeds ← duel p_wins_ft3 (u 1%nat) 1 6 seeds;
  seeds ← duel p_wins_ft3 (u 2%nat) 2 5 seeds;
  seeds ← duel p_wins_ft3 (u 3%nat) 3 4 seeds;
  let seeds := survivors seeds in
  (* Semi-finals. *)
  seeds ← duel p_wins_ft4 (u 4%nat) 0 3 seeds;
  seeds ← duel p_wins_ft4 (u 5%nat) 1 2 seeds;
  let seeds := survivors seeds in
  (* Finals. *)
  seeds ← duel p_wins_ft4 (u 6%nat) 0 1 seeds;
  let seeds := survivors seeds in
  match seeds !! 0%nat with
  | Some team => Ok team
  | None => Raise IndexError
  end.

(** One iteration of [_predict_stage] from the standings [teams] that
    [_stage_standings] returned: the seeds are counted in [title_count], the
    winner of the title matches in [top1_count]. *)
Definition stage_iteration (p_wins_ft3 p_wins_ft4 : gmap (string * string) R)
    (u : nat → R) (teams : list string)
    (counts : gmap string Z * gmap string Z)
    : result (gmap string Z * gmap string Z) :=
  let '(title_count, top1_count) := counts in
  seeds ← stage_seeds teams;
  title_count ←
    foldl (fun acc team => title_count ← acc; count_up title_count team)
          (Ok title_count) seeds;
  top1 ← title_matches p_wins_ft3 p_wins_ft4 u seeds;
  match top1 with
  | Some team =>
      top1_count ← count_up top1_count team;
      Ok (title_count, top1_count)
  | None => Raise KeyError
  end.
End Playoffs.

(** The two divisions of the twelve teams, and standings for them. *)
Definition TWO_DIVISIONS : gmap string string :=
  list_to_map
    [("BOS", "ATL"); ("FLA", "ATL"); ("HOU", "ATL"); ("LDN", "ATL");
     ("NYE", "ATL"); ("PHI", "ATL"); ("DAL", "PAC"); ("GLA", "PAC");
     ("SEO", "PAC"); ("SFS", "PAC"); ("SHD", "PAC"); ("VAL", "PAC")].
Definition some_standings : list string :=
  ["NYE"; "BOS"; "LDN"; "SEO"; "HOU"; "PHI"; "GLA"; "VAL"; "DAL"; "SFS"; "FLA";
   "SHD"].

(** Every entry still standing in the bracket is one of the seeds. *)
Definition from_seeds (seeds : list string) (bracket : list (option string))
    : Prop :=
  Forall (fun entry => ∀ team, entry = Some team → team ∈ seeds) bracket.

(** A table that gives every pair of teams the same probability. *)
Definition constant_p_wins (p : R) (teams : list string)
    : gmap (string * string) R :=
  list_to_map ((fun pair => (pair, p)) <$> list_prod teams teams).

(** Counters at zero for the teams: [{team: 0 for team in TEAMS}]. *)
Definition zero_count (teams : list string) : gmap string Z :=
  list_to_map ((fun team => (team, 0)) <$> teams).


(** * Properties *)

(** ** Counters *)

Lemma dget_empty `{Countable K} (k : K) : dget ∅ k = 0.
Proof. unfold dget. by rewrite lookup_empty. Qed.

Lemma dget_insert `{Countable K} (d : gmap K Z) (k j : K) (n : Z) :
  dget (<[k := n]> d) j = if decide (k = j) then n else dget d j.
Proof.
  unfold dget. destruct (decide (k = j)) as [->|Hne].
  - by rewrite lookup_insert_eq.
  - by rewrite lookup_insert_ne.
Qed.

Lemma dget_incr `{Countable K} (d : gmap K Z) (k j : K) (n : Z) :
  dget (incr k n d) j = dget d j + (if decide (k = j) then n else 0).
Proof.
  unfold incr. rewrite dget_insert. destruct (decide (k = j)) as [->|Hne]; lia.
Qed.

(** ** Stage transitions *)

Lemma _update_stage_same (stage' : string) (self : Predictor) :
  stage self = Some stage' → _update_stage stage' self = self.
Proof.
  intros Hs. unfold _update_stage.
  rewrite bool_decide_eq_false_2; [done|]. intros Hne. by apply Hne.
Qed.

Lemma _update_stage_new (game : Game.t) (self : Predictor) :
  genuinely_new_stage game self →
  _update_stage (Game.stage game) self =
    set_stage_title_losses ∅ (set_stage_title_wins ∅
      (set_stage_head_to_head_map_diffs ∅ (set_stage_map_diffs ∅
        (set_stage_losses ∅ (set_stage_wins ∅
          (set_stage (Some (Game.stage game))
            (set_base_stage (Some (Game.stage game)) self))))))).
Proof.
  intros [Hne Hext]. unfold _update_stage.
  rewrite bool_decide_eq_true_2 by done.
  destruct (stage self) as [cur|] eqn:Hcur; [|done].
  by rewrite (Hext cur eq_refl).
Qed.

Lemma _update_stage_stage (stage' : string) (self : Predictor) :
  stage (_update_stage stage' self) = Some stage'.
Proof.
  unfold _update_stage. case_bool_decide as Hne.
  - by destruct (match stage self with Some cur => _ | None => _ end).
  - done.
Qed.

(** [_update_match_ids] touches the match standings only. *)
Lemma _update_match_ids_frame (id : Z) (teams : string * string)
    (self : Predictor) :
  let self' := _update_match_ids id teams self in
  same_counters self' self ∧
  stage self' = stage self ∧ base_stage self' = base_stage self ∧
  roster_queues self' = roster_queues self ∧
  last_full_rosters self' = last_full_rosters self ∧
  expected_draws self' = expected_draws self ∧
  real_draws self' = real_draws self ∧
  points self' = points self ∧ corrects self' = corrects self.
Proof.
  unfold _update_match_ids, same_counters, same_map_diffs.
  case_bool_decide; simpl; repeat split.
Qed.

Lemma _update_match_ids_same (id : Z) (teams : string * string)
    (self : Predictor) :
  match_id self = Some id → _update_match_ids id teams self = self.
Proof.
  intros Hid. unfold _update_match_ids.
  rewrite bool_decide_eq_false_2; [done|]. intros Hne. by apply Hne.
Qed.

(** What recording a new match writes. *)
Lemma _update_match_ids_new (id : Z) (teams : string * string)
    (self : Predictor) :
  match_id self ≠ Some id →
  let self' := _update_match_ids id teams self in
  match_id self' = Some id ∧
  score self' = Some (zero_tally teams) ∧
  scores self' = <[id := zero_tally teams]> (scores self) ∧
  match_history self' =
    history_append (stage self) teams.2 id
      (history_append (stage self) teams.1 id (match_history self)).
Proof.
  intros Hne. unfold _update_match_ids.
  rewrite bool_decide_eq_true_2 by (intros E; by apply Hne).
  simpl. repeat split.
Qed.

(** C4 (as amended).  When a game opens a genuinely new stage, the object on
    which [_update_standings] applies the game's own effect has the stage
    wins, losses, map diffs, head-to-head map diffs, title wins and title
    losses all reading zero, and the new stage as both current and base
    stage; the playoff wins and losses are the ones it had before. *)
Theorem new_stage_resets_stage_counters (game : Game.t) (self : Predictor) :
  genuinely_new_stage game self →
  _update_standings game self = _update_standings_body game (entering game self) ∧
  stage_counters_zero (entering game self) ∧
  stage (entering game self) = Some (Game.stage game) ∧
  base_stage (entering game self) = Some (Game.stage game) ∧
  playoff_wins (entering game self) = playoff_wins self ∧
  playoff_losses (entering game self) = playoff_losses self.
Proof.
  intros Hnew. split; [done|].
  unfold entering.
  pose proof (_update_match_ids_frame (Game.match_id game) (Game.teams game)
                (_update_stage (Game.stage game) self)) as Hframe.
  simpl in Hframe.
  destruct Hframe as ((_ & _ & _ & Hsw & Hsl & Htw & Htl & Hpw & Hpl
                        & _ & _ & Hsm & Hsh) & Hst & Hbase & _).
  unfold stage_counters_zero.
  rewrite Hsw, Hsl, Htw, Htl, Hpw, Hpl, Hsm, Hsh, Hst, Hbase.
  rewrite (_update_stage_new _ _ Hnew). simpl.
  repeat split; intros; apply dget_empty.
Qed.

Lemma new_stage_resets_stage_counters_witness :
  genuinely_new_stage stage_2_win tracker_in_stage_1 ∧
  stage_counters_zero (entering stage_2_win tracker_in_stage_1) ∧
  playoff_wins (entering stage_2_win tracker_in_stage_1) =
    playoff_wins tracker_in_stage_1.
Proof.
  assert (Hnew : genuinely_new_stage stage_2_win tracker_in_stage_1).
  { split; [done|]. intros cur [= <-]. reflexivity. }
  split; [exact Hnew|].
  destruct (new_stage_resets_stage_counters stage_2_win tracker_in_stage_1 Hnew)
    as (_ & Hzero & _ & _ & Hpw & _).
  split; [exact Hzero | exact Hpw].
Defined.

(** C4, as the claim states it, fails: a playoff counter survives a genuinely
    new stage.  The tracker is in "Stage 1" with two playoff wins for "NYE";
    a drawn game of "Stage 2" leaves them at two. *)
Lemma new_stage_keeps_playoff_counters :
  genuinely_new_stage stage_2_draw tracker_in_stage_1 ∧
  ¬ playoff_counters_zero (entering stage_2_draw tracker_in_stage_1) ∧
  dget (playoff_wins (state_of (_update_standings stage_2_draw tracker_in_stage_1)))
       "NYE" = 2.
Proof.
  split; [|split].
  - split; [done|]. intros cur [= <-]. reflexivity.
  - intros [Hw _]. specialize (Hw "NYE"). vm_compute in Hw. discriminate Hw.
  - vm_compute. reflexivity.
Qed.

(** ** Frame of a game's own effect *)

Lemma score_set_frame (team : string) (n : Z) (self : Predictor) :
  same_counters (score_set team n self) self ∧
  stage (score_set team n self) = stage self ∧
  match_id (score_set team n self) = match_id self.
Proof.
  unfold score_set, same_counters, same_map_diffs.
  destruct (score self); simpl; [destruct (match_id self) eqn:Hid|];
    simpl; repeat split; done.
Qed.

(** A drawn game has no effect of its own. *)
Lemma _update_standings_body_draw (game : Game.t) (self : Predictor) :
  (Game.score game).1 = (Game.score game).2 →
  _update_standings_body game self = Returned self.
Proof.
  unfold _update_standings_body.
  destruct (Game.teams game) as [team1 team2].
  destruct (Game.score game) as [score1 score2]. simpl. intros ->.
  by rewrite bool_decide_eq_false_2 by (intros Hne; by apply Hne).
Qed.

(** A game that is not of the regular format leaves the four map-diff tables
    and the season win, loss and head-to-head tables as they are. *)
Lemma _update_standings_body_not_regular (game : Game.t) (self : Predictor) :
  Game.match_format game ≠ "regular" →
  let after := state_of (_update_standings_body game self) in
  same_map_diffs after self ∧
  wins after = wins self ∧ losses after = losses self ∧
  head_to_head_diffs after = head_to_head_diffs self ∧
  stage_wins after = stage_wins self ∧ stage_losses after = stage_losses self.
Proof.
  intros Hfmt. unfold _update_standings_body, same_map_diffs.
  destruct (Game.teams game) as [team1 team2].
  destruct (Game.score game) as [score1 score2].
  rewrite (bool_decide_eq_false_2 (Game.match_format game = "regular")) by done.
  case_bool_decide; [|by simpl].
  destruct (if bool_decide (score1 > score2) then _ else _) as [winner loser].
  unfold handle_result, credit_match, uncredit_match.
  destruct (score_get self winner) as [w|e]; [|by simpl].
  destruct (score_get self loser) as [l|e]; [|by simpl].
  simpl.
  pose proof score_set_frame as Hset. unfold same_counters, same_map_diffs in Hset.
  repeat case_bool_decide; repeat case_match; simpl;
    match goal with
    | |- context [score_set ?t ?n ?s] =>
        destruct (Hset t n s) as ((-> & -> & -> & -> & -> & _ & _ & _ & _
                                      & -> & -> & -> & ->) & _)
    end; simpl; repeat split.
Qed.

(** A stage that is not genuinely new keeps every table. *)
Lemma _update_stage_frame (game : Game.t) (self : Predictor) :
  ¬ genuinely_new_stage game self →
  same_counters (_update_stage (Game.stage game) self) self.
Proof.
  intros Hold. unfold _update_stage, same_counters, same_map_diffs.
  case_bool_decide as Hne; [|repeat split].
  destruct (stage self) as [cur|] eqn:Hcur.
  - destruct (startswith (Game.stage game) cur) eqn:Hext; [simpl; repeat split|].
    exfalso. apply Hold. split; [by rewrite Hcur|].
    intros cur' Hcur'. rewrite Hcur in Hcur'. by injection Hcur' as <-.
  - exfalso. apply Hold. split; [by rewrite Hcur|]. intros cur'. by rewrite Hcur.
Qed.

(** The season tables are out of a stage transition's reach. *)
Lemma _update_stage_season (stage' : string) (self : Predictor) :
  let self' := _update_stage stage' self in
  map_diffs self' = map_diffs self ∧
  head_to_head_map_diffs self' = head_to_head_map_diffs self ∧
  wins self' = wins self ∧ losses self' = losses self ∧
  head_to_head_diffs self' = head_to_head_diffs self ∧
  playoff_wins self' = playoff_wins self ∧
  playoff_losses self' = playoff_losses self.
Proof.
  unfold _update_stage. case_bool_decide; [|repeat split].
  destruct (match stage self with Some cur => _ | None => _ end);
    simpl; repeat split.
Qed.

(** C7 (as amended).  A game whose match format is not 'regular' leaves the
    season map-diff and season head-to-head map-diff tables unchanged, and
    leaves the stage map-diff and stage head-to-head map-diff tables as the
    stage transition left them: unchanged unless the game opens a genuinely
    new stage (which clears them).  Whether the call returns or raises. *)
Theorem non_regular_game_keeps_map_diffs (game : Game.t) (self : Predictor) :
  Game.match_format game ≠ "regular" →
  let after := state_of (_update_standings game self) in
  map_diffs after = map_diffs self ∧
  head_to_head_map_diffs after = head_to_head_map_diffs self ∧
  stage_map_diffs after = stage_map_diffs (_update_stage (Game.stage game) self) ∧
  stage_head_to_head_map_diffs after =
    stage_head_to_head_map_diffs (_update_stage (Game.stage game) self) ∧
  (¬ genuinely_new_stage game self → same_map_diffs after self) ∧
  wins after = wins self ∧ losses after = losses self ∧
  head_to_head_diffs after = head_to_head_diffs self.
Proof.
  intros Hfmt. unfold _update_standings.
  destruct (_update_standings_body_not_regular game
              (_update_match_ids (Game.match_id game) (Game.teams game)
                 (_update_stage (Game.stage game) self)) Hfmt)
    as ((Hm & Hh & Hsm & Hsh) & Hw & Hl & Hd & _).
  destruct (_update_match_ids_frame (Game.match_id game) (Game.teams game)
              (_update_stage (Game.stage game) self))
    as ((Hw' & Hl' & Hd' & _ & _ & _ & _ & _ & _ & Hm' & Hh' & Hsm' & Hsh') & _).
  destruct (_update_stage_season (Game.stage game) self)
    as (Hm'' & Hh'' & Hw'' & Hl'' & Hd'' & _).
  simpl. unfold same_map_diffs.
  rewrite Hm, Hh, Hsm, Hsh, Hm', Hh', Hsm', Hsh', Hm'', Hh''.
  rewrite Hw, Hl, Hd, Hw', Hl', Hd', Hw'', Hl'', Hd''.
  split; [done|]. split; [done|]. split; [done|]. split; [done|].
  split; [|done].
  intros Hold. apply _update_stage_frame in Hold.
  destruct Hold as (_ & _ & _ & _ & _ & _ & _ & _ & _ & _ & _ & Hs1 & Hs2).
  by rewrite Hs1, Hs2.
Qed.

Lemma non_regular_game_keeps_map_diffs_witness :
  Game.match_format stage_2_win ≠ "regular" ∧
  map_diffs (state_of (_update_standings stage_2_win tracker_in_stage_1)) =
    map_diffs tracker_in_stage_1.
Proof.
  assert (Hfmt : Game.match_format stage_2_win ≠ "regular") by done.
  split; [exact Hfmt|].
  exact (proj1 (non_regular_game_keeps_map_diffs stage_2_win tracker_in_stage_1 Hfmt)).
Defined.

(** C7, as the claim states it, fails when the game opens a new stage: the
    playoff game of "Stage 2" finds "NYE" at a stage map diff of 3 and leaves
    it at 0. *)
Lemma non_regular_game_clears_stage_map_diffs :
  Game.match_format stage_2_win ≠ "regular" ∧
  dget (stage_map_diffs tracker_in_stage_1) "NYE" = 3 ∧
  dget (stage_map_diffs (state_of (_update_standings stage_2_win tracker_in_stage_1)))
       "NYE" = 0.
Proof. split; [done|]. split; vm_compute; reflexivity. Qed.

(** ** Drawn games *)

(** C9 (as amended).  A drawn game whose stage is the tracker's current stage
    makes [_update_standings] return the object that [_update_match_ids]
    leaves: every season and stage win/loss, map-diff, head-to-head, title and
    playoff table is unchanged; nothing at all changes when the game's match
    id is the current one; otherwise the only change is the recording of that
    match id, whether it was seen before or not: it becomes current, a zero
    tally is opened for it (replacing the tally recorded under that id, if
    any) and it is appended to both teams' match history of the stage. *)
Theorem drawn_game_only_records_match (game : Game.t) (self : Predictor) :
  (Game.score game).1 = (Game.score game).2 →
  stage self = Some (Game.stage game) →
  let after := _update_match_ids (Game.match_id game) (Game.teams game) self in
  _update_standings game self = Returned after ∧
  same_counters after self ∧
  stage after = stage self ∧ base_stage after = base_stage self ∧
  (match_id self = Some (Game.match_id game) → after = self) ∧
  (match_id self ≠ Some (Game.match_id game) →
     match_id after = Some (Game.match_id game) ∧
     score after = Some (zero_tally (Game.teams game)) ∧
     scores after =
       <[Game.match_id game := zero_tally (Game.teams game)]> (scores self) ∧
     match_history after =
       history_append (stage self) (Game.teams game).2 (Game.match_id game)
         (history_append (stage self) (Game.teams game).1 (Game.match_id game)
            (match_history self))).
Proof.
  intros Hdraw Hstage. simpl. unfold _update_standings.
  rewrite (_update_stage_same _ _ Hstage).
  rewrite (_update_standings_body_draw _ _ Hdraw).
  split; [done|].
  destruct (_update_match_ids_frame (Game.match_id game) (Game.teams game) self)
    as (Hsame & Hst & Hbase & _).
  split; [exact Hsame|]. split; [exact Hst|]. split; [exact Hbase|].
  split.
  - apply _update_match_ids_same.
  - apply _update_match_ids_new.
Qed.

Lemma drawn_game_only_records_match_witness :
  (Game.score late_draw).1 = (Game.score late_draw).2 ∧
  stage after_two_matches = Some (Game.stage late_draw) ∧
  _update_standings late_draw after_two_matches =
    Returned (_update_match_ids (Game.match_id late_draw) (Game.teams late_draw)
                after_two_matches).
Proof.
  assert (Hdraw : (Game.score late_draw).1 = (Game.score late_draw).2)
    by reflexivity.
  assert (Hstage : stage after_two_matches = Some (Game.stage late_draw))
    by (vm_compute; reflexivity).
  split; [exact Hdraw|]. split; [exact Hstage|].
  exact (proj1 (drawn_game_only_records_match late_draw after_two_matches
                  Hdraw Hstage)).
Defined.

(** C9, as the claim states it, fails for a match id that was seen before
    but is not the current one.  After a game of match 1 ("NYE" leads 1-0)
    and a game of match 2, a drawn game of match 1 resets the tally recorded
    for match 1 to 0-0 and makes match 1 current again. *)
Lemma drawn_game_resets_seen_match :
  (Game.score late_draw).1 = (Game.score late_draw).2 ∧
  stage after_two_matches = Some (Game.stage late_draw) ∧
  (scores after_two_matches !! 1) ≫= (.!! "NYE") = Some 1 ∧
  match_id after_two_matches = Some 2 ∧
  (scores (state_of (_update_standings late_draw after_two_matches)) !! 1)
    ≫= (.!! "NYE") = Some 0 ∧
  match_id (state_of (_update_standings late_draw after_two_matches)) = Some 1.
Proof. repeat split; vm_compute; reflexivity. Qed.

(** ** Evaluation *)

(** A drawn game is scored without a call of [predict]: whatever the method
    is, the abstract one of [Predictor] included. *)
Lemma evaluate_draw {M : Type} (predict : predict_method M)
    (self : Predictor) (model : M) (game : Game.t) :
  (Game.score game).1 = (Game.score game).2 →
  evaluate predict self model game = Ok (0%R, false).
Proof. intros Hdraw. unfold evaluate. by rewrite bool_decide_eq_true_2. Qed.

Lemma _update_rosters_history (game : Game.t) (self : Predictor) :
  points (state_of (_update_rosters game self)) = points self ∧
  corrects (state_of (_update_rosters game self)) = corrects self.
Proof.
  unfold _update_rosters.
  destruct (Game.rosters game) as [[roster1 roster2]|]; [|done].
  destruct (Game.full_rosters game) as [[full1 full2]|]; done.
Qed.

Lemma _update_standings_history (game : Game.t) (self : Predictor) :
  (Game.score game).1 = (Game.score game).2 →
  points (state_of (_update_standings game self)) = points self ∧
  corrects (state_of (_update_standings game self)) = corrects self.
Proof.
  intros Hdraw. unfold _update_standings.
  rewrite (_update_standings_body_draw _ _ Hdraw). simpl.
  destruct (_update_match_ids_frame (Game.match_id game) (Game.teams game)
              (_update_stage (Game.stage game) self))
    as (_ & _ & _ & _ & _ & _ & _ & -> & ->).
  unfold _update_stage. case_bool_decide; [|done].
  by destruct (match stage self with Some cur => _ | None => _ end).
Qed.

Lemma _update_draws_history {M : Type} (predict : predict_method M)
    (game : Game.t) (self : Predictor) (model : M) :
  points (state_of (_update_draws predict game self model)) = points self ∧
  corrects (state_of (_update_draws predict game self model)) = corrects self.
Proof.
  unfold _update_draws. destruct (Game.drawable game).
  - destruct (predict self model _ _ _ _) as [[p_win p_draw]|e]; simpl; [|done].
    by case_bool_decide.
  - by case_bool_decide.
Qed.

(** C10.  For a drawn game [evaluate] returns the point 0.0 and the flag
    False for every [predict] method, so without consulting it; [train] then
    appends 0.0 to [points] and False to [corrects] before it runs the
    updates, none of which touches the two lists. *)
Theorem drawn_game_scores_zero {M : Type} (predict : predict_method M)
    (_train : train_method M) (self : Predictor) (model : M) (game : Game.t) :
  (Game.score game).1 = (Game.score game).2 →
  let recorded := set_corrects (corrects self ++ [false])
                    (set_points (points self ++ [0%R]) self) in
  evaluate predict self model game = Ok (0%R, false) ∧
  evaluate Predictor_predict self model game = Ok (0%R, false) ∧
  train predict _train game self model =
    train_updates predict _train game 0%R recorded model ∧
  points (train predict _train game self model).2.1 = points self ++ [0%R] ∧
  corrects (train predict _train game self model).2.1 = corrects self ++ [false].
Proof.
  intros Hdraw. simpl.
  split; [by apply evaluate_draw|]. split; [by apply evaluate_draw|].
  assert (Htrain : train predict _train game self model =
            train_updates predict _train game 0%R
              (set_corrects (corrects self ++ [false])
                 (set_points (points self ++ [0%R]) self)) model).
  { unfold train. by rewrite (evaluate_draw _ _ _ _ Hdraw). }
  split; [exact Htrain|]. rewrite Htrain. unfold train_updates.
  set (recorded := set_corrects _ _).
  pose proof (_update_rosters_history game recorded) as [Hp1 Hc1].
  destruct (_update_rosters game recorded) as [self1|e self1]; simpl in *;
    [|by rewrite Hp1, Hc1].
  pose proof (_update_standings_history game self1 Hdraw) as [Hp2 Hc2].
  destruct (_update_standings game self1) as [self2|e self2]; simpl in *;
    [|by rewrite Hp2, Hc2, Hp1, Hc1].
  pose proof (_update_draws_history predict game self2 model) as [Hp3 Hc3].
  destruct (_update_draws predict game self2 model) as [self3|e self3];
    simpl in *; [|by rewrite Hp3, Hc3, Hp2, Hc2, Hp1, Hc1].
  destruct (_train game self3 model); simpl;
    by rewrite Hp3, Hc3, Hp2, Hc2, Hp1, Hc1.
Qed.

Lemma drawn_game_scores_zero_witness :
  (Game.score late_draw).1 = (Game.score late_draw).2 ∧
  evaluate (M := unit) Predictor_predict after_two_matches () late_draw =
    Ok (0%R, false).
Proof.
  assert (Hdraw : (Game.score late_draw).1 = (Game.score late_draw).2)
    by reflexivity.
  split; [exact Hdraw|].
  exact (proj1 (drawn_game_scores_zero Predictor_predict Predictor__train
                  after_two_matches () late_draw Hdraw)).
Defined.

(** ** The order of the games of a match *)

Lemma score_get_set (team other : string) (n : Z) (self : Predictor) :
  is_Some (score self) →
  score_get (score_set team n self) other =
    if decide (team = other) then Ok n else score_get self other.
Proof.
  intros [tally Htally]. unfold score_set, score_get. rewrite Htally. simpl.
  destruct (match_id self); simpl.
  all: destruct (decide (team = other)) as [->|Hne];
    [by rewrite lookup_insert_eq | by rewrite lookup_insert_ne].
Qed.

Lemma score_get_is_Some (self : Predictor) (team : string) (n : Z) :
  score_get self team = Ok n → is_Some (score self).
Proof. unfold score_get. destruct (score self); [eauto|done]. Qed.

Lemma record_map_frame (winner loser : string) (self : Predictor) :
  let self' := record_map winner loser self in
  score self' = score self ∧ stage self' = stage self ∧
  match_id self' = match_id self ∧
  ∀ team, win_loss_counters self' team = win_loss_counters self team.
Proof. done. Qed.

Lemma credit_match_counters (is_regular is_title is_playoff : bool)
    (winner loser : string) (self : Predictor) (team : string) :
  let self' := credit_match is_regular is_title is_playoff winner loser self in
  let on (b : bool) (n : Z) := if b then n else 0 in
  let won := if decide (winner = team) then 1 else 0 in
  let lost := if decide (loser = team) then 1 else 0 in
  win_loss_counters self' team =
    [dget (wins self) team + on is_regular won;
     dget (losses self) team + on is_regular lost;
     dget (stage_wins self) team + on is_regular won;
     dget (stage_losses self) team + on is_regular lost;
     dget (stage_title_wins self) team + on (negb is_regular && is_title) won;
     dget (stage_title_losses self) team + on (negb is_regular && is_title) lost;
     dget (playoff_wins self) team +
       on (negb is_regular && negb is_title && is_playoff) won;
     dget (playoff_losses self) team +
       on (negb is_regular && negb is_title && is_playoff) lost].
Proof.
  unfold credit_match, win_loss_counters.
  destruct is_regular, is_title, is_playoff; simpl;
    rewrite ?dget_incr, ?Z.add_0_r; reflexivity.
Qed.

Lemma uncredit_match_counters (is_regular is_title is_playoff : bool)
    (winner loser : string) (self : Predictor) (team : string) :
  let self' := uncredit_match is_regular is_title is_playoff winner loser self in
  let on (b : bool) (n : Z) := if b then n else 0 in
  let won := if decide (loser = team) then -1 else 0 in
  let lost := if decide (winner = team) then -1 else 0 in
  win_loss_counters self' team =
    [dget (wins self) team + on is_regular won;
     dget (losses self) team + on is_regular lost;
     dget (stage_wins self) team + on is_regular won;
     dget (stage_losses self) team + on is_regular lost;
     dget (stage_title_wins self) team + on (negb is_regular && is_title) won;
     dget (stage_title_losses self) team + on (negb is_regular && is_title) lost;
     dget (playoff_wins self) team +
       on (negb is_regular && negb is_title && is_playoff) won;
     dget (playoff_losses self) team +
       on (negb is_regular && negb is_title && is_playoff) lost].
Proof.
  unfold uncredit_match, win_loss_counters.
  destruct is_regular, is_title, is_playoff; simpl;
    rewrite ?dget_incr, ?Z.add_0_r; reflexivity.
Qed.

Lemma credit_match_frame (is_regular is_title is_playoff : bool)
    (winner loser : string) (self : Predictor) :
  let self' := credit_match is_regular is_title is_playoff winner loser self in
  score self' = score self ∧ stage self' = stage self ∧
  match_id self' = match_id self.
Proof. unfold credit_match. by destruct is_regular, is_title, is_playoff. Qed.

Lemma uncredit_match_frame (is_regular is_title is_playoff : bool)
    (winner loser : string) (self : Predictor) :
  let self' := uncredit_match is_regular is_title is_playoff winner loser self in
  score self' = score self ∧ stage self' = stage self ∧
  match_id self' = match_id self.
Proof. unfold uncredit_match. by destruct is_regular, is_title, is_playoff. Qed.

Lemma score_get_frame (self self' : Predictor) (team : string) :
  score self' = score self → score_get self' team = score_get self team.
Proof. unfold score_get. by intros ->. Qed.

Lemma win_loss_counters_score_set (team : string) (n : Z) (self : Predictor)
    (other : string) :
  win_loss_counters (score_set team n self) other = win_loss_counters self other.
Proof.
  destruct (score_set_frame team n self)
    as ((Hw & Hl & _ & Hsw & Hsl & Htw & Htl & Hpw & Hpl & _) & _).
  unfold win_loss_counters. by rewrite Hw, Hl, Hsw, Hsl, Htw, Htl, Hpw, Hpl.
Qed.

(** How one decided game moves the lead between the two tallies. *)
Lemma lead_step (winner loser team : string) (w l : Z) :
  winner ≠ loser →
  let ahead x y := (if decide (team = winner) then lead x y else 0) +
                   (if decide (team = loser) then lead y x else 0) in
  let behind x y := (if decide (team = winner) then lead y x else 0) +
                    (if decide (team = loser) then lead x y else 0) in
  ahead (w + 1) l - ahead w l =
    (if bool_decide (w = l) then if decide (winner = team) then 1 else 0
     else if bool_decide (w = l - 1) then if decide (loser = team) then -1 else 0
     else 0) ∧
  behind (w + 1) l - behind w l =
    (if bool_decide (w = l) then if decide (loser = team) then 1 else 0
     else if bool_decide (w = l - 1) then if decide (winner = team) then -1 else 0
     else 0).
Proof.
  intros Hne. unfold lead. simpl.
  destruct (decide (team = winner)) as [Hw|Hw];
    destruct (decide (team = loser)) as [Hl|Hl]; [congruence|..];
    destruct (decide (winner = team)); try congruence;
    destruct (decide (loser = team)); try congruence;
    split; repeat case_bool_decide; lia.
Qed.

(** One decided game moves the credit with the lead: the counters with the
    credit taken out do not change. *)
Lemma handle_result_step (match_format stage' winner loser : string)
    (w l : Z) (self : Predictor) :
  winner ≠ loser →
  score_get self winner = Ok w →
  score_get self loser = Ok l →
  ∃ self',
    handle_result (bool_decide (match_format = "regular"))
                  (str_in "Title" stage')
                  (bool_decide (match_format = "playoff"))
                  winner loser self = Returned self' ∧
    score_get self' winner = Ok (w + 1) ∧
    score_get self' loser = Ok l ∧
    stage self' = stage self ∧ match_id self' = match_id self ∧
    ∀ team,
      uncredited match_format stage' winner loser (w + 1) l self' team =
      uncredited match_format stage' winner loser w l self team.
Proof.
  intros Hne Hw Hl. unfold handle_result. rewrite Hw, Hl. simpl.
  eexists. split; [reflexivity|].
  set (is_regular := bool_decide (match_format = "regular")).
  set (is_title := str_in "Title" stage').
  set (is_playoff := bool_decide (match_format = "playoff")).
  set (self1 := if bool_decide (w = l) then _ else _).
  assert (Hframe : score self1 = score self ∧ stage self1 = stage self ∧
                   match_id self1 = match_id self).
  { subst self1. repeat case_bool_decide;
      [apply credit_match_frame | apply uncredit_match_frame | done]. }
  destruct Hframe as (Hscore & Hstage & Hid).
  assert (Hsome : is_Some (score self1)).
  { rewrite Hscore. by eapply score_get_is_Some. }
  rewrite !(score_get_set _ _ _ _ Hsome).
  rewrite decide_True by done. rewrite decide_False by done.
  rewrite (score_get_frame _ _ _ Hscore), Hl.
  destruct (score_set_frame winner (w + 1) self1) as (_ & -> & ->).
  repeat split; [done..|].
  intros team. unfold uncredited.
  destruct (lead_step winner loser team w l Hne) as [Hahead Hbehind].
  simpl in Hahead, Hbehind.
  pose proof (win_loss_counters_score_set winner (w + 1) self1 team) as Hset.
  unfold win_loss_counters in Hset at 1.
  injection Hset as -> -> -> -> -> -> -> ->.
  fold is_regular is_playoff is_title.
  subst self1.
  destruct (bool_decide (w = l)); [|destruct (bool_decide (w = l - 1))].
  - pose proof (credit_match_counters is_regular is_title is_playoff
                  winner loser self team) as Hc.
    unfold win_loss_counters in Hc at 1. simpl in Hc.
    injection Hc as -> -> -> -> -> -> -> ->.
    destruct is_regular, is_title, is_playoff; simpl;
      repeat (apply (f_equal2 cons); [lia|]); reflexivity.
  - pose proof (uncredit_match_counters is_regular is_title is_playoff
                  winner loser self team) as Hc.
    unfold win_loss_counters in Hc at 1. simpl in Hc.
    injection Hc as -> -> -> -> -> -> -> ->.
    destruct is_regular, is_title, is_playoff; simpl;
      repeat (apply (f_equal2 cons); [lia|]); reflexivity.
  - destruct is_regular, is_title, is_playoff; simpl;
      repeat (apply (f_equal2 cons); [lia|]); reflexivity.
Qed.

Lemma uncredited_swap (match_format stage' A B : string) (a b : Z)
    (self : Predictor) (team : string) :
  uncredited match_format stage' B A b a self team =
  uncredited match_format stage' A B a b self team.
Proof.
  unfold uncredited.
  destruct (bool_decide (match_format = "regular")), (str_in "Title" stage'),
    (bool_decide (match_format = "playoff")); simpl;
    repeat (apply (f_equal2 cons); [lia|]); reflexivity.
Qed.

(** Objects with the same credit-free counters at the same tallies have the
    same counters. *)
Lemma uncredited_inj (match_format stage' A B : string) (a b : Z)
    (self1 self2 : Predictor) (team : string) :
  uncredited match_format stage' A B a b self1 team =
  uncredited match_format stage' A B a b self2 team →
  win_loss_counters self1 team = win_loss_counters self2 team.
Proof.
  unfold uncredited, win_loss_counters. intros Heq.
  injection Heq as H1 H2 H3 H4 H5 H6 H7 H8.
  repeat (apply (f_equal2 cons); [lia|]); reflexivity.
Qed.

Lemma first_won_cons (game : Game.t) (games : list Game.t) :
  first_won (game :: games) =
    (if bool_decide ((Game.score game).1 > (Game.score game).2) then 1 else 0)
    + first_won games.
Proof.
  unfold first_won. rewrite filter_cons.
  case_bool_decide; [rewrite decide_True by done | rewrite decide_False by done];
    simpl; lia.
Qed.

Lemma second_won_cons (game : Game.t) (games : list Game.t) :
  second_won (game :: games) =
    (if bool_decide ((Game.score game).1 < (Game.score game).2) then 1 else 0)
    + second_won games.
Proof.
  unfold second_won. rewrite filter_cons.
  case_bool_decide; [rewrite decide_True by done | rewrite decide_False by done];
    simpl; lia.
Qed.

Lemma record_map_score_get (winner loser : string) (self : Predictor)
    (team : string) :
  score_get (record_map winner loser self) team = score_get self team.
Proof. done. Qed.

(** The own effect of one game of the match, on an object that holds both
    tallies. *)
Lemma standings_body_in_match (A B stage' : string) (id : Z)
    (match_format : string) (game : Game.t) (self : Predictor) (a b : Z) :
  A ≠ B →
  in_match A B stage' id match_format game →
  score_get self A = Ok a →
  score_get self B = Ok b →
  let a' := a + (if bool_decide ((Game.score game).1 > (Game.score game).2)
                 then 1 else 0) in
  let b' := b + (if bool_decide ((Game.score game).1 < (Game.score game).2)
                 then 1 else 0) in
  ∃ self',
    _update_standings_body game self = Returned self' ∧
    score_get self' A = Ok a' ∧ score_get self' B = Ok b' ∧
    stage self' = stage self ∧ match_id self' = match_id self ∧
    ∀ team,
      uncredited match_format stage' A B a' b' self' team =
      uncredited match_format stage' A B a b self team.
Proof.
  intros Hne (Hteams & Hstage & _ & Hfmt & Hscore) Ha Hb.
  unfold _update_standings_body. rewrite Hteams, Hstage, Hfmt.
  destruct (Game.score game) as [score1 score2]. simpl in Hscore |- *.
  rewrite bool_decide_eq_true_2 by done.
  case_bool_decide as Hgt.
  - rewrite (bool_decide_eq_false_2 (score1 < score2)) by lia.
    set (self1 := if bool_decide (match_format = "regular") then _ else self).
    assert (Hget : ∀ team, score_get self1 team = score_get self team)
      by (intros team; subst self1; by case_bool_decide).
    assert (Hframe : stage self1 = stage self ∧ match_id self1 = match_id self ∧
              ∀ team, win_loss_counters self1 team = win_loss_counters self team)
      by (subst self1; by case_bool_decide).
    destruct Hframe as (Hst & Hid & Hcounters).
    destruct (handle_result_step match_format stage' A B a b self1 Hne)
      as (self' & Hres & Ha' & Hb' & Hst' & Hid' & Hun);
      [by rewrite Hget..|].
    exists self'. rewrite Z.add_0_r. split; [exact Hres|].
    split; [exact Ha'|]. split; [exact Hb'|].
    split; [congruence|]. split; [congruence|].
    intros team. rewrite Hun. unfold uncredited, win_loss_counters in *.
    specialize (Hcounters team). injection Hcounters as -> -> -> -> -> -> -> ->.
    reflexivity.
  - rewrite (bool_decide_eq_true_2 (score1 < score2)) by lia.
    set (self1 := if bool_decide (match_format = "regular") then _ else self).
    assert (Hget : ∀ team, score_get self1 team = score_get self team)
      by (intros team; subst self1; by case_bool_decide).
    assert (Hframe : stage self1 = stage self ∧ match_id self1 = match_id self ∧
              ∀ team, win_loss_counters self1 team = win_loss_counters self team)
      by (subst self1; by case_bool_decide).
    destruct Hframe as (Hst & Hid & Hcounters).
    destruct (handle_result_step match_format stage' B A b a self1)
      as (self' & Hres & Hb' & Ha' & Hst' & Hid' & Hun);
      [congruence | by rewrite Hget..|].
    exists self'. rewrite Z.add_0_r. split; [exact Hres|].
    split; [exact Ha'|]. split; [exact Hb'|].
    split; [congruence|]. split; [congruence|].
    intros team. rewrite <- !(uncredited_swap _ _ A B), Hun.
    unfold uncredited, win_loss_counters in *.
    specialize (Hcounters team). injection Hcounters as -> -> -> -> -> -> -> ->.
    reflexivity.
Qed.

(** The games of a match in any order: the tallies count the games won, and
    the counters with the credit taken out are those before the match. *)
Lemma standings_body_all_in_match (A B stage' : string) (id : Z)
    (match_format : string) (games : list Game.t) :
  A ≠ B →
  Forall (in_match A B stage' id match_format) games →
  ∀ (self : Predictor) (a b : Z),
    score_get self A = Ok a →
    score_get self B = Ok b →
    ∃ self',
      standings_body_all games self = Returned self' ∧
      score_get self' A = Ok (a + first_won games) ∧
      score_get self' B = Ok (b + second_won games) ∧
      stage self' = stage self ∧ match_id self' = match_id self ∧
      ∀ team,
        uncredited match_format stage' A B
                   (a + first_won games) (b + second_won games) self' team =
        uncredited match_format stage' A B a b self team.
Proof.
  intros Hne Hall. induction Hall as [|game games Hgame Hgames IH];
    intros self a b Ha Hb.
  - exists self. unfold first_won, second_won. simpl. rewrite !Z.add_0_r. done.
  - destruct (standings_body_in_match A B stage' id match_format game self a b
                Hne Hgame Ha Hb)
      as (self1 & Hres & Ha1 & Hb1 & Hst1 & Hid1 & Hun1).
    destruct (IH self1 _ _ Ha1 Hb1)
      as (self' & Hres' & Ha' & Hb' & Hst' & Hid' & Hun').
    exists self'. simpl. rewrite Hres.
    rewrite first_won_cons, second_won_cons, !Z.add_assoc.
    split; [exact Hres'|]. split; [exact Ha'|]. split; [exact Hb'|].
    split; [congruence|]. split; [congruence|].
    intros team. by rewrite Hun', Hun1.
Qed.

Lemma score_get_raise (self : Predictor) (team : string) (e : exn) :
  score_get self team = Raise e → e = score_error self.
Proof.
  unfold score_get, score_error. destruct (score self) as [tally|]; [|congruence].
  destruct (tally !! team); congruence.
Qed.

(** A game of the match on an object that lacks a tally: the read of
    [self.score] raises, with the win/loss counters untouched. *)
Lemma standings_body_no_tally (A B stage' : string) (id : Z)
    (match_format : string) (game : Game.t) (self : Predictor) :
  in_match A B stage' id match_format game →
  (∃ e, score_get self A = Raise e) ∨ (∃ e, score_get self B = Raise e) →
  ∃ self',
    _update_standings_body game self = Raised (score_error self) self' ∧
    ∀ team, win_loss_counters self' team = win_loss_counters self team.
Proof.
  intros (Hteams & _ & _ & _ & Hscore) Hmissing.
  unfold _update_standings_body. rewrite Hteams.
  destruct (Game.score game) as [score1 score2]. simpl in Hscore.
  rewrite bool_decide_eq_true_2 by done.
  set (is_regular := bool_decide (Game.match_format game = "regular")).
  assert (Hblock : ∀ winner loser,
    ((∃ e, score_get self winner = Raise e) ∨
     (∃ e, score_get self loser = Raise e)) →
    ∃ self',
      handle_result is_regular (str_in "Title" (Game.stage game))
        (bool_decide (Game.match_format game = "playoff")) winner loser
        (if is_regular then record_map winner loser self else self)
      = Raised (score_error self) self' ∧
      ∀ team, win_loss_counters self' team = win_loss_counters self team).
  { intros winner loser Hmiss.
    set (self1 := if is_regular then _ else self).
    assert (Hget : ∀ team, score_get self1 team = score_get self team)
      by (intros team; subst self1; by destruct is_regular).
    assert (Hcounters : ∀ team,
              win_loss_counters self1 team = win_loss_counters self team)
      by (intros team; subst self1; by destruct is_regular).
    exists self1. split; [|exact Hcounters].
    unfold handle_result. rewrite !Hget.
    destruct (score_get self winner) as [w|e] eqn:Hw; simpl.
    - destruct (score_get self loser) as [l|e] eqn:Hl; simpl.
      + destruct Hmiss as [[e He]|[e He]]; congruence.
      + by rewrite (score_get_raise _ _ _ Hl).
    - by rewrite (score_get_raise _ _ _ Hw). }
  destruct (bool_decide (score1 > score2)); apply Hblock; tauto.
Qed.

Lemma _update_standings_body_stage (game : Game.t) (self : Predictor) :
  stage (state_of (_update_standings_body game self)) = stage self ∧
  match_id (state_of (_update_standings_body game self)) = match_id self.
Proof.
  unfold _update_standings_body.
  destruct (Game.teams game) as [team1 team2].
  destruct (Game.score game) as [score1 score2].
  case_bool_decide; [|done].
  destruct (if bool_decide (score1 > score2) then _ else _) as [winner loser].
  generalize (bool_decide (Game.match_format game = "regular")),
    (str_in "Title" (Game.stage game)),
    (bool_decide (Game.match_format game = "playoff")).
  intros is_regular is_title is_playoff.
  set (self1 := if is_regular then _ else self).
  assert (Hframe : stage self1 = stage self ∧ match_id self1 = match_id self)
    by (subst self1; by destruct is_regular).
  destruct Hframe as [<- <-].
  unfold handle_result.
  destruct (score_get self1 winner) as [w|e]; [|done].
  destruct (score_get self1 loser) as [l|e]; [|done].
  simpl.
  set (self2 := if bool_decide (w = l) then _ else _).
  destruct (score_set_frame winner (w + 1) self2) as (_ & -> & ->).
  destruct (credit_match_frame is_regular is_title is_playoff winner loser self1)
    as (_ & Hc1 & Hc2).
  destruct (uncredit_match_frame is_regular is_title is_playoff winner loser self1)
    as (_ & Hu1 & Hu2).
  subst self2.
  destruct (bool_decide (w = l)); [done|].
  by destruct (bool_decide (w = l - 1)).
Qed.

Lemma _update_match_ids_match_id (id : Z) (teams : string * string)
    (self : Predictor) :
  match_id (_update_match_ids id teams self) = Some id.
Proof. unfold _update_match_ids. by case_bool_decide. Qed.

(** Once the stage and the match id of a match are current, each of its
    games only has its own effect. *)
Lemma update_standings_all_resolved (A B stage' : string) (id : Z)
    (match_format : string) (games : list Game.t) :
  Forall (in_match A B stage' id match_format) games →
  ∀ self, stage self = Some stage' → match_id self = Some id →
    update_standings_all games self = standings_body_all games self.
Proof.
  induction 1 as [|game games Hgame Hgames IH]; intros self Hstage Hid; [done|].
  destruct Hgame as (Hteams & Hst & Hm & _).
  simpl. unfold _update_standings.
  rewrite _update_stage_same by (by rewrite Hst).
  rewrite _update_match_ids_same by (by rewrite Hm).
  destruct (_update_standings_body_stage game self) as [Hst' Hid'].
  destruct (_update_standings_body game self) as [self1|e self1]; [|done].
  simpl in Hst', Hid'. apply IH; congruence.
Qed.

(** The first game of a match resolves the stage and the match id. *)
Lemma update_standings_all_entry (A B stage' : string) (id : Z)
    (match_format : string) (game : Game.t) (games : list Game.t)
    (self : Predictor) :
  Forall (in_match A B stage' id match_format) (game :: games) →
  update_standings_all (game :: games) self =
    standings_body_all (game :: games)
      (_update_match_ids id (A, B) (_update_stage stage' self)).
Proof.
  intros Hall. inversion Hall as [|? ? Hgame Hgames]; subst.
  pose proof Hgame as (Hteams & Hst & Hm & _).
  simpl. unfold _update_standings. rewrite Hteams, Hst, Hm.
  set (entry := _update_match_ids id (A, B) (_update_stage stage' self)).
  destruct (_update_standings_body_stage game entry) as [Hst' Hid'].
  destruct (_update_standings_body game entry) as [self1|e self1]; [|done].
  simpl in Hst', Hid'.
  eapply update_standings_all_resolved; [exact Hgames|..].
  - rewrite Hst'. subst entry.
    destruct (_update_match_ids_frame id (A, B) (_update_stage stage' self))
      as (_ & -> & _).
    apply _update_stage_stage.
  - rewrite Hid'. apply _update_match_ids_match_id.
Qed.

Lemma first_won_Permutation (games1 games2 : list Game.t) :
  games1 ≡ₚ games2 → first_won games1 = first_won games2.
Proof. intros Hperm. unfold first_won. by rewrite Hperm. Qed.

Lemma second_won_Permutation (games1 games2 : list Game.t) :
  games1 ≡ₚ games2 → second_won games1 = second_won games2.
Proof. intros Hperm. unfold second_won. by rewrite Hperm. Qed.

(** C2.  The games of one match between two distinct teams (same stage, same
    match id, same format, none drawn), fed to [_update_standings] in two
    orders, leave every team with the same season, stage, title and playoff
    win and loss counters, and end alike (both return, or both raise the same
    exception): the counters depend on the tallies the match ends with, not
    on the credits and reversals on the way. *)
Theorem standings_order_independent (A B stage' : string) (id : Z)
    (match_format : string) (games1 games2 : list Game.t) (self : Predictor) :
  A ≠ B →
  Forall (in_match A B stage' id match_format) games1 →
  games1 ≡ₚ games2 →
  raised (update_standings_all games1 self) =
    raised (update_standings_all games2 self) ∧
  ∀ team,
    win_loss_counters (state_of (update_standings_all games1 self)) team =
    win_loss_counters (state_of (update_standings_all games2 self)) team.
Proof.
  intros Hne Hall1 Hperm.
  assert (Hall2 : Forall (in_match A B stage' id match_format) games2)
    by (by rewrite <- Hperm).
  destruct games1 as [|game1 rest1].
  { apply Permutation_nil in Hperm. by subst. }
  destruct games2 as [|game2 rest2].
  { symmetry in Hperm. by apply Permutation_nil in Hperm. }
  rewrite (update_standings_all_entry _ _ _ _ _ _ _ _ Hall1).
  rewrite (update_standings_all_entry _ _ _ _ _ _ _ _ Hall2).
  set (entry := _update_match_ids id (A, B) (_update_stage stage' self)).
  destruct (score_get entry A) as [a|ea] eqn:Ha;
    [destruct (score_get entry B) as [b|eb] eqn:Hb|].
  - destruct (standings_body_all_in_match A B stage' id match_format _
                Hne Hall1 entry a b Ha Hb)
      as (self1 & -> & _ & _ & _ & _ & Hun1).
    destruct (standings_body_all_in_match A B stage' id match_format _
                Hne Hall2 entry a b Ha Hb)
      as (self2 & -> & _ & _ & _ & _ & Hun2).
    split; [done|]. intros team. simpl.
    rewrite <- (first_won_Permutation _ _ Hperm),
            <- (second_won_Permutation _ _ Hperm) in Hun2.
    eapply uncredited_inj. by rewrite Hun1, Hun2.
  - inversion Hall1 as [|? ? Hgame1 _]; inversion Hall2 as [|? ? Hgame2 _]; subst.
    destruct (standings_body_no_tally _ _ _ _ _ _ entry Hgame1) as (s1 & H1 & Hc1);
      [right; eauto|].
    destruct (standings_body_no_tally _ _ _ _ _ _ entry Hgame2) as (s2 & H2 & Hc2);
      [right; eauto|].
    simpl. rewrite H1, H2. split; [done|]. intros team. simpl.
    by rewrite Hc1, Hc2.
  - inversion Hall1 as [|? ? Hgame1 _]; inversion Hall2 as [|? ? Hgame2 _]; subst.
    destruct (standings_body_no_tally _ _ _ _ _ _ entry Hgame1) as (s1 & H1 & Hc1);
      [left; eauto|].
    destruct (standings_body_no_tally _ _ _ _ _ _ entry Hgame2) as (s2 & H2 & Hc2);
      [left; eauto|].
    simpl. rewrite H1, H2. split; [done|]. intros team. simpl.
    by rewrite Hc1, Hc2.
Qed.

Lemma standings_order_independent_witness :
  "NYE" ≠ "PHI" ∧
  Forall (in_match "NYE" "PHI" "Stage 1 Title Matches" 9 "best-of-5")
         clinched_last ∧
  clinched_last ≡ₚ lost_first ∧
  ∀ team,
    win_loss_counters (state_of (update_standings_all clinched_last (init 12))) team =
    win_loss_counters (state_of (update_standings_all lost_first (init 12))) team.
Proof.
  assert (Hne : "NYE" ≠ "PHI") by done.
  assert (Hall : Forall (in_match "NYE" "PHI" "Stage 1 Title Matches" 9 "best-of-5")
                        clinched_last)
    by (repeat constructor; done).
  assert (Hperm : clinched_last ≡ₚ lost_first) by apply perm_swap.
  split; [exact Hne|]. split; [exact Hall|]. split; [exact Hperm|].
  exact (proj2 (standings_order_independent _ _ _ _ _ _ _ (init 12)
                  Hne Hall Hperm)).
Defined.

(** The order matters on the way, not at the end: with the loss first, the
    title win of "PHI" is credited and then taken back. *)
Example standings_reversal_example :
  win_loss_counters (state_of (update_standings_all [title_game_lost] (init 12)))
                    "PHI" = [0; 0; 0; 0; 1; 0; 0; 0] ∧
  win_loss_counters (state_of (update_standings_all lost_first (init 12)))
                    "PHI" = [0; 0; 0; 0; 0; 1; 0; 0] ∧
  win_loss_counters (state_of (update_standings_all clinched_last (init 12)))
                    "NYE" = [0; 0; 0; 0; 1; 0; 0; 0].
Proof. repeat split; vm_compute; reflexivity. Qed.

(** ** Match formats *)

(** Python's [in] on strings and [startswith], on the names the code meets. *)
Example str_in_examples :
  str_in "Title" "Stage 1 Title Matches" = true ∧
  str_in "Title" "Stage 1" = false ∧
  str_in "best" "best-of-5" = true ∧
  str_in "" "best-of-7" = true ∧
  str_in "playoff" "best-of-5" = false ∧
  startswith "Stage 1 Title Matches" "Stage 1" = true ∧
  startswith "Stage 2" "Stage 1" = false.
Proof. repeat split. Qed.

(** The four formats of the specification get the patterns it states. *)
Lemma match_pattern_supported :
  match_pattern "preseason" = Ok ([true; false; true; false], 4) ∧
  match_pattern "regular" = Ok ([true; false; true; false], 4) ∧
  match_pattern "best-of-5" = Ok ([false; false; false; false; false], 3) ∧
  match_pattern "best-of-7" =
    Ok ([false; false; false; false; false; false; false], 4).
Proof. repeat split. Qed.

(** X1.  When [predict_match_score] raises the not-implemented error on its
    own account: the format is neither of the two names of the first test, nor a
    substring of 'best-of-5', nor a substring of 'best-of-7'. *)
Lemma match_pattern_raises (match_format : string) :
  match_pattern match_format = Raise NotImplementedError ↔
  match_format ≠ "preseason" ∧ match_format ≠ "regular" ∧
  str_in match_format "best-of-5" = false ∧
  str_in match_format "best-of-7" = false.
Proof.
  unfold match_pattern.
  destruct (decide (match_format = "preseason")) as [Hpre|Hpre].
  { rewrite bool_decide_eq_true_2 by done. simpl. split; [done|tauto]. }
  destruct (decide (match_format = "regular")) as [Hreg|Hreg].
  { rewrite (bool_decide_eq_true_2 (match_format = "regular")) by done.
    rewrite orb_true_r. split; [done|tauto]. }
  rewrite !bool_decide_eq_false_2 by done. cbn [orb].
  destruct (str_in match_format "best-of-5").
  { split; [done|]. by intros (_ & _ & ? & _). }
  destruct (str_in match_format "best-of-7").
  { split; [done|]. by intros (_ & _ & _ & ?). }
  by split.
Qed.

(** C5, the code at the failing input.  The format 'best' is none of the four
    supported formats, yet [predict_match_score] does not raise the
    not-implemented error for it: 'best' is a substring of 'best-of-5', so the
    match is expanded as a best-of-5, whatever [predict] is. *)
Theorem predict_match_score_accepts_substring {M : Type}
    (predict : predict_method M) (self : Predictor) (model : M)
    (teams : string * string) :
  let match_ := a_game teams (0, 0) "Stage 1" 1 "best" in
  match_pattern "best" = Ok ([false; false; false; false; false], 3) ∧
  predict_match_score predict self model match_ =
    _predict_bo_score predict self model teams None None
                      [false; false; false; false; false] 3.
Proof. split; reflexivity. Qed.


(** ** Score distributions *)

Lemma total_padd (k : Z * Z) (v : R) (d : PScores) :
  total (padd k v d) = (total d + v)%R.
Proof.
  induction d as [|[k' v'] d IH]; simpl.
  - unfold total. simpl. lra.
  - case_bool_decide; unfold total in *; simpl in *; [lra|]. rewrite IH. lra.
Qed.

Lemma non_negative_padd (k : Z * Z) (v : R) (d : PScores) :
  (0 <= v)%R → non_negative d → non_negative (padd k v d).
Proof.
  intros Hv. unfold non_negative. induction 1 as [|[k' v'] d Hv' Hd IH]; simpl.
  - constructor; [simpl; lra | constructor].
  - case_bool_decide; constructor; simpl in *; try done. lra.
Qed.

Lemma total_cons (k : Z * Z) (v : R) (d : PScores) :
  total ((k, v) :: d) = (v + total d)%R.
Proof. done. Qed.

(** One game keeps the mass of the finished scores and passes on the mass of
    the live ones, times the chance that the game has one of the outcomes the
    loop fans out to. *)
Lemma bo_branches_total (drawable : bool) (p_win p_draw p_loss : R)
    (max_wins : Z) (p_scores : PScores) (state : PScores * PScores) :
  let after := foldl (bo_branch drawable p_win p_draw p_loss max_wins)
                     state p_scores in
  (total after.1 + total after.2 =
   total state.1 + total state.2 +
   total p_scores * (p_win + p_loss + if drawable then p_draw else 0))%R.
Proof.
  cbv zeta. revert state.
  induction p_scores as [|[[score1 score2] p] p_scores IH];
    intros [new_p_scores finished]; cbn [foldl fst snd].
  - change (total []) with 0%R. lra.
  - rewrite IH, total_cons. unfold bo_branch.
    repeat case_bool_decide; destruct drawable; cbn [fst snd];
      rewrite ?total_padd; lra.
Qed.

Lemma bo_game_total (drawable : bool) (p_win p_draw p_loss : R) (max_wins : Z)
    (p_scores p_finished_scores : PScores) :
  let after := bo_game drawable p_win p_draw p_loss max_wins
                       p_scores p_finished_scores in
  (total after.1 + total after.2 =
   total p_finished_scores +
   total p_scores * (p_win + p_loss + if drawable then p_draw else 0))%R.
Proof.
  simpl. unfold bo_game. rewrite bo_branches_total. simpl.
  change (total []) with 0%R. lra.
Qed.

Lemma bo_branches_non_negative (drawable : bool) (p_win p_draw p_loss : R)
    (max_wins : Z) (p_scores : PScores) (state : PScores * PScores) :
  (0 <= p_win)%R → (0 <= p_draw)%R → (0 <= p_loss)%R →
  non_negative p_scores → non_negative state.1 → non_negative state.2 →
  let after := foldl (bo_branch drawable p_win p_draw p_loss max_wins)
                     state p_scores in
  non_negative after.1 ∧ non_negative after.2.
Proof.
  intros Hw Hd Hl Hp. simpl. revert state.
  induction Hp as [|[[score1 score2] p] p_scores Hp0 Hp IH];
    intros [new_p_scores finished] Hnew Hfin; simpl in *; [done|].
  assert (0 <= p * p_win)%R by (by apply Rmult_le_pos).
  assert (0 <= p * p_loss)%R by (by apply Rmult_le_pos).
  assert (0 <= p * p_draw)%R by (by apply Rmult_le_pos).
  repeat case_bool_decide; destruct drawable; apply IH; simpl;
    repeat apply non_negative_padd; done.
Qed.

Lemma bo_game_non_negative (drawable : bool) (p_win p_draw p_loss : R)
    (max_wins : Z) (p_scores p_finished_scores : PScores) :
  (0 <= p_win)%R → (0 <= p_draw)%R → (0 <= p_loss)%R →
  non_negative p_scores → non_negative p_finished_scores →
  let after := bo_game drawable p_win p_draw p_loss max_wins
                       p_scores p_finished_scores in
  non_negative after.1 ∧ non_negative after.2.
Proof.
  intros Hw Hd Hl Hp Hf. apply bo_branches_non_negative; try done.
  constructor.
Qed.

(** The scheduled games keep the whole mass when an undrawable game cannot be
    drawn, and leave no negative probability in any case. *)
Lemma bo_games_total (p_undrawable p_drawable : R * R) (max_wins : Z)
    (drawables : list bool) (state : PScores * PScores * option R) :
  p_undrawable.2 = 0%R →
  let after := bo_games p_undrawable p_drawable max_wins drawables state in
  (total after.1.1 + total after.1.2 = total state.1.1 + total state.1.2)%R.
Proof.
  intros Hdraw. cbv zeta. unfold bo_games. revert state.
  induction drawables as [|drawable drawables IH];
    intros [[p_scores finished] p_loss]; cbn [foldl]; [done|].
  rewrite IH. clear IH.
  destruct p_undrawable as [p_win_u p_draw_u], p_drawable as [p_win_d p_draw_d].
  simpl in Hdraw. subst p_draw_u.
  destruct drawable.
  - pose proof (bo_game_total true p_win_d p_draw_d (1 - p_win_d - p_draw_d)
                  max_wins p_scores finished) as Hgame.
    destruct (bo_game true _ _ _ _ _ _) as [new finished']. simpl in *. lra.
  - pose proof (bo_game_total false p_win_u 0 (1 - p_win_u - 0)
                  max_wins p_scores finished) as Hgame.
    destruct (bo_game false _ _ _ _ _ _) as [new finished']. simpl in *. lra.
Qed.

Lemma bo_games_non_negative (p_undrawable p_drawable : R * R) (max_wins : Z)
    (drawables : list bool) (state : PScores * PScores * option R) :
  valid_probabilities p_undrawable → valid_probabilities p_drawable →
  non_negative state.1.1 → non_negative state.1.2 →
  let after := bo_games p_undrawable p_drawable max_wins drawables state in
  non_negative after.1.1 ∧ non_negative after.1.2.
Proof.
  intros (Hu1 & Hu2 & Hu3) (Hd1 & Hd2 & Hd3). cbv zeta. unfold bo_games.
  revert state.
  induction drawables as [|drawable drawables IH];
    intros [[p_scores finished] p_loss] Hp Hf; cbn [foldl]; [done|].
  destruct p_undrawable as [p_win_u p_draw_u], p_drawable as [p_win_d p_draw_d].
  simpl in *.
  destruct drawable.
  - pose proof (bo_game_non_negative true p_win_d p_draw_d
                  (1 - p_win_d - p_draw_d) max_wins p_scores finished) as Hgame.
    destruct (bo_game true _ _ _ _ _ _) as [new finished'].
    apply IH; apply Hgame; try done; lra.
  - pose proof (bo_game_non_negative false p_win_u p_draw_u
                  (1 - p_win_u - p_draw_u) max_wins p_scores finished) as Hgame.
    destruct (bo_game false _ _ _ _ _ _) as [new finished'].
    apply IH; apply Hgame; try done; lra.
Qed.

(** After a last game that is undrawable, [p_loss] is the undrawable loss
    probability. *)
Lemma bo_games_p_loss (p_undrawable p_drawable : R * R) (max_wins : Z)
    (drawables : list bool) (state : PScores * PScores * option R) :
  (bo_games p_undrawable p_drawable max_wins (drawables ++ [false]) state).2 =
    Some (1 - p_undrawable.1 - p_undrawable.2)%R.
Proof.
  unfold bo_games. rewrite foldl_snoc.
  destruct (foldl _ state drawables) as [[p_scores finished] p_loss].
  destruct p_undrawable as [p_win p_draw].
  by destruct (bo_game false _ _ _ _ _ _).
Qed.

(** The tie-breaker splits a level score between the two teams, and keeps the
    mass when the two shares add up to one. *)
Lemma bo_tie_break_total (p_win p_loss : R) (p_scores : PScores) :
  (0 <= p_win)%R → (0 <= p_loss)%R → (p_win + p_loss = 1)%R →
  non_negative p_scores →
  ∃ new_p_scores,
    bo_tie_break p_win (Some p_loss) p_scores = Ok new_p_scores ∧
    total new_p_scores = total p_scores ∧ non_negative new_p_scores.
Proof.
  intros Hw Hl Hone Hp. unfold bo_tie_break.
  assert (Hgen : ∀ acc, non_negative acc →
    ∃ new_p_scores,
      foldl (bo_tie_branch p_win (Some p_loss)) (Ok acc) p_scores =
        Ok new_p_scores ∧
      total new_p_scores = (total acc + total p_scores)%R ∧
      non_negative new_p_scores).
  { induction Hp as [|[[score1 score2] p] p_scores Hp0 Hp IH]; intros acc Hacc.
    - exists acc. cbn [foldl]. change (total []) with 0%R.
      split; [done|]. split; [lra|done].
    - cbn [foldl]. simpl in Hp0.
      assert (0 <= p * p_win)%R by (by apply Rmult_le_pos).
      assert (0 <= p * p_loss)%R by (by apply Rmult_le_pos).
      unfold bo_tie_branch at 2. cbn [mbind result_bind].
      case_bool_decide.
      + destruct (IH (padd (score1, score2 + 1) (p * p_loss)
                        (padd (score1 + 1, score2) (p * p_win) acc)))
          as (new & -> & Htotal & Hnew);
          [by repeat apply non_negative_padd|].
        exists new. split; [done|]. split; [|done].
        rewrite Htotal, !total_padd, total_cons. nra.
      + destruct (IH (padd (score1, score2) p acc)) as (new & -> & Htotal & Hnew);
          [by apply non_negative_padd|].
        exists new. split; [done|]. split; [|done].
        rewrite Htotal, total_padd, total_cons. lra. }
  destruct (Hgen [] ltac:(constructor)) as (new & Hres & Htotal & Hnew).
  exists new. split; [done|]. split; [|done].
  rewrite Htotal. change (total []) with 0%R. lra.
Qed.

Lemma bo_merge_total (p_scores p_finished_scores : PScores) :
  total (bo_merge p_scores p_finished_scores) =
    (total p_scores + total p_finished_scores)%R.
Proof.
  unfold bo_merge. revert p_scores.
  induction p_finished_scores as [|[scores p] finished IH]; intros p_scores;
    cbn [foldl].
  - change (total []) with 0%R. lra.
  - rewrite IH, total_padd, total_cons. lra.
Qed.

Lemma bo_merge_non_negative (p_scores p_finished_scores : PScores) :
  non_negative p_scores → non_negative p_finished_scores →
  non_negative (bo_merge p_scores p_finished_scores).
Proof.
  intros Hp Hf. unfold bo_merge. revert p_scores Hp.
  induction Hf as [|[scores p] finished Hp0 Hf IH]; intros p_scores Hp;
    cbn [foldl]; [done|].
  apply IH. by apply non_negative_padd.
Qed.

(** A schedule that ends with an undrawable game: the distribution is
    returned, has no negative probability and sums to one. *)
Lemma bo_score_total (p_undrawable p_drawable : R * R) (drawables : list bool)
    (max_wins : Z) :
  valid_probabilities p_undrawable → valid_probabilities p_drawable →
  p_undrawable.2 = 0%R →
  ∃ p_scores,
    bo_score p_undrawable p_drawable (drawables ++ [false]) max_wins =
      Ok p_scores ∧
    total p_scores = 1%R ∧ non_negative p_scores.
Proof.
  intros Hu Hd Hdraw. unfold bo_score.
  pose proof (bo_games_total p_undrawable p_drawable max_wins
                (drawables ++ [false]) ([((0, 0), 1%R)], [], None) Hdraw) as Htotal.
  pose proof (bo_games_non_negative p_undrawable p_drawable max_wins
                (drawables ++ [false]) ([((0, 0), 1%R)], [], None) Hu Hd) as Hnn.
  pose proof (bo_games_p_loss p_undrawable p_drawable max_wins drawables
                ([((0, 0), 1%R)], [], None)) as Hloss.
  destruct (bo_games _ _ _ _ _) as [[p_scores finished] p_loss].
  simpl in Htotal, Hnn, Hloss. subst p_loss.
  destruct Hnn as [Hp Hf].
  { repeat constructor. simpl. lra. }
  { constructor. }
  destruct Hu as (Hu1 & Hu2 & Hu3).
  destruct (bo_tie_break_total p_undrawable.1
              (1 - p_undrawable.1 - p_undrawable.2) p_scores)
    as (new & -> & Hnew & Hnn); [lra..|done|].
  cbn [mbind result_bind]. eexists. split; [reflexivity|].
  split; [|by apply bo_merge_non_negative].
  rewrite bo_merge_total, Hnew. rewrite Htotal.
  unfold total. simpl. lra.
Qed.

(** Every schedule [predict_match_score] chooses ends with an undrawable
    game. *)
Lemma match_pattern_ends_undrawable (match_format : string)
    (drawables : list bool) (max_wins : Z) :
  match_pattern match_format = Ok (drawables, max_wins) →
  ∃ scheduled, drawables = scheduled ++ [false].
Proof.
  unfold match_pattern.
  destruct (_ || _).
  { intros [= <- _]. by exists [true; false; true]. }
  destruct (str_in match_format "best-of-5").
  { intros [= <- _]. by exists [false; false; false; false]. }
  destruct (str_in match_format "best-of-7"); [|done].
  intros [= <- _]. by exists [false; false; false; false; false; false].
Qed.

(** C1 (as amended).  For every match format [predict_match_score] supports
    and every two pairs of per-game probabilities with 0 ≤ p_win, 0 ≤ p_draw
    and p_win + p_draw ≤ 1, of which the undrawable pair has p_draw = 0, the
    score distribution is returned, gives every final score a non-negative
    probability, and its probabilities sum to exactly 1. *)
Theorem score_distribution_sums_to_one {M : Type} (predict : predict_method M)
    (self : Predictor) (model : M) (match_ : Game.t)
    (p_undrawable p_drawable : R * R) (drawables : list bool) (max_wins : Z) :
  match_pattern (Game.match_format match_) = Ok (drawables, max_wins) →
  predict self model (Game.teams match_) (Game.rosters match_)
          (Game.full_rosters match_) false = Ok p_undrawable →
  predict self model (Game.teams match_) (Game.rosters match_)
          (Game.full_rosters match_) true = Ok p_drawable →
  valid_probabilities p_undrawable →
  valid_probabilities p_drawable →
  p_undrawable.2 = 0%R →
  ∃ p_scores,
    predict_match_score predict self model match_ = Ok p_scores ∧
    total p_scores = 1%R ∧ non_negative p_scores.
Proof.
  intros Hpattern Hpu Hpd Hu Hd Hdraw.
  unfold predict_match_score, _predict_bo_score.
  rewrite Hpattern. cbn [mbind result_bind]. rewrite Hpu, Hpd.
  destruct (match_pattern_ends_undrawable _ _ _ Hpattern) as [scheduled ->].
  by apply bo_score_total.
Qed.

Lemma score_distribution_sums_to_one_witness :
  ∃ p_scores,
    predict_match_score (fixed_predict (0.5, 0) (0.4, 0.2))%R (init 12) ()
                        regular_match = Ok p_scores ∧
    total p_scores = 1%R ∧ non_negative p_scores.
Proof.
  apply (score_distribution_sums_to_one
           (fixed_predict (0.5, 0) (0.4, 0.2))%R (init 12) () regular_match
           (0.5, 0)%R (0.4, 0.2)%R [true; false; true; false] 4).
  - reflexivity.
  - reflexivity.
  - reflexivity.
  - unfold valid_probabilities. simpl. lra.
  - unfold valid_probabilities. simpl. lra.
  - reflexivity.
Defined.

(** C1, as the claim states it, fails when an undrawable game is given a
    positive draw probability: the draw branch of such a game is not fanned
    out, so its mass is lost.  A best-of-5 with p_win = 1/2 and p_draw = 1/4
    for every game sums to 21/64. *)
Lemma score_distribution_loses_draw_mass :
  valid_probabilities (0.5, 0.25)%R ∧
  valid_probabilities (0.5, 0)%R ∧
  match_pattern (Game.match_format best_of_5_match) =
    Ok ([false; false; false; false; false], 3) ∧
  ∃ p_scores,
    predict_match_score (fixed_predict (0.5, 0.25) (0.5, 0))%R (init 12) ()
                        best_of_5_match = Ok p_scores ∧
    total p_scores = (21 / 64)%R ∧ total p_scores ≠ 1%R.
Proof.
  split; [unfold valid_probabilities; simpl; lra|].
  split; [unfold valid_probabilities; simpl; lra|].
  split; [reflexivity|].
  eexists. split; [vm_compute; reflexivity|].
  split; vm_compute; lra.
Qed.

Lemma bo_tie_break_non_negative (p_win p_loss : R) (p_scores : PScores) :
  (0 <= p_win)%R → (0 <= p_loss)%R → non_negative p_scores →
  ∃ new_p_scores,
    bo_tie_break p_win (Some p_loss) p_scores = Ok new_p_scores ∧
    non_negative new_p_scores.
Proof.
  intros Hw Hl Hp. unfold bo_tie_break.
  assert (Hnil : non_negative []) by constructor.
  revert Hnil. generalize (@nil ((Z * Z) * R)) as acc.
  induction Hp as [|[[score1 score2] p] p_scores Hp0 Hp IH]; intros acc Hacc;
    cbn [foldl]; [by exists acc|].
  simpl in Hp0.
  assert (0 <= p * p_win)%R by (by apply Rmult_le_pos).
  assert (0 <= p * p_loss)%R by (by apply Rmult_le_pos).
  unfold bo_tie_branch at 2. cbn [mbind result_bind].
  case_bool_decide; apply IH; by repeat apply non_negative_padd.
Qed.

(** X2.  Without the condition on the undrawable pair, the distribution is
    returned all the same and no probability is negative. *)
Lemma score_distribution_non_negative {M : Type} (predict : predict_method M)
    (self : Predictor) (model : M) (match_ : Game.t)
    (p_undrawable p_drawable : R * R) (drawables : list bool) (max_wins : Z) :
  match_pattern (Game.match_format match_) = Ok (drawables, max_wins) →
  predict self model (Game.teams match_) (Game.rosters match_)
          (Game.full_rosters match_) false = Ok p_undrawable →
  predict self model (Game.teams match_) (Game.rosters match_)
          (Game.full_rosters match_) true = Ok p_drawable →
  valid_probabilities p_undrawable →
  valid_probabilities p_drawable →
  ∃ p_scores,
    predict_match_score predict self model match_ = Ok p_scores ∧
    non_negative p_scores.
Proof.
  intros Hpattern Hpu Hpd Hu Hd. unfold predict_match_score, _predict_bo_score.
  rewrite Hpattern. cbn [mbind result_bind]. rewrite Hpu, Hpd.
  cbn [mbind result_bind].
  destruct (match_pattern_ends_undrawable _ _ _ Hpattern) as [scheduled ->].
  unfold bo_score.
  pose proof (bo_games_non_negative p_undrawable p_drawable max_wins
                (scheduled ++ [false]) ([((0, 0), 1%R)], [], None) Hu Hd) as Hnn.
  pose proof (bo_games_p_loss p_undrawable p_drawable max_wins scheduled
                ([((0, 0), 1%R)], [], None)) as Hloss.
  destruct (bo_games _ _ _ _ _) as [[live finished] p_loss].
  simpl in Hnn, Hloss. subst p_loss.
  destruct Hnn as [Hp Hf].
  { repeat constructor. simpl. lra. }
  { constructor. }
  destruct Hu as (Hu1 & Hu2 & Hu3).
  destruct (bo_tie_break_non_negative p_undrawable.1
              (1 - p_undrawable.1 - p_undrawable.2) live)
    as (new & -> & Hnew); [lra..|done|].
  cbn [mbind result_bind]. eexists. split; [reflexivity|].
  by apply bo_merge_non_negative.
Qed.


(** ** Win and draw probabilities *)







(** The default predictor does return a pair for two unrated teams. *)
Example predict_default_returns (drawable : bool) :
  ∃ p_win p_draw,
    TrueSkillPredictor.predict rational_cdf linear_draw_margin (init 12)
      default_trueskill ("NYE", "PHI") None None drawable = Ok (p_win, p_draw).
Proof.
  unfold TrueSkillPredictor.predict, TrueSkillPredictor._teams_ratings.
  cbn [fst snd length fmap list_fmap app Rsum foldl Nat.add].
  set (env := if drawable then _ else _).
  assert (Hbeta : TrueSkill.beta env = (2500.0 / 2.0)%R) by (by destruct drawable).
  assert (Hrating : ∀ name,
            TrueSkillPredictor.rating default_trueskill name =
              {| Rating.mu := 2500.0; Rating.sigma := 2500.0 / 3.0 |}) by done.
  rewrite !Hrating, Hbeta. cbn [Rating.mu Rating.sigma].
  set (radicand := (INR 2 * _ + _)%R).
  assert (Hpos : (0 < radicand)%R) by (subst radicand; simpl; lra).
  rewrite bool_decide_eq_false_2 by lra.
  rewrite bool_decide_eq_false_2; [eauto|].
  pose proof (sqrt_lt_R0 radicand Hpos). lra.
Qed.


(** ** Order statistics of standings *)

Lemma tuple_lt_not_le (x y : Z * Z) : tuple_lt x y ↔ ¬ tuple_le y x.
Proof. unfold tuple_lt, tuple_le. destruct x, y; simpl. lia. Qed.

Lemma tuple_le_lt_trans (x y z : Z * Z) :
  tuple_le x y → tuple_lt y z → tuple_lt x z.
Proof. unfold tuple_lt, tuple_le. destruct x, y, z; simpl. lia. Qed.

Lemma tuple_lt_le_trans (x y z : Z * Z) :
  tuple_lt x y → tuple_le y z → tuple_lt x z.
Proof. unfold tuple_lt, tuple_le. destruct x, y, z; simpl. lia. Qed.

Lemma tuple_lt_le (x y : Z * Z) : tuple_lt x y → tuple_le x y.
Proof. unfold tuple_lt, tuple_le. destruct x, y; simpl. lia. Qed.

#[local] Instance tuple_le_refl : Reflexive tuple_le.
Proof. intros [a b]. unfold tuple_le. simpl. lia. Qed.

#[local] Instance tuple_le_trans : Transitive tuple_le.
Proof. intros [a b] [c d] [e f]. unfold tuple_le. simpl. lia. Qed.

#[local] Instance tuple_le_total : Total tuple_le.
Proof. intros [a b] [c d]. unfold tuple_le. simpl. lia. Qed.

Lemma sorted_StronglySorted (l : list (Z * Z)) :
  StronglySorted tuple_le (sorted l).
Proof. apply StronglySorted_merge_sort; apply _. Qed.

Lemma sorted_Permutation (l : list (Z * Z)) : sorted l ≡ₚ l.
Proof. apply merge_sort_Permutation. Qed.

Lemma from_end_Ok {A : Type} (k : nat) (l : list A) (x : A) :
  from_end k l = Ok x →
  ∃ before after, l = before ++ x :: after ∧ S (length after) = k.
Proof.
  unfold from_end. case_bool_decide as Hk; [|done].
  destruct (l !! (length l - k)%nat) as [y|] eqn:Hy; [|done].
  intros [= ->].
  exists (take (length l - k) l), (drop (S (length l - k)) l).
  split; [by rewrite take_drop_middle|].
  apply lookup_lt_Some in Hy. rewrite length_drop. lia.
Qed.

Lemma filter_all {A : Type} (P : A → Prop) `{∀ x, Decision (P x)}
    (l : list A) :
  Forall P l → filter P l = l.
Proof.
  induction 1 as [|x l Hx Hl IH]; [done|].
  by rewrite filter_cons_True, IH.
Qed.

Lemma filter_none {A : Type} (P : A → Prop) `{∀ x, Decision (P x)}
    (l : list A) :
  Forall (fun x => ¬ P x) l → filter P l = [].
Proof.
  induction 1 as [|x l Hx Hl IH]; [done|].
  by rewrite filter_cons_False, IH.
Qed.

Lemma length_filter_le {A : Type} (P : A → Prop) `{∀ x, Decision (P x)}
    (l : list A) :
  (length (filter P l) ≤ length l)%nat.
Proof.
  induction l as [|x l IH]; [done|].
  rewrite filter_cons. destruct (decide (P x)); simpl; lia.
Qed.

(** At least [k] standings are no smaller than the [k]-th largest, and fewer
    than [k] are larger. *)
Lemma kth_largest_count_ge (k : nat) (l : list (Z * Z)) (x : Z * Z) :
  from_end k (sorted l) = Ok x →
  (k ≤ length (filter (tuple_le x) l))%nat.
Proof.
  intros Hx. rewrite <- (sorted_Permutation l).
  pose proof (sorted_StronglySorted l) as Hsorted.
  destruct (from_end_Ok _ _ _ Hx) as (before & after & Heq & Hlen).
  rewrite Heq in Hsorted |- *.
  apply StronglySorted_app in Hsorted as (_ & _ & Hsorted).
  apply StronglySorted_cons in Hsorted as [Hafter _].
  rewrite filter_app, length_app, filter_cons_True by done.
  rewrite (filter_all _ after Hafter). simpl. lia.
Qed.

Lemma kth_largest_count_gt (k : nat) (l : list (Z * Z)) (x : Z * Z) :
  from_end k (sorted l) = Ok x →
  (length (filter (tuple_lt x) l) < k)%nat.
Proof.
  intros Hx. rewrite <- (sorted_Permutation l).
  pose proof (sorted_StronglySorted l) as Hsorted.
  destruct (from_end_Ok _ _ _ Hx) as (before & after & Heq & Hlen).
  rewrite Heq in Hsorted |- *.
  apply StronglySorted_app in Hsorted as (Hbefore & _ & _).
  rewrite filter_app, length_app.
  rewrite (filter_none _ before).
  - rewrite filter_cons_False by (rewrite tuple_lt_not_le; intros Hn; by apply Hn).
    pose proof (length_filter_le (tuple_lt x) after). simpl. lia.
  - apply Forall_forall. intros y Hy. rewrite tuple_lt_not_le.
    intros Hn. apply Hn. apply Hbefore; [done|]. by left.
Qed.

(** Counting along a list of teams. *)
Lemma length_filter_fmap {A B : Type} (f : A → B) (P : B → Prop)
    `{∀ y, Decision (P y)} (l : list A) :
  length (filter P (f <$> l)) = length (filter (fun x => P (f x)) l).
Proof.
  induction l as [|x l IH]; [done|]. csimpl.
  rewrite !filter_cons. destruct (decide (P (f x))); simpl; by rewrite IH.
Qed.

Lemma length_filter_strict {A : Type} (P Q : A → Prop)
    `{∀ x, Decision (P x)} `{∀ x, Decision (Q x)} (l : list A) (t : A) :
  (∀ x, P x → Q x) → t ∈ l → Q t → ¬ P t →
  (length (filter P l) < length (filter Q l))%nat.
Proof.
  intros HPQ Ht HQ HnP.
  assert (Hle : ∀ l', (length (filter P l') ≤ length (filter Q l'))%nat).
  { induction l' as [|x l' IH]; [done|]. rewrite !filter_cons.
    destruct (decide (P x)) as [HP|HP].
    - rewrite decide_True by auto. simpl. lia.
    - destruct (decide (Q x)); simpl; lia. }
  induction l as [|x l IH]; [by apply elem_of_nil in Ht|].
  rewrite !filter_cons. apply elem_of_cons in Ht as [<-|Ht].
  - rewrite decide_False by done. rewrite decide_True by done.
    specialize (Hle l). simpl. lia.
  - specialize (IH Ht). destruct (decide (P x)) as [HP|HP].
    + rewrite decide_True by auto. simpl. lia.
    + destruct (decide (Q x)); simpl; lia.
Qed.

Lemma values_keys (d : gmap string (Z * Z)) :
  values d = (fun team => default (0, 0) (d !! team)) <$> (map_to_list d).*1.
Proof.
  unfold values. rewrite <- list_fmap_compose.
  apply Forall_fmap_ext, Forall_forall. intros [team x] Hx.
  apply elem_of_map_to_list in Hx. simpl. by rewrite Hx.
Qed.

Lemma keys_Permutation (d1 d2 : gmap string (Z * Z)) :
  (∀ team, is_Some (d1 !! team) ↔ is_Some (d2 !! team)) →
  (map_to_list d1).*1 ≡ₚ (map_to_list d2).*1.
Proof.
  intros Hdom. apply NoDup_Permutation; [apply NoDup_fst_map_to_list..|].
  assert (Hkeys : ∀ (d : gmap string (Z * Z)) team,
            team ∈ (map_to_list d).*1 ↔ is_Some (d !! team)).
  { intros d team. rewrite list_elem_of_fmap. split.
    - intros ([team' x] & -> & Hx). apply elem_of_map_to_list in Hx. by exists x.
    - intros [x Hx]. exists (team, x). split; [done|].
      by apply elem_of_map_to_list. }
  intros team. by rewrite !Hkeys.
Qed.

(** A team cannot be both out of reach of the 8th worst-possible standing and
    beyond the 9th best-possible one: the two tests of the loop exclude each
    other, so the order in which the source makes them does not matter. *)
Lemma eliminated_and_clinched_exclude (min_wins max_wins : gmap string (Z * Z))
    (min_8th_wins max_9th_wins : Z * Z) (team : string) (worst best : Z * Z) :
  (∀ u, is_Some (min_wins !! u) ↔ is_Some (max_wins !! u)) →
  (∀ u a b, min_wins !! u = Some a → max_wins !! u = Some b → tuple_le a b) →
  from_end 8 (sorted (values min_wins)) = Ok min_8th_wins →
  from_end 9 (sorted (values max_wins)) = Ok max_9th_wins →
  min_wins !! team = Some worst →
  max_wins !! team = Some best →
  tuple_lt best min_8th_wins →
  tuple_lt max_9th_wins worst →
  False.
Proof.
  intros Hdom Hle H8 H9 Hworst Hbest Hout Hin.
  set (keys := (map_to_list min_wins).*1).
  set (fmin := fun u => default (0, 0) (min_wins !! u)).
  set (fmax := fun u => default (0, 0) (max_wins !! u)).
  apply kth_largest_count_ge in H8. apply kth_largest_count_gt in H9.
  rewrite values_keys, length_filter_fmap in H8. fold keys fmin in H8.
  rewrite values_keys, <- (keys_Permutation _ _ Hdom), length_filter_fmap in H9.
  fold keys fmax in H9.
  assert (Hpoint : ∀ u, tuple_le (fmin u) (fmax u)).
  { intros u. subst fmin fmax. simpl.
    destruct (min_wins !! u) as [a|] eqn:Ha.
    - destruct (proj1 (Hdom u)) as [b Hb]; [by rewrite Ha|].
      rewrite Hb. simpl. by eapply Hle.
    - destruct (max_wins !! u) as [b|] eqn:Hb; [|done].
      destruct (proj2 (Hdom u)) as [a Ha']; [by rewrite Hb|]. congruence. }
  assert (Hworst_best : tuple_le worst best) by (by eapply Hle).
  assert (Hstrict :
    (length (filter (fun u => tuple_le min_8th_wins (fmin u)) keys) <
     length (filter (fun u => tuple_lt max_9th_wins (fmax u)) keys))%nat).
  { apply (length_filter_strict _ _ keys team).
    - intros u Hu. eapply tuple_lt_le_trans; [|apply Hpoint].
      eapply tuple_lt_le_trans; [|exact Hu].
      eapply tuple_lt_le_trans; [exact Hin|].
      eapply tuple_lt_le, tuple_le_lt_trans; [exact Hworst_best|exact Hout].
    - subst keys. apply list_elem_of_fmap. exists (team, worst).
      split; [done|]. by apply elem_of_map_to_list.
    - subst fmax. simpl. rewrite Hbest. simpl.
      by eapply tuple_lt_le_trans.
    - subst fmin. simpl. rewrite Hworst. simpl.
      apply tuple_lt_not_le. by eapply tuple_le_lt_trans. }
  unfold fmin, fmax in Hstrict. lia.
Qed.

(** ** Stage prediction *)

Lemma stage_table_lookup (TEAMS : list string) (self : Predictor)
    (team : string) :
  stage_table TEAMS self !! team =
    if decide (team ∈ TEAMS) then Some (stage_standing self team) else None.
Proof.
  unfold stage_table. destruct (decide (team ∈ TEAMS)) as [Hin|Hout].
  - apply elem_of_list_to_map_1'.
    + intros y Hy. apply list_elem_of_fmap in Hy as (u & [= <- ->] & _). done.
    + apply list_elem_of_fmap. by exists team.
  - apply not_elem_of_list_to_map_1. rewrite <- list_fmap_compose.
    intros Hin. apply list_elem_of_fmap in Hin as (u & -> & Hu). done.
Qed.

Lemma bound_team_Ok (min_wins max_wins min_wins' max_wins' : gmap string (Z * Z))
    (team : string) :
  bound_team (min_wins, max_wins) team = Ok (min_wins', max_wins') →
  ∀ u,
    min_wins' !! u =
      (fun s => worst_possible s (if decide (team = u) then 1 else 0))
        <$> min_wins !! u ∧
    max_wins' !! u =
      (fun s => best_possible s (if decide (team = u) then 1 else 0))
        <$> max_wins !! u.
Proof.
  unfold bound_team, dict_get.
  destruct (min_wins !! team) as [[win map_diff]|] eqn:Hmin; [|done].
  cbn [mbind result_bind].
  destruct (max_wins !! team) as [[win' map_diff']|] eqn:Hmax; [|done].
  cbn [mbind result_bind]. intros [= <- <-] u.
  rewrite !lookup_insert. destruct (decide (team = u)) as [<-|Hne].
  - rewrite Hmin, Hmax. unfold worst_possible, best_possible. simpl.
    split; do 2 f_equal; lia.
  - unfold worst_possible, best_possible.
    destruct (min_wins !! u) as [[a b]|], (max_wins !! u) as [[c d]|]; simpl;
      split; try done; do 2 f_equal; lia.
Qed.

Lemma stage_bounds_raise (e : exn) (matches : list Game.t) :
  foldl
    (fun acc match_ =>
       tables ← acc;
       tables ← bound_team tables (Game.teams match_).1;
       bound_team tables (Game.teams match_).2)
    (Raise e) matches = Raise e.
Proof. by induction matches. Qed.

Lemma appearances_cons (match_ : Game.t) (matches : list Game.t) (u : string) :
  appearances (match_ :: matches) u =
    (if decide ((Game.teams match_).1 = u) then 1 else 0) +
    (if decide ((Game.teams match_).2 = u) then 1 else 0) +
    appearances matches u.
Proof.
  unfold appearances. rewrite !filter_cons.
  destruct (decide ((Game.teams match_).1 = u)),
    (decide ((Game.teams match_).2 = u)); simpl; lia.
Qed.

Lemma appearances_nonneg (matches : list Game.t) (u : string) :
  0 ≤ appearances matches u.
Proof. unfold appearances. lia. Qed.

(** The loop over the remaining matches: each appearance of a team takes 4
    off its worst-possible map diff and adds a win and 4 maps to its
    best-possible standing. *)
Lemma stage_bounds_fold (matches : list Game.t) :
  ∀ min_wins0 max_wins0 min_wins max_wins,
    foldl
      (fun acc match_ =>
         tables ← acc;
         tables ← bound_team tables (Game.teams match_).1;
         bound_team tables (Game.teams match_).2)
      (Ok (min_wins0, max_wins0)) matches = Ok (min_wins, max_wins) →
    ∀ u,
      min_wins !! u =
        (fun s => worst_possible s (appearances matches u)) <$> min_wins0 !! u ∧
      max_wins !! u =
        (fun s => best_possible s (appearances matches u)) <$> max_wins0 !! u.
Proof.
  induction matches as [|match_ matches IH];
    intros min_wins0 max_wins0 min_wins max_wins; cbn [foldl].
  - intros [= <- <-] u. unfold appearances, worst_possible, best_possible.
    simpl.
    destruct (min_wins0 !! u) as [[a b]|], (max_wins0 !! u) as [[c d]|]; simpl;
      split; try done; do 2 f_equal; lia.
  - cbn [mbind result_bind].
    destruct (bound_team (min_wins0, max_wins0) (Game.teams match_).1)
      as [[min_wins1 max_wins1]|e] eqn:H1;
      [|cbn [mbind result_bind]; by rewrite stage_bounds_raise].
    cbn [mbind result_bind].
    destruct (bound_team (min_wins1, max_wins1) (Game.teams match_).2)
      as [[min_wins2 max_wins2]|e] eqn:H2; [|by rewrite stage_bounds_raise].
    intros Hrest u.
    destruct (IH _ _ _ _ Hrest u) as [-> ->].
    destruct (bound_team_Ok _ _ _ _ _ H2 u) as [-> ->].
    destruct (bound_team_Ok _ _ _ _ _ H1 u) as [-> ->].
    rewrite appearances_cons. unfold worst_possible, best_possible.
    destruct (min_wins0 !! u) as [[a b]|], (max_wins0 !! u) as [[c d]|]; simpl;
      split; try done; do 2 f_equal;
      destruct (decide ((Game.teams match_).1 = u)),
        (decide ((Game.teams match_).2 = u)); lia.
Qed.

(** The loop over the prediction: every team's pair is replaced by what the
    body computes for it. *)
Lemma normalize_fold (f : string → prob * prob → result (prob * prob))
    (prediction result : gmap string (prob * prob)) :
  map_fold
    (fun team p acc => prediction ← acc; p ← f team p; Ok (<[team := p]> prediction))
    (Ok prediction) prediction = Ok result →
  ∀ team p, prediction !! team = Some p →
    ∃ p', f team p = Ok p' ∧ result !! team = Some p'.
Proof.
  generalize prediction at 1 as init. intros init. revert result.
  apply (map_fold_weak_ind
    (fun (r : result (gmap string (prob * prob))) (m : gmap string (prob * prob)) =>
       ∀ result, r = Ok result →
         ∀ team p, m !! team = Some p →
           ∃ p', f team p = Ok p' ∧ result !! team = Some p')).
  - intros result _ team p. by rewrite lookup_empty.
  - intros team0 p0 m r Hfresh IH result Hres team p Hp.
    destruct r as [acc|e]; [|done]. cbn [mbind result_bind] in Hres.
    destruct (f team0 p0) as [p0'|e] eqn:Hf; [|done].
    cbn [mbind result_bind] in Hres. injection Hres as <-.
    destruct (decide (team0 = team)) as [<-|Hne].
    + rewrite lookup_insert_eq in Hp. injection Hp as <-.
      exists p0'. by rewrite lookup_insert_eq.
    + rewrite lookup_insert_ne in Hp by done.
      destruct (IH acc eq_refl team p Hp) as (p' & Hp' & Hacc).
      exists p'. by rewrite lookup_insert_ne.
Qed.

Lemma worst_le_best (standing : Z * Z) (k : Z) :
  0 ≤ k → tuple_le (worst_possible standing k) (best_possible standing k).
Proof.
  unfold tuple_le, worst_possible, best_possible. destruct standing. simpl. lia.
Qed.

(** C6.  In [predict_stage], with the best-possible standing of a team (one
    win and +4 map diff per remaining match) and its worst-possible standing
    (-4 map diff per remaining match): a team whose best-possible standing is
    strictly below the 8th-largest worst-possible standing gets (False,
    False); a team whose worst-possible standing is strictly above the
    9th-largest best-possible standing gets True for the title berth, and for
    the top seed False if it has a stage-title loss, else True if the stage is
    finished, else the simulated frequency; every other team keeps its
    frequencies.  The stage is finished exactly when the stage-title losses
    sum to 3. *)
Theorem predict_stage_forced (TEAMS : list string)
    (_predict_stage : Predictor → list Game.t → gmap string (R * R))
    (self : Predictor) (matches : list Game.t)
    (prediction : gmap string (prob * prob)) :
  predict_stage TEAMS _predict_stage self matches = Ok prediction →
  let remaining := stage_matches self matches in
  let worst team :=
    worst_possible (stage_standing self team) (appearances remaining team) in
  let best team :=
    best_possible (stage_standing self team) (appearances remaining team) in
  ∃ min_wins max_wins min_8th_wins max_9th_wins,
    (∀ team, min_wins !! team =
               if decide (team ∈ TEAMS) then Some (worst team) else None) ∧
    (∀ team, max_wins !! team =
               if decide (team ∈ TEAMS) then Some (best team) else None) ∧
    from_end 8 (sorted (values min_wins)) = Ok min_8th_wins ∧
    from_end 9 (sorted (values max_wins)) = Ok max_9th_wins ∧
    (stage_finished self = true ↔ sum_values (stage_title_losses self) = 3) ∧
    ∀ team frequencies,
      _predict_stage self remaining !! team = Some frequencies →
      (tuple_lt (best team) min_8th_wins →
         prediction !! team = Some (Bool false, Bool false)) ∧
      (tuple_lt max_9th_wins (worst team) →
         ∃ p_top1,
           prediction !! team = Some (Bool true, p_top1) ∧
           (dget (stage_title_losses self) team > 0 → p_top1 = Bool false) ∧
           (¬ dget (stage_title_losses self) team > 0 →
              p_top1 = if stage_finished self then Bool true
                       else Float frequencies.2)) ∧
      (¬ tuple_lt (best team) min_8th_wins →
       ¬ tuple_lt max_9th_wins (worst team) →
         prediction !! team = Some (Float frequencies.1, Float frequencies.2)).
Proof.
  intros Hrun remaining worst best. unfold predict_stage in Hrun.
  fold remaining in Hrun.
  destruct (stage_bounds (stage_table TEAMS self) remaining)
    as [[min_wins max_wins]|e] eqn:Hbounds; [|done].
  cbn [mbind result_bind] in Hrun.
  destruct (from_end 8 (sorted (values min_wins))) as [min_8th_wins|e] eqn:H8;
    [|done].
  cbn [mbind result_bind] in Hrun.
  destruct (from_end 9 (sorted (values max_wins))) as [max_9th_wins|e] eqn:H9;
    [|done].
  cbn [mbind result_bind] in Hrun.
  exists min_wins, max_wins, min_8th_wins, max_9th_wins.
  assert (Hmin : ∀ team, min_wins !! team =
            if decide (team ∈ TEAMS) then Some (worst team) else None).
  { intros team. destruct (stage_bounds_fold _ _ _ _ _ Hbounds team) as [-> _].
    rewrite stage_table_lookup. by destruct (decide (team ∈ TEAMS)). }
  assert (Hmax : ∀ team, max_wins !! team =
            if decide (team ∈ TEAMS) then Some (best team) else None).
  { intros team. destruct (stage_bounds_fold _ _ _ _ _ Hbounds team) as [_ ->].
    rewrite stage_table_lookup. by destruct (decide (team ∈ TEAMS)). }
  split; [exact Hmin|]. split; [exact Hmax|].
  split; [done|]. split; [done|].
  split; [unfold stage_finished; apply bool_decide_eq_true|].
  intros team frequencies Hfreq.
  destruct (normalize_fold _ _ _ Hrun team
              (Float frequencies.1, Float frequencies.2))
    as (p' & Hbody & ->); [by rewrite lookup_fmap, Hfreq|].
  unfold normalize_team, dict_get in Hbody.
  rewrite Hmax, Hmin in Hbody.
  destruct (decide (team ∈ TEAMS)) as [Hin|Hout]; [|done].
  cbn [mbind result_bind] in Hbody.
  assert (Hexclude : tuple_lt (best team) min_8th_wins →
                     tuple_lt max_9th_wins (worst team) → False).
  { apply (eliminated_and_clinched_exclude min_wins max_wins _ _ team);
      try done.
    - intros u. rewrite Hmin, Hmax. by destruct (decide (u ∈ TEAMS)).
    - intros u a b. rewrite Hmin, Hmax.
      destruct (decide (u ∈ TEAMS)); [|done]. intros [= <-] [= <-].
      apply worst_le_best, appearances_nonneg.
    - rewrite Hmin. by rewrite decide_True.
    - rewrite Hmax. by rewrite decide_True. }
  case_bool_decide as Hout.
  - injection Hbody as <-. split; [done|]. split; [|done].
    intros Hclinched. by destruct Hexclude.
  - cbn [mbind result_bind] in Hbody. case_bool_decide as Hclinched.
    + injection Hbody as <-. split; [done|]. split; [|done].
      intros _. eexists. split; [reflexivity|].
      split; intros Hloss.
      * by rewrite bool_decide_eq_true_2.
      * by rewrite bool_decide_eq_false_2.
    + injection Hbody as <-. done.
Qed.

Lemma predict_stage_forced_witness :
  ∃ prediction,
    predict_stage TWELVE_TEAMS even_simulation late_stage_1 last_matches =
      Ok prediction ∧
    ∃ min_8th_wins max_9th_wins,
      (tuple_lt (best_possible (stage_standing late_stage_1 "SHD")
                   (appearances (stage_matches late_stage_1 last_matches) "SHD"))
                min_8th_wins →
       prediction !! "SHD" = Some (Bool false, Bool false)) ∧
      (tuple_lt max_9th_wins
                (worst_possible (stage_standing late_stage_1 "NYE")
                   (appearances (stage_matches late_stage_1 last_matches) "NYE")) →
       ∃ p_top1, prediction !! "NYE" = Some (Bool true, p_top1)).
Proof.
  pose proof (predict_stage_forced TWELVE_TEAMS even_simulation late_stage_1
                last_matches) as Hforced.
  destruct (predict_stage TWELVE_TEAMS even_simulation late_stage_1 last_matches)
    as [prediction|e] eqn:Hrun; [|vm_compute in Hrun; discriminate Hrun].
  exists prediction. split; [reflexivity|].
  destruct (Hforced prediction eq_refl)
    as (min_wins & max_wins & min_8th_wins & max_9th_wins & _ & _ & _ & _ & _ & Hteams).
  exists min_8th_wins, max_9th_wins. split.
  - intros Hout.
    destruct (Hteams "SHD" (0.5, 0.1)%R) as (Heliminated & _); [reflexivity|].
    by apply Heliminated.
  - intros Hin.
    destruct (Hteams "NYE" (0.5, 0.1)%R) as (_ & Hclinched & _); [reflexivity|].
    destruct (Hclinched Hin) as (p_top1 & Hp & _). by exists p_top1.
Defined.

(** The run of the example: the four teams behind are out, the eight ahead
    are in, and their top-seed frequency stands while the title matches are
    not over. *)
Example predict_stage_example :
  match predict_stage TWELVE_TEAMS even_simulation late_stage_1 last_matches with
  | Ok prediction =>
      prediction !! "SHD" = Some (Bool false, Bool false) ∧
      prediction !! "DAL" = Some (Bool false, Bool false) ∧
      prediction !! "NYE" = Some (Bool true, Float 0.1) ∧
      prediction !! "VAL" = Some (Bool true, Float 0.1)
  | Raise _ => False
  end.
Proof. vm_compute. repeat split. Qed.


(** ** The two predictors *)

(** X3.  [SimplePredictor.predict] never predicts a draw. *)
Lemma SimplePredictor_no_draw (self : Predictor) (model : SimplePredictor.t)
    (teams : string * string) (rosters : option (Roster * Roster))
    (full_rosters : option (FullRoster * FullRoster)) (drawable : bool) :
  ∃ p_win,
    SimplePredictor.predict self model teams rosters full_rosters drawable =
      Ok (p_win, 0%R).
Proof.
  unfold SimplePredictor.predict. destruct teams as [team1 team2].
  eexists. f_equal. f_equal. lra.
Qed.

(** X4.  [TrueSkillPredictor.predict] gives an undrawable game no chance of
    a draw, when the draw margin of a zero draw probability is zero and the
    undrawable environment has a zero draw probability (as [__init__] builds
    it). *)
Lemma TrueSkillPredictor_undrawable_no_draw (cdf : R → R)
    (calc_draw_margin : R → nat → TrueSkill.t → R)
    (base : Predictor) (self : TrueSkillPredictor.t) (teams : string * string)
    (rosters : option (Roster * Roster))
    (full_rosters : option (FullRoster * FullRoster)) (p : R * R) :
  (∀ size env, calc_draw_margin 0%R size env = 0%R) →
  TrueSkill.draw_probability (TrueSkillPredictor.env_undrawable self) = 0%R →
  TrueSkillPredictor.predict cdf calc_draw_margin base self teams rosters
    full_rosters false = Ok p →
  p.2 = 0%R.
Proof.
  intros Hmargin Hzero. unfold TrueSkillPredictor.predict.
  cbn [TrueSkillPredictor._teams_ratings]. rewrite Hzero, Hmargin.
  case_bool_decide; [done|]. case_bool_decide; [done|].
  intros [= <-]. simpl. rewrite Rplus_0_r, Rminus_0_r. lra.
Qed.

Lemma TrueSkillPredictor_undrawable_no_draw_witness :
  match TrueSkillPredictor.predict rational_cdf linear_draw_margin (init 12)
          default_trueskill ("NYE", "PHI") None None false with
  | Ok p => p.2 = 0%R
  | Raise _ => True
  end.
Proof.
  pose proof (TrueSkillPredictor_undrawable_no_draw rational_cdf
                linear_draw_margin (init 12) default_trueskill ("NYE", "PHI")
                None None) as Hzero.
  destruct (TrueSkillPredictor.predict _ _ _ _ _ _ _ _) as [p|e]; [|exact I].
  apply Hzero.
  - intros size env. unfold linear_draw_margin. lra.
  - simpl. lra.
  - reflexivity.
Defined.

(** X5.  [TrueSkillPredictor._train] on a game that team 1 wins: the two
    ratings are rated with team 1 ranked first, in the environment the game's
    drawable flag selects, and each team is given the first rating of its
    list in what [rate] returns. *)
Lemma TrueSkillPredictor__train_win
    (rate : TrueSkill.t → list (list Rating.t) → list Z → list (list Rating.t))
    (game : Game.t) (base : Predictor) (self : TrueSkillPredictor.t)
    (A B : string) (new_A new_B : Rating.t) (rest_A rest_B : list Rating.t) :
  Game.teams game = (A, B) →
  A ≠ B →
  (Game.score game).1 > (Game.score game).2 →
  rate (if Game.drawable game then TrueSkillPredictor.env_drawable self
        else TrueSkillPredictor.env_undrawable self)
       [[TrueSkillPredictor.rating self A]; [TrueSkillPredictor.rating self B]]
       [0; 1] = [new_A :: rest_A; new_B :: rest_B] →
  ∃ self',
    TrueSkillPredictor._train rate game base self = Ok self' ∧
    TrueSkillPredictor.rating self' A = new_A ∧
    TrueSkillPredictor.rating self' B = new_B ∧
    ∀ team, team ≠ A → team ≠ B →
      TrueSkillPredictor.rating self' team = TrueSkillPredictor.rating self team.
Proof.
  intros Hteams Hne Hwin Hrate. unfold TrueSkillPredictor._train.
  destruct (Game.score game) as [score1 score2]. simpl in Hwin.
  rewrite bool_decide_eq_true_2 by done.
  unfold TrueSkillPredictor._teams_ratings. rewrite Hteams. cbn [fst snd].
  rewrite Hrate. unfold TrueSkillPredictor._update_teams_ratings.
  rewrite Hteams. cbn [fst snd zip zip_with foldl mbind result_bind].
  eexists. split; [reflexivity|].
  unfold TrueSkillPredictor.rating. cbn.
  rewrite lookup_insert_ne by done. rewrite !lookup_insert_eq.
  split; [done|]. split; [done|].
  intros team HA HB. by rewrite !lookup_insert_ne.
Qed.

Lemma TrueSkillPredictor__train_win_witness :
  ∃ self',
    TrueSkillPredictor._train unit_rate won_game (init 12) default_trueskill =
      Ok self' ∧
    Rating.mu (TrueSkillPredictor.rating self' "NYE") =
      (Rating.mu (TrueSkillPredictor.rating default_trueskill "NYE") + 1)%R ∧
    Rating.mu (TrueSkillPredictor.rating self' "PHI") =
      (Rating.mu (TrueSkillPredictor.rating default_trueskill "PHI") - 1)%R.
Proof.
  destruct (TrueSkillPredictor__train_win unit_rate won_game (init 12)
              default_trueskill "NYE" "PHI"
              {| Rating.mu := Rating.mu (TrueSkillPredictor.rating default_trueskill "NYE") + 1;
                 Rating.sigma := Rating.sigma (TrueSkillPredictor.rating default_trueskill "NYE") |}%R
              {| Rating.mu := Rating.mu (TrueSkillPredictor.rating default_trueskill "PHI") - 1;
                 Rating.sigma := Rating.sigma (TrueSkillPredictor.rating default_trueskill "PHI") |}%R
              [] [])
    as (self' & Htrain & HA & HB & _).
  - reflexivity.
  - done.
  - reflexivity.
  - reflexivity.
  - exists self'. split; [exact Htrain|]. rewrite HA, HB. split; reflexivity.
Defined.

(** ** The rating update *)

Lemma rational_pdf_positive (x : R) : (0 < rational_pdf x)%R.
Proof.
  unfold rational_pdf. pose proof (Rabs_pos x).
  apply Rinv_0_lt_compat. nra.
Qed.

Lemma rational_cdf_positive (x : R) : (0 < rational_cdf x)%R.
Proof.
  unfold rational_cdf. pose proof (Rabs_pos x).
  assert (-1 < x / (1 + Rabs x))%R; [|lra].
  apply (Rmult_lt_reg_r (1 + Rabs x)); [lra|].
  unfold Rdiv. rewrite Rmult_assoc, Rinv_l by lra.
  unfold Rabs in *. destruct (Rcase_abs x); lra.
Qed.

Lemma v_win_positive (pdf cdf : R → R) (t eps : R) :
  (∀ x, 0 < pdf x)%R → (∀ x, 0 < cdf x)%R → (0 < v_win pdf cdf t eps)%R.
Proof.
  intros Hpdf Hcdf. unfold v_win. apply Rdiv_lt_0_compat; [apply Hpdf|apply Hcdf].
Qed.

(** C8.  With [env.rate] the closed-form update of the rating system, a
    density and a distribution function that are positive (as those of the
    normal distribution are) and ratings of positive uncertainty: after
    [_train] on a game that one of two different teams won, in the
    environment of an undrawable game as in that of a drawable one, the
    winner's mean is strictly greater than before and the loser's strictly
    smaller. *)
Theorem win_moves_means (pdf cdf : R → R)
    (calc_draw_margin : R → nat → TrueSkill.t → R)
    (game : Game.t) (base : Predictor) (self : TrueSkillPredictor.t) :
  (∀ x, 0 < pdf x)%R → (∀ x, 0 < cdf x)%R →
  (Game.teams game).1 ≠ (Game.teams game).2 →
  (Game.score game).1 ≠ (Game.score game).2 →
  (0 < Rating.sigma (TrueSkillPredictor.rating self (Game.teams game).1))%R →
  (0 < Rating.sigma (TrueSkillPredictor.rating self (Game.teams game).2))%R →
  ∃ self',
    TrueSkillPredictor._train (standard_rate pdf cdf calc_draw_margin)
      game base self = Ok self' ∧
    (Rating.mu (TrueSkillPredictor.rating self (winning_team game)) <
     Rating.mu (TrueSkillPredictor.rating self' (winning_team game)))%R ∧
    (Rating.mu (TrueSkillPredictor.rating self' (losing_team game)) <
     Rating.mu (TrueSkillPredictor.rating self (losing_team game)))%R.
Proof.
  intros Hpdf Hcdf Hteams Hscore Hsigma1 Hsigma2.
  unfold TrueSkillPredictor._train, winning_team, losing_team.
  destruct (Game.teams game) as [team1 team2] eqn:Hgame.
  destruct (Game.score game) as [score1 score2]. cbn [fst snd] in *.
  unfold TrueSkillPredictor._teams_ratings. cbn [fst snd].
  set (env := if Game.drawable game then _ else _).
  set (rating1 := TrueSkillPredictor.rating self team1) in *.
  set (rating2 := TrueSkillPredictor.rating self team2) in *.
  unfold TrueSkillPredictor._update_teams_ratings. rewrite Hgame. cbn [fst snd].
  set (var1 := (Rating.sigma rating1 ^ 2 + TrueSkill.tau env ^ 2)%R).
  set (var2 := (Rating.sigma rating2 ^ 2 + TrueSkill.tau env ^ 2)%R).
  assert (Hvar1 : (0 < var1)%R) by (unfold var1; nra).
  assert (Hvar2 : (0 < var2)%R) by (unfold var2; nra).
  assert (Hc : (0 < sqrt (2 * TrueSkill.beta env ^ 2 + var1 + var2))%R).
  { apply sqrt_lt_R0. nra. }
  destruct (bool_decide (score1 > score2)) eqn:Hwin.
  - apply bool_decide_eq_true in Hwin.
    unfold standard_rate. fold var1 var2.
    set (c := sqrt _) in *.
    rewrite (bool_decide_eq_true_2 (0 < 1)) by lia.
    cbn [zip zip_with foldl mbind result_bind].
    eexists. split; [reflexivity|].
    unfold TrueSkillPredictor.rating at 2 3. cbn [TrueSkillPredictor.ratings].
    rewrite lookup_insert_ne by done. rewrite !lookup_insert_eq.
    cbn [default Rating.mu].
    match goal with
    | |- context [v_win pdf cdf ?t ?eps] =>
        pose proof (v_win_positive pdf cdf t eps Hpdf Hcdf) as Hv;
        set (v := v_win pdf cdf t eps) in *
    end.
    assert (0 < var1 / c * v)%R
      by (apply Rmult_lt_0_compat; [by apply Rdiv_lt_0_compat|done]).
    assert (0 < var2 / c * v)%R
      by (apply Rmult_lt_0_compat; [by apply Rdiv_lt_0_compat|done]).
    fold rating1 rating2. cbn [Datatypes.id Rating.mu]. split; lra.
  - apply bool_decide_eq_false in Hwin.
    rewrite bool_decide_eq_false_2 by done.
    unfold standard_rate. fold var1 var2.
    set (c := sqrt _) in *.
    rewrite (bool_decide_eq_false_2 (1 < 0)) by lia.
    rewrite (bool_decide_eq_true_2 (0 < 1)) by lia.
    cbn [zip zip_with foldl mbind result_bind].
    eexists. split; [reflexivity|].
    unfold TrueSkillPredictor.rating at 2 3. cbn [TrueSkillPredictor.ratings].
    rewrite lookup_insert_eq. rewrite lookup_insert_ne by done.
    rewrite lookup_insert_eq.
    cbn [default Rating.mu].
    match goal with
    | |- context [v_win pdf cdf ?t ?eps] =>
        pose proof (v_win_positive pdf cdf t eps Hpdf Hcdf) as Hv;
        set (v := v_win pdf cdf t eps) in *
    end.
    assert (0 < var1 / c * v)%R
      by (apply Rmult_lt_0_compat; [by apply Rdiv_lt_0_compat|done]).
    assert (0 < var2 / c * v)%R
      by (apply Rmult_lt_0_compat; [by apply Rdiv_lt_0_compat|done]).
    fold rating1 rating2. cbn [Datatypes.id Rating.mu]. split; lra.
Qed.

Lemma win_moves_means_witness :
  ∃ self',
    TrueSkillPredictor._train
      (standard_rate rational_pdf rational_cdf linear_draw_margin)
      won_game (init 12) default_trueskill = Ok self' ∧
    (Rating.mu (TrueSkillPredictor.rating default_trueskill "NYE") <
     Rating.mu (TrueSkillPredictor.rating self' "NYE"))%R ∧
    (Rating.mu (TrueSkillPredictor.rating self' "PHI") <
     Rating.mu (TrueSkillPredictor.rating default_trueskill "PHI"))%R.
Proof.
  apply (win_moves_means rational_pdf rational_cdf linear_draw_margin
           won_game (init 12) default_trueskill).
  - exact rational_pdf_positive.
  - exact rational_cdf_positive.
  - done.
  - done.
  - change (0 < 2500.0 / 3.0)%R. lra.
  - change (0 < 2500.0 / 3.0)%R. lra.
Defined.


(** The examples of the specification: in a best-of-5 with p_win = 0.6 a
    3-0 has probability 0.6³ = 0.216; in a regular match between even teams
    no mass stays on 2-2 after the tie-breaker. *)
Example best_of_5_sweep :
  match predict_match_score (fixed_predict (0.6, 0) (0.5, 0.2))%R (init 12) ()
          best_of_5_match with
  | Ok p_scores => pget p_scores (3, 0) = 0.216%R ∧ total p_scores = 1%R
  | Raise _ => False
  end.
Proof. vm_compute. split; lra. Qed.

Example regular_tie_break :
  match predict_match_score (fixed_predict (0.5, 0) (0.4, 0.2))%R (init 12) ()
          regular_match with
  | Ok p_scores =>
      pget p_scores (2, 2) = 0%R ∧ pget p_scores (3, 2) = pget p_scores (2, 3)
  | Raise _ => False
  end.
Proof. vm_compute. split; lra. Qed.

Lemma score_distribution_non_negative_witness :
  ∃ p_scores,
    predict_match_score (fixed_predict (0.5, 0.25) (0.5, 0))%R (init 12) ()
                        best_of_5_match = Ok p_scores ∧
    non_negative p_scores.
Proof.
  apply (score_distribution_non_negative
           (fixed_predict (0.5, 0.25) (0.5, 0))%R (init 12) () best_of_5_match
           (0.5, 0.25)%R (0.5, 0)%R [false; false; false; false; false] 3).
  - reflexivity.
  - reflexivity.
  - reflexivity.
  - unfold valid_probabilities. simpl. lra.
  - unfold valid_probabilities. simpl. lra.
Defined.


(** * Further properties *)

(** ** Invariants of the standings *)

Lemma antisymmetric_empty : antisymmetric ∅.
Proof. intros a b. by rewrite !dget_empty. Qed.

(** The pair of updates [d[(w, l)] += 1; d[(l, w)] -= 1]. *)
Lemma antisymmetric_incr (d : gmap (string * string) Z) (w l : string) :
  antisymmetric d → antisymmetric (incr (l, w) (-1) (incr (w, l) 1 d)).
Proof.
  intros Hd a b. rewrite !dget_incr, (Hd a b).
  repeat case_decide; simplify_eq; lia.
Qed.

Lemma record_map_antisymmetric (winner loser : string) (self : Predictor) :
  head_to_head_antisymmetric self →
  head_to_head_antisymmetric (record_map winner loser self).
Proof.
  intros (Hd & Hm & Hs). unfold head_to_head_antisymmetric, record_map. simpl.
  split; [done|]. split; by apply antisymmetric_incr.
Qed.

Lemma credit_match_antisymmetric (is_regular is_title is_playoff : bool)
    (winner loser : string) (self : Predictor) :
  head_to_head_antisymmetric self →
  head_to_head_antisymmetric
    (credit_match is_regular is_title is_playoff winner loser self).
Proof.
  intros (Hd & Hm & Hs). unfold head_to_head_antisymmetric, credit_match.
  destruct is_regular, is_title, is_playoff; simpl;
    (split; [by try apply antisymmetric_incr|]); by split.
Qed.

Lemma uncredit_match_antisymmetric (is_regular is_title is_playoff : bool)
    (winner loser : string) (self : Predictor) :
  head_to_head_antisymmetric self →
  head_to_head_antisymmetric
    (uncredit_match is_regular is_title is_playoff winner loser self).
Proof.
  intros (Hd & Hm & Hs). unfold head_to_head_antisymmetric, uncredit_match.
  destruct is_regular, is_title, is_playoff; simpl;
    (split; [by try apply antisymmetric_incr|]); by split.
Qed.

Lemma same_counters_antisymmetric (self self' : Predictor) :
  same_counters self' self →
  head_to_head_antisymmetric self → head_to_head_antisymmetric self'.
Proof.
  intros (_ & _ & Hd & _ & _ & _ & _ & _ & _ & _ & Hm & _ & Hs).
  unfold head_to_head_antisymmetric. by rewrite Hd, Hm, Hs.
Qed.

Lemma handle_result_antisymmetric (is_regular is_title is_playoff : bool)
    (winner loser : string) (self : Predictor) :
  head_to_head_antisymmetric self →
  head_to_head_antisymmetric
    (state_of (handle_result is_regular is_title is_playoff winner loser self)).
Proof.
  intros Hself. unfold handle_result.
  destruct (score_get self winner) as [w|e]; [|done].
  destruct (score_get self loser) as [l|e]; [|done].
  simpl. eapply same_counters_antisymmetric; [apply score_set_frame|].
  destruct (bool_decide (w = l)); [by apply credit_match_antisymmetric|].
  destruct (bool_decide (w = l - 1)); [by apply uncredit_match_antisymmetric|].
  done.
Qed.

Lemma _update_standings_body_antisymmetric (game : Game.t) (self : Predictor) :
  head_to_head_antisymmetric self →
  head_to_head_antisymmetric (state_of (_update_standings_body game self)).
Proof.
  intros Hself. unfold _update_standings_body.
  destruct (Game.teams game) as [team1 team2].
  destruct (Game.score game) as [score1 score2].
  case_bool_decide; [|done].
  destruct (if bool_decide (score1 > score2) then _ else _) as [winner loser].
  apply handle_result_antisymmetric.
  destruct (bool_decide _); [by apply record_map_antisymmetric|done].
Qed.

Lemma _update_stage_antisymmetric (stage' : string) (self : Predictor) :
  head_to_head_antisymmetric self →
  head_to_head_antisymmetric (_update_stage stage' self).
Proof.
  intros (Hd & Hm & Hs). unfold _update_stage, head_to_head_antisymmetric.
  case_bool_decide; [|done].
  destruct (match stage self with Some cur => _ | None => _ end); simpl;
    [done|].
  split; [done|]. split; [done|]. apply antisymmetric_empty.
Qed.

(** One game keeps the head-to-head tables antisymmetric, whether
    [_update_standings] returns or raises. *)
Lemma _update_standings_antisymmetric (game : Game.t) (self : Predictor) :
  head_to_head_antisymmetric self →
  head_to_head_antisymmetric (state_of (_update_standings game self)).
Proof.
  intros Hself. unfold _update_standings.
  apply _update_standings_body_antisymmetric.
  eapply same_counters_antisymmetric; [apply _update_match_ids_frame|].
  by apply _update_stage_antisymmetric.
Qed.

Lemma update_standings_all_antisymmetric (games : list Game.t)
    (self : Predictor) :
  head_to_head_antisymmetric self →
  head_to_head_antisymmetric (state_of (update_standings_all games self)).
Proof.
  revert self. induction games as [|game games IH]; intros self Hself; [done|].
  simpl. pose proof (_update_standings_antisymmetric game self Hself) as Hstep.
  destruct (_update_standings game self) as [self'|e self']; [|done].
  by apply IH.
Qed.

Lemma init_antisymmetric (roster_queue_size : nat) :
  head_to_head_antisymmetric (init roster_queue_size).
Proof. repeat split; apply antisymmetric_empty. Qed.

(** X6.  Whatever games a fresh tracker is fed, in whatever order and
    whether or not the last call raised, its three head-to-head tables are
    antisymmetric: the season head-to-head diff, the season head-to-head map
    diff and the stage head-to-head map diff of (a, b) are the negatives of
    those of (b, a). *)
Theorem head_to_head_tables_antisymmetric (roster_queue_size : nat)
    (games : list Game.t) (a b : string) :
  let self := state_of (update_standings_all games (init roster_queue_size)) in
  dget (head_to_head_diffs self) (a, b) = - dget (head_to_head_diffs self) (b, a) ∧
  dget (head_to_head_map_diffs self) (a, b) =
    - dget (head_to_head_map_diffs self) (b, a) ∧
  dget (stage_head_to_head_map_diffs self) (a, b) =
    - dget (stage_head_to_head_map_diffs self) (b, a).
Proof.
  destruct (update_standings_all_antisymmetric games (init roster_queue_size)
              (init_antisymmetric roster_queue_size)) as (Hd & Hm & Hs).
  simpl. split; [apply Hd|]. split; [apply Hm|apply Hs].
Qed.

(** X7.  [SimplePredictor.predict] on any tracker reached from a fresh one
    answers the two orders of a pair of teams in mirror image: both get one
    half, or one gets one half plus [alpha] and the other one half minus
    [alpha], or the same with [beta]; and the draw probability is 0.0 both
    ways. *)
Theorem SimplePredictor_symmetric (roster_queue_size : nat)
    (games : list Game.t) (model : SimplePredictor.t) (A B : string)
    (rosters rosters' : option (Roster * Roster))
    (full_rosters full_rosters' : option (FullRoster * FullRoster))
    (drawable drawable' : bool) :
  let self := state_of (update_standings_all games (init roster_queue_size)) in
  ∃ p_win p_win',
    SimplePredictor.predict self model (A, B) rosters full_rosters drawable =
      Ok (p_win, 0.0%R) ∧
    SimplePredictor.predict self model (B, A) rosters' full_rosters' drawable' =
      Ok (p_win', 0.0%R) ∧
    ((p_win = 0.5%R ∧ p_win' = 0.5%R) ∨
     mirrored (SimplePredictor.alpha model) p_win p_win' ∨
     mirrored (SimplePredictor.beta model) p_win p_win').
Proof.
  destruct (update_standings_all_antisymmetric games (init roster_queue_size)
              (init_antisymmetric roster_queue_size)) as (_ & Hm & _).
  simpl. unfold SimplePredictor.predict, mirrored.
  set (self := state_of _) in *.
  eexists _, _. split; [reflexivity|]. split; [reflexivity|].
  rewrite (Hm A B).
  repeat case_bool_decide; try lia; tauto.
Qed.

Lemma sum_values_empty `{Countable K} : sum_values (∅ : gmap K Z) = 0.
Proof. unfold sum_values. apply map_fold_empty. Qed.

Lemma sum_values_insert `{Countable K} (d : gmap K Z) (k : K) (n : Z) :
  sum_values (<[k := n]> d) = sum_values d + n - dget d k.
Proof.
  unfold sum_values, dget. destruct (d !! k) as [x|] eqn:Hk; simpl.
  - rewrite <- (insert_delete_eq d).
    rewrite map_fold_insert_L; [|intros; lia|apply lookup_delete_eq].
    rewrite (map_fold_delete_L _ _ k x d); [lia|intros; lia|done].
  - rewrite map_fold_insert_L; [lia|intros; lia|done].
Qed.

(** [sum(d.values())] after [d[k] += n]. *)
Lemma sum_values_incr `{Countable K} (d : gmap K Z) (k : K) (n : Z) :
  sum_values (incr k n d) = sum_values d + n.
Proof. unfold incr. rewrite sum_values_insert. lia. Qed.

Lemma record_map_balanced (winner loser : string) (self : Predictor) :
  balanced self → balanced (record_map winner loser self).
Proof.
  intros (Hw & Hs & Ht & Hp & Hm & Hsm). unfold balanced, record_map. simpl.
  rewrite !sum_values_incr. repeat split; lia.
Qed.

Lemma credit_match_balanced (is_regular is_title is_playoff : bool)
    (winner loser : string) (self : Predictor) :
  balanced self →
  balanced (credit_match is_regular is_title is_playoff winner loser self).
Proof.
  intros (Hw & Hs & Ht & Hp & Hm & Hsm). unfold balanced, credit_match.
  destruct is_regular, is_title, is_playoff; simpl;
    rewrite ?sum_values_incr; repeat split; lia.
Qed.

Lemma uncredit_match_balanced (is_regular is_title is_playoff : bool)
    (winner loser : string) (self : Predictor) :
  balanced self →
  balanced (uncredit_match is_regular is_title is_playoff winner loser self).
Proof.
  intros (Hw & Hs & Ht & Hp & Hm & Hsm). unfold balanced, uncredit_match.
  destruct is_regular, is_title, is_playoff; simpl;
    rewrite ?sum_values_incr; repeat split; lia.
Qed.

Lemma same_counters_balanced (self self' : Predictor) :
  same_counters self' self → balanced self → balanced self'.
Proof.
  intros (Hw & Hl & _ & Hsw & Hsl & Htw & Htl & Hpw & Hpl & Hm & _ & Hsm & _).
  unfold balanced. by rewrite Hw, Hl, Hsw, Hsl, Htw, Htl, Hpw, Hpl, Hm, Hsm.
Qed.

Lemma _update_standings_body_balanced (game : Game.t) (self : Predictor) :
  balanced self → balanced (state_of (_update_standings_body game self)).
Proof.
  intros Hself. unfold _update_standings_body.
  destruct (Game.teams game) as [team1 team2].
  destruct (Game.score game) as [score1 score2].
  case_bool_decide; [|done].
  destruct (if bool_decide (score1 > score2) then _ else _) as [winner loser].
  set (self1 := if bool_decide _ then _ else self).
  assert (Hself1 : balanced self1).
  { subst self1. destruct (bool_decide _); [by apply record_map_balanced|done]. }
  clearbody self1. unfold handle_result.
  destruct (score_get self1 winner) as [w|e]; [|done].
  destruct (score_get self1 loser) as [l|e]; [|done].
  simpl. eapply same_counters_balanced; [apply score_set_frame|].
  destruct (bool_decide (w = l)); [by apply credit_match_balanced|].
  destruct (bool_decide (w = l - 1)); [by apply uncredit_match_balanced|].
  done.
Qed.

Lemma _update_stage_balanced (stage' : string) (self : Predictor) :
  balanced self → balanced (_update_stage stage' self).
Proof.
  intros (Hw & Hs & Ht & Hp & Hm & Hsm). unfold _update_stage, balanced.
  case_bool_decide; [|done].
  destruct (match stage self with Some cur => _ | None => _ end); simpl;
    [done|].
  rewrite !sum_values_empty. done.
Qed.

Lemma _update_standings_balanced (game : Game.t) (self : Predictor) :
  balanced self → balanced (state_of (_update_standings game self)).
Proof.
  intros Hself. unfold _update_standings.
  apply _update_standings_body_balanced.
  eapply same_counters_balanced; [apply _update_match_ids_frame|].
  by apply _update_stage_balanced.
Qed.

(** X8.  Whatever games a fresh tracker is fed, and whether or not the last
    call raised: the wins sum to the losses (season, stage, stage title and
    playoff counters alike), and the season and the stage map diffs each sum
    to zero over the teams. *)
Theorem standings_balanced (roster_queue_size : nat) (games : list Game.t) :
  balanced (state_of (update_standings_all games (init roster_queue_size))).
Proof.
  assert (Hinit : balanced (init roster_queue_size)).
  { unfold balanced. simpl. by rewrite !sum_values_empty. }
  revert Hinit. generalize (init roster_queue_size) as self.
  induction games as [|game games IH]; intros self Hself; [done|].
  simpl. pose proof (_update_standings_balanced game self Hself) as Hstep.
  destruct (_update_standings game self) as [self'|e self']; [|done].
  by apply IH.
Qed.

(** ** The contract of [predict] *)

Lemma ramp_cdf_monotone (x y : R) : (x <= y)%R → (ramp_cdf x <= ramp_cdf y)%R.
Proof.
  intros Hxy. unfold ramp_cdf, Rmax, Rmin.
  repeat destruct (Rle_dec _ _); lra.
Qed.

Lemma ramp_cdf_range (x : R) : (0 <= ramp_cdf x <= 1)%R.
Proof. unfold ramp_cdf, Rmax, Rmin. repeat destruct (Rle_dec _ _); lra. Qed.

(** X9.  [TrueSkillPredictor.predict] keeps the contract the score
    distribution relies on: with a distribution function that is monotone
    with values in [0, 1] and a draw margin that is not negative, the pair it
    returns has 0 ≤ p_win, 0 ≤ p_draw and p_win + p_draw ≤ 1. *)
Theorem TrueSkillPredictor_valid_probabilities (cdf : R → R)
    (calc_draw_margin : R → nat → TrueSkill.t → R)
    (base : Predictor) (self : TrueSkillPredictor.t) (teams : string * string)
    (rosters : option (Roster * Roster))
    (full_rosters : option (FullRoster * FullRoster)) (drawable : bool)
    (p : R * R) :
  (∀ x y, x <= y → cdf x <= cdf y)%R →
  (∀ x, 0 <= cdf x <= 1)%R →
  (let env := if drawable then TrueSkillPredictor.env_drawable self
              else TrueSkillPredictor.env_undrawable self in
   0 <= calc_draw_margin (TrueSkill.draw_probability env) 2%nat env)%R →
  TrueSkillPredictor.predict cdf calc_draw_margin base self teams rosters
    full_rosters drawable = Ok p →
  valid_probabilities p.
Proof.
  intros Hmono Hrange Hmargin. unfold TrueSkillPredictor.predict.
  cbn [TrueSkillPredictor._teams_ratings].
  set (env := if drawable then _ else _).
  set (margin := calc_draw_margin _ _ _).
  set (delta := (Rsum _ - Rsum _)%R).
  set (radicand := (INR _ * _ + _)%R).
  case_bool_decide as Hneg; [done|]. case_bool_decide as Hzero; [done|].
  intros [= <-]. unfold valid_probabilities. cbn [fst snd].
  assert (Hden : (0 < sqrt radicand)%R).
  { pose proof (sqrt_pos radicand). lra. }
  assert (Hle : ((delta - margin) / sqrt radicand <=
                 (delta + margin) / sqrt radicand)%R).
  { unfold Rdiv. apply Rmult_le_compat_r.
    - left. by apply Rinv_0_lt_compat.
    - subst margin env. simpl in Hmargin |- *. lra. }
  pose proof (Hmono _ _ Hle).
  pose proof (Hrange ((delta - margin) / sqrt radicand)%R).
  pose proof (Hrange ((delta + margin) / sqrt radicand)%R).
  repeat split; lra.
Qed.

Lemma TrueSkillPredictor_valid_probabilities_witness :
  match TrueSkillPredictor.predict ramp_cdf linear_draw_margin (init 12)
          default_trueskill ("NYE", "PHI") None None true with
  | Ok p => valid_probabilities p
  | Raise _ => True
  end.
Proof.
  pose proof (TrueSkillPredictor_valid_probabilities ramp_cdf
                linear_draw_margin (init 12) default_trueskill ("NYE", "PHI")
                None None true) as Hvalid.
  destruct (TrueSkillPredictor.predict _ _ _ _ _ _ _ _) as [p|e]; [|exact I].
  apply Hvalid.
  - exact ramp_cdf_monotone.
  - exact ramp_cdf_range.
  - unfold linear_draw_margin. simpl.
    pose proof (sqrt_pos (1 + 1)). nra.
  - reflexivity.
Defined.

(** ** Final scores *)

Lemma Forall_keys_padd (P : Z * Z → Prop) (k : Z * Z) (v : R) (d : PScores) :
  P k → Forall (fun kv => P kv.1) d → Forall (fun kv => P kv.1) (padd k v d).
Proof.
  intros Hk. induction 1 as [|[k' v'] d Hk' Hd IH]; simpl.
  - by repeat constructor.
  - case_bool_decide; by constructor.
Qed.

Lemma elem_of_keys_padd (k k' : Z * Z) (v : R) (d : PScores) :
  k' ∈ (padd k v d).*1 ↔ k' = k ∨ k' ∈ d.*1.
Proof.
  induction d as [|[k0 v0] d IH]; simpl.
  - rewrite elem_of_cons, elem_of_nil. tauto.
  - case_bool_decide as Heq; csimpl; rewrite !elem_of_cons.
    + subst. tauto.
    + rewrite IH. tauto.
Qed.

(** [d[k] += v] keeps the keys of the dict distinct. *)
Lemma NoDup_keys_padd (k : Z * Z) (v : R) (d : PScores) :
  NoDup d.*1 → NoDup (padd k v d).*1.
Proof.
  induction d as [|[k0 v0] d IH]; simpl; intros Hd.
  - repeat constructor. apply not_elem_of_nil.
  - apply NoDup_cons in Hd as [Hk0 Hd].
    case_bool_decide as Heq; csimpl; apply NoDup_cons.
    + done.
    + split; [|by apply IH]. rewrite elem_of_keys_padd.
      intros [?|?]; [congruence|done].
Qed.


Lemma score_table_nil (P : Z * Z → Prop) : score_table P [].
Proof. split; constructor. Qed.

Lemma score_table_padd (P : Z * Z → Prop) (k : Z * Z) (v : R) (d : PScores) :
  P k → score_table P d → score_table P (padd k v d).
Proof.
  intros Hk [Hnd Hd]. split.
  - by apply NoDup_keys_padd.
  - by apply Forall_keys_padd.
Qed.

Lemma score_table_weaken (P Q : Z * Z → Prop) (d : PScores) :
  (∀ k, P k → Q k) → score_table P d → score_table Q d.
Proof.
  intros HPQ [Hnd Hd]. split; [done|].
  eapply Forall_impl; [exact Hd|]. intros kv. apply HPQ.
Qed.

Lemma bo_branch_scores (drawable : bool) (p_win p_draw p_loss : R)
    (max_wins : Z) (state : PScores * PScores) (item : (Z * Z) * R) :
  live_score max_wins item.1 →
  score_table (live_score max_wins) state.1 →
  score_table (finished_score max_wins) state.2 →
  score_table (live_score max_wins)
    (bo_branch drawable p_win p_draw p_loss max_wins state item).1 ∧
  score_table (finished_score max_wins)
    (bo_branch drawable p_win p_draw p_loss max_wins state item).2.
Proof.
  destruct state as [live finished], item as [[score1 score2] p].
  unfold live_score at 1. simpl. intros Hitem Hlive Hfinished.
  unfold bo_branch.
  destruct (bool_decide (score1 + 1 = max_wins)) eqn:H1;
    destruct (bool_decide (score2 + 1 = max_wins)) eqn:H2;
    [apply bool_decide_eq_true in H1 | apply bool_decide_eq_true in H1
    |apply bool_decide_eq_false in H1 | apply bool_decide_eq_false in H1];
    [apply bool_decide_eq_true in H2 | apply bool_decide_eq_false in H2
    |apply bool_decide_eq_true in H2 | apply bool_decide_eq_false in H2];
    destruct drawable; simpl; split;
    repeat (apply score_table_padd; [unfold live_score, finished_score; simpl; lia|]);
    done.
Qed.

Lemma bo_game_scores (drawable : bool) (p_win p_draw p_loss : R) (max_wins : Z)
    (p_scores p_finished_scores : PScores) :
  score_table (live_score max_wins) p_scores →
  score_table (finished_score max_wins) p_finished_scores →
  score_table (live_score max_wins)
    (bo_game drawable p_win p_draw p_loss max_wins p_scores p_finished_scores).1 ∧
  score_table (finished_score max_wins)
    (bo_game drawable p_win p_draw p_loss max_wins p_scores p_finished_scores).2.
Proof.
  intros [_ Hlive] Hfinished. unfold bo_game.
  assert (Hnew : score_table (live_score max_wins) ([] : PScores))
    by apply score_table_nil.
  revert Hnew Hfinished.
  generalize ([] : PScores) as new_p_scores. revert p_finished_scores.
  induction Hlive as [|item p_scores Hitem _ IH];
    intros p_finished_scores new_p_scores Hnew Hfinished; cbn [foldl].
  - done.
  - destruct (bo_branch_scores drawable p_win p_draw p_loss max_wins
                (new_p_scores, p_finished_scores) item Hitem Hnew Hfinished)
      as [Hnew' Hfinished'].
    destruct (bo_branch _ _ _ _ _ _ _) as [new' finished']. by apply IH.
Qed.

Lemma bo_games_scores (p_undrawable p_drawable : R * R) (max_wins : Z)
    (drawables : list bool) (st : PScores * PScores * option R) :
  score_table (live_score max_wins) st.1.1 →
  score_table (finished_score max_wins) st.1.2 →
  score_table (live_score max_wins)
    (bo_games p_undrawable p_drawable max_wins drawables st).1.1 ∧
  score_table (finished_score max_wins)
    (bo_games p_undrawable p_drawable max_wins drawables st).1.2.
Proof.
  unfold bo_games. revert st.
  induction drawables as [|drawable drawables IH];
    intros [[p_scores p_finished_scores] p_loss] Hlive Hfinished; simpl.
  - done.
  - apply IH; simpl in *.
    + destruct (if drawable then p_drawable else p_undrawable) as [p_win p_draw].
      pose proof (bo_game_scores drawable p_win p_draw (1 - p_win - p_draw)
                    max_wins p_scores p_finished_scores Hlive Hfinished) as [H _].
      by destruct (bo_game _ _ _ _ _ _ _).
    + destruct (if drawable then p_drawable else p_undrawable) as [p_win p_draw].
      pose proof (bo_game_scores drawable p_win p_draw (1 - p_win - p_draw)
                    max_wins p_scores p_finished_scores Hlive Hfinished) as [_ H].
      by destruct (bo_game _ _ _ _ _ _ _).
Qed.

Lemma bo_tie_break_raise (p_win : R) (p_loss : option R) (e : exn)
    (p_scores : PScores) :
  foldl (bo_tie_branch p_win p_loss) (Raise e) p_scores = Raise e.
Proof.
  induction p_scores as [|[[score1 score2] p] p_scores IH]; simpl; [done|].
  exact IH.
Qed.

Lemma bo_tie_break_scores (p_win : R) (p_loss : option R) (max_wins : Z)
    (p_scores new_p_scores : PScores) :
  score_table (live_score max_wins) p_scores →
  bo_tie_break p_win p_loss p_scores = Ok new_p_scores →
  score_table (decided max_wins) new_p_scores.
Proof.
  intros [_ Hlive]. unfold bo_tie_break.
  assert (Hacc : score_table (decided max_wins) ([] : PScores))
    by apply score_table_nil.
  revert Hacc. generalize ([] : PScores) as acc.
  induction Hlive as [|[[score1 score2] p] p_scores Hitem _ IH];
    intros acc Hacc; simpl.
  - by intros [= <-].
  - unfold live_score in Hitem. simpl in Hitem.
    case_bool_decide as Htied.
    + destruct p_loss as [p_loss|].
      * apply IH.
        repeat (apply score_table_padd; [unfold decided; simpl; lia|]). done.
      * by rewrite bo_tie_break_raise.
    + apply IH. apply score_table_padd; [unfold decided; simpl; lia|done].
Qed.

Lemma bo_merge_scores (max_wins : Z) (p_scores p_finished_scores : PScores) :
  score_table (decided max_wins) p_scores →
  score_table (finished_score max_wins) p_finished_scores →
  score_table (decided max_wins) (bo_merge p_scores p_finished_scores).
Proof.
  intros Hp [_ Hfinished]. unfold bo_merge. revert p_scores Hp.
  induction Hfinished as [|[scores p] p_finished_scores Hitem _ IH];
    intros p_scores Hp; simpl; [done|].
  apply IH. apply score_table_padd; [|done].
  unfold finished_score in Hitem. unfold decided. simpl in *. lia.
Qed.

Lemma bo_score_scores (p_undrawable p_drawable : R * R) (drawables : list bool)
    (max_wins : Z) (p_scores : PScores) :
  0 < max_wins →
  bo_score p_undrawable p_drawable drawables max_wins = Ok p_scores →
  score_table (decided max_wins) p_scores.
Proof.
  intros Hmax. unfold bo_score.
  pose proof (bo_games_scores p_undrawable p_drawable max_wins drawables
                ([((0, 0), 1%R)], [], None)) as [Hlive Hfinished].
  { split; simpl.
    - repeat constructor. apply not_elem_of_nil.
    - repeat constructor; simpl; lia. }
  { apply score_table_nil. }
  destruct (bo_games _ _ _ _ _) as [[live finished] p_loss]. simpl in *.
  destruct (bo_tie_break _ _ _) as [new|e] eqn:Hnew; cbn [mbind result_bind];
    [|done].
  intros [= <-]. apply bo_merge_scores; [|done].
  by eapply bo_tie_break_scores.
Qed.

Lemma match_pattern_max_wins (match_format : string) (drawables : list bool)
    (max_wins : Z) :
  match_pattern match_format = Ok (drawables, max_wins) → 0 < max_wins.
Proof.
  unfold match_pattern.
  destruct (_ || _); [by intros [= <- <-]|].
  destruct (str_in _ _); [by intros [= <- <-]|].
  destruct (str_in _ _); [by intros [= <- <-]|done].
Qed.

(** X10.  Whenever [predict_match_score] returns a distribution, and whatever
    the [predict] method answered, every score in it is decided: its two
    sides differ (no match ends level, the tie-breaker sees to it) and lie
    between [0] and the clinch count of the match format, 4 for preseason,
    regular and best-of-7 matches and 3 for best-of-5; and no score is listed
    twice. *)
Theorem final_scores_decided {M : Type} (predict : predict_method M)
    (self : Predictor) (model : M) (match_ : Game.t)
    (drawables : list bool) (max_wins : Z) (p_scores : PScores) :
  match_pattern (Game.match_format match_) = Ok (drawables, max_wins) →
  predict_match_score predict self model match_ = Ok p_scores →
  NoDup p_scores.*1 ∧
  Forall (fun kv => decided max_wins kv.1) p_scores.
Proof.
  intros Hpattern. unfold predict_match_score, _predict_bo_score.
  rewrite Hpattern. cbn [mbind result_bind].
  destruct (predict _ _ _ _ _ false) as [p_undrawable|]; [|done].
  destruct (predict _ _ _ _ _ true) as [p_drawable|]; [|done].
  apply bo_score_scores. by eapply match_pattern_max_wins.
Qed.

Lemma final_scores_decided_witness :
  match predict_match_score (fixed_predict (0.5, 0) (0.4, 0.2))%R (init 12) ()
                            regular_match with
  | Ok p_scores =>
      NoDup p_scores.*1 ∧ Forall (fun kv => decided 4 kv.1) p_scores
  | Raise _ => True
  end.
Proof.
  pose proof (final_scores_decided (fixed_predict (0.5, 0) (0.4, 0.2))%R
                (init 12) () regular_match [true; false; true; false] 4) as H.
  destruct (predict_match_score _ _ _ _) as [p_scores|e]; [|exact I].
  apply H; reflexivity.
Defined.

(** ** Win probability and expected map difference *)




(** ** Sampling tables *)

Lemma cum_weights_fold (p_scores : PScores) (scores : list (Z * Z))
    (cum_weights : list R) (cum_weight : R) :
  foldl
    (fun '(scores, cum_weights, cum_weight) '(score, p) =>
       let cum_weight := (cum_weight + p)%R in
       (scores ++ [score], cum_weights ++ [cum_weight], cum_weight))
    (scores, cum_weights, cum_weight) p_scores =
  (scores ++ p_scores.*1, cum_weights ++ running cum_weight p_scores,
   (cum_weight + total p_scores)%R).
Proof.
  revert scores cum_weights cum_weight.
  induction p_scores as [|[score p] p_scores IH]; intros; cbn [foldl].
  - change (total []) with 0%R. simpl. rewrite !app_nil_r.
    by replace (cum_weight + 0)%R with cum_weight by lra.
  - cbv zeta. rewrite IH, total_cons. csimpl. rewrite <- !app_assoc. simpl.
    by replace (cum_weight + p + total p_scores)%R
      with (cum_weight + (p + total p_scores))%R by lra.
Qed.

Lemma cum_weights_of_running (p_scores : PScores) :
  cum_weights_of p_scores = (p_scores.*1, running 0 p_scores).
Proof.
  unfold cum_weights_of. rewrite cum_weights_fold. simpl.
  by replace 0.0%R with 0%R by lra.
Qed.

Lemma length_running (w : R) (d : PScores) : length (running w d) = length d.
Proof.
  revert w. induction d as [|[k p] d IH]; intros; simpl; [done|].
  by rewrite IH.
Qed.

Lemma running_lookup (w : R) (d : PScores) (j : nat) :
  (j < length d)%nat →
  running w d !! j = Some (w + total (take (S j) d))%R.
Proof.
  revert w j. induction d as [|[k p] d IH]; intros w j Hj; simpl in Hj; [lia|].
  destruct j as [|j].
  - cbn [running lookup list_lookup firstn]. rewrite total_cons.
    rewrite take_0. change (total []) with 0%R. f_equal. lra.
  - cbn [running lookup list_lookup]. rewrite IH by lia.
    change (take (S (S j)) ((k, p) :: d)) with ((k, p) :: take (S j) d).
    rewrite total_cons. f_equal. lra.
Qed.

Lemma total_non_negative (d : PScores) : non_negative d → (0 <= total d)%R.
Proof.
  induction 1 as [|[k p] d Hp _ IH]; [change (total []) with 0%R; lra|].
  rewrite total_cons. simpl in Hp. lra.
Qed.

Lemma total_take_le (d : PScores) (i j : nat) :
  non_negative d → (i ≤ j)%nat → (total (take i d) <= total (take j d))%R.
Proof.
  intros Hd. revert i j.
  induction Hd as [|[k p] d Hp Hd IH]; intros i j Hij.
  - rewrite !take_nil. lra.
  - destruct i as [|i].
    + rewrite take_0. change (total []) with 0%R.
      apply total_non_negative, Forall_take. by constructor.
    + destruct j as [|j]; [lia|]. cbn [firstn]. rewrite !total_cons.
      specialize (IH i j ltac:(lia)). lra.
Qed.

Lemma running_non_decreasing (d : PScores) :
  non_negative d → non_decreasing (running 0 d).
Proof.
  intros Hd i j x y Hij Hx Hy.
  assert (Hj : (j < length d)%nat).
  { apply lookup_lt_Some in Hy. by rewrite length_running in Hy. }
  rewrite running_lookup in Hx by lia. rewrite running_lookup in Hy by lia.
  injection Hx as <-. injection Hy as <-.
  pose proof (total_take_le d (S i) (S j) Hd ltac:(lia)). lra.
Qed.

Lemma running_lookup_sum (w : R) (d : PScores) (j : nat) :
  (j < length d)%nat →
  running w d !! j = Some (foldl Rplus w (take (S j) d.*2)).
Proof.
  revert w j. induction d as [|[k p] d IH]; intros w j Hj; simpl in Hj; [lia|].
  destruct j as [|j].
  - cbn [running lookup list_lookup]. by csimpl.
  - cbn [running lookup list_lookup]. rewrite IH by lia. by csimpl.
Qed.

Lemma cum_weights_of_sampling_table (p_scores : PScores) :
  non_negative p_scores →
  sampling_table p_scores (cum_weights_of p_scores).1 (cum_weights_of p_scores).2.
Proof.
  intros Hnn. rewrite cum_weights_of_running. simpl.
  split; [done|]. split; [by rewrite length_running, length_fmap|].
  split; [|by apply running_non_decreasing].
  intros j Hj. rewrite length_fmap in Hj. by rewrite running_lookup_sum.
Qed.

Lemma predict_match_score_keeps_sign {M : Type} (predict : predict_method M)
    (self : Predictor) (model : M) (match_ : Game.t) (p_scores : PScores) :
  (∀ drawable p,
     predict self model (Game.teams match_) (Game.rosters match_)
             (Game.full_rosters match_) drawable = Ok p →
     valid_probabilities p) →
  predict_match_score predict self model match_ = Ok p_scores →
  non_negative p_scores.
Proof.
  intros Hvalid. unfold predict_match_score, _predict_bo_score.
  destruct (match_pattern _) as [[drawables max_wins]|] eqn:Hpattern; [|done].
  cbn [mbind result_bind].
  destruct (predict _ _ _ _ _ false) as [p_undrawable|] eqn:Hpu; [|done].
  destruct (predict _ _ _ _ _ true) as [p_drawable|] eqn:Hpd; [|done].
  cbn [mbind result_bind].
  destruct (match_pattern_ends_undrawable _ _ _ Hpattern) as [scheduled ->].
  pose proof (Hvalid _ _ Hpu) as Hu. pose proof (Hvalid _ _ Hpd) as Hd.
  unfold bo_score.
  pose proof (bo_games_non_negative p_undrawable p_drawable max_wins
                (scheduled ++ [false]) ([((0, 0), 1%R)], [], None) Hu Hd) as Hnn.
  pose proof (bo_games_p_loss p_undrawable p_drawable max_wins scheduled
                ([((0, 0), 1%R)], [], None)) as Hloss.
  destruct (bo_games _ _ _ _ _) as [[live finished] p_loss].
  simpl in Hnn, Hloss. subst p_loss.
  destruct Hnn as [Hp Hf].
  { repeat constructor. simpl. lra. }
  { constructor. }
  destruct Hu as (Hu1 & Hu2 & Hu3).
  destruct (bo_tie_break_non_negative p_undrawable.1
              (1 - p_undrawable.1 - p_undrawable.2) live)
    as (new & -> & Hnew); [lra..|done|].
  cbn [mbind result_bind]. intros [= <-].
  by apply bo_merge_non_negative.
Qed.

(** X12.  When [predict] answers valid probabilities on the matches and
    [_match_scores_cum_weights] returns, it returns one pair of lists per
    match, in the order of the matches; the scores of a pair are the keys of
    the match's score distribution in the dict's order, and the cumulative
    weights are the running sums of their probabilities: as many as there are
    scores, the one at position [j] the sum from the left of the first
    [j + 1] probabilities, and never decreasing. *)
Theorem cum_weights_are_sampling_tables {M : Type} (predict : predict_method M)
    (self : Predictor) (model : M) (matches : list Game.t)
    (scores_list : list (list (Z * Z))) (cum_weights_list : list (list R)) :
  predicts_validly predict self model matches →
  _match_scores_cum_weights predict self model matches =
    Ok (scores_list, cum_weights_list) →
  sampling_tables predict self model matches scores_list cum_weights_list.
Proof.
  unfold _match_scores_cum_weights.
  revert scores_list cum_weights_list.
  induction matches as [|match_ matches IH] using rev_ind;
    intros scores_list cum_weights_list Hvalid.
  - intros [= <- <-]. split; [done|]. split; [done|].
    intros i ? ? ? Hi. by rewrite lookup_nil in Hi.
  - rewrite foldl_snoc.
    match goal with
    | |- context [foldl ?f ?a matches] =>
        destruct (foldl f a matches) as [[scores_list' cum_weights_list']|] eqn:Hfold
    end; [|done].
    cbn [mbind result_bind].
    destruct (predict_match_score predict self model match_) as [p_scores|]
      eqn:Hscores; [|done].
    cbn [mbind result_bind].
    destruct (cum_weights_of p_scores) as [scores cum_weights] eqn:Hcum.
    intros [= <- <-].
    destruct (IH scores_list' cum_weights_list') as (Hlen1 & Hlen2 & Hall).
    { intros m drawable p Hm. apply Hvalid. apply elem_of_app. by left. }
    { done. }
    split; [rewrite !length_app; simpl; lia|].
    split; [rewrite !length_app; simpl; lia|].
    intros i m s c Hm Hs Hc.
    destruct (decide (i < length matches)%nat) as [Hi|Hi].
    + rewrite lookup_app_l in Hm by lia. rewrite lookup_app_l in Hs by lia.
      rewrite lookup_app_l in Hc by lia. by eapply Hall.
    + assert (i = length matches) as ->.
      { apply lookup_lt_Some in Hm. rewrite length_app in Hm. simpl in Hm. lia. }
      rewrite lookup_app_r in Hm by lia. rewrite lookup_app_r in Hs by lia.
      rewrite lookup_app_r in Hc by lia.
      rewrite Hlen1 in Hs. rewrite Hlen2 in Hc.
      rewrite Nat.sub_diag in Hm, Hs, Hc. simpl in Hm, Hs, Hc.
      injection Hm as <-. injection Hs as <-. injection Hc as <-.
      exists p_scores. split; [done|].
      assert (Hnn : non_negative p_scores).
      { apply (predict_match_score_keeps_sign predict self model match_);
          [|done].
        intros drawable p. apply Hvalid. apply elem_of_app. right.
        apply elem_of_cons. by left. }
      pose proof (cum_weights_of_sampling_table p_scores Hnn) as H.
      by rewrite Hcum in H.
Qed.

Lemma cum_weights_are_sampling_tables_witness :
  match _match_scores_cum_weights (fixed_predict (0.5, 0) (0.4, 0.2))%R
          (init 12) () [regular_match; best_of_5_match] with
  | Ok (scores_list, cum_weights_list) =>
      sampling_tables (fixed_predict (0.5, 0) (0.4, 0.2))%R (init 12) ()
        [regular_match; best_of_5_match] scores_list cum_weights_list
  | Raise _ => True
  end.
Proof.
  pose proof (cum_weights_are_sampling_tables
                (fixed_predict (0.5, 0) (0.4, 0.2))%R (init 12) ()
                [regular_match; best_of_5_match]) as H.
  destruct (_match_scores_cum_weights _ _ _ _)
    as [[scores_list cum_weights_list]|e]; [|exact I].
  apply H; [|reflexivity].
  intros match_ drawable p _ [= <-]. unfold valid_probabilities.
  destruct drawable; simpl; lra.
Defined.

(** ** Evaluation *)

Lemma clamp_range (x : R) : (0 <= Rmax 0 (Rmin x 1) <= 1)%R.
Proof.
  unfold Rmax, Rmin. destruct (Rle_dec x 1); destruct (Rle_dec 0 _); lra.
Qed.

Lemma clamp_low (x : R) : (x <= 0)%R → Rmax 0 (Rmin x 1) = 0%R.
Proof. intros Hx. rewrite Rmin_left by lra. by rewrite Rmax_left by lra. Qed.

Lemma clamp_high (x : R) : (1 <= x)%R → Rmax 0 (Rmin x 1) = 1%R.
Proof. intros Hx. rewrite Rmin_right by lra. by rewrite Rmax_right by lra. Qed.

Lemma ln_le_ln_2 (x : R) : (0 < x <= 2)%R → (ln x <= ln 2)%R.
Proof.
  intros [Hpos [Hlt| ->]]; [|lra].
  left. by apply ln_increasing.
Qed.

Lemma ln_positive_inv (x : R) : (0 < x)%R → (0 < ln x)%R → (1 < x)%R.
Proof.
  intros Hpos Hln. apply ln_lt_inv; [lra|done|]. by rewrite ln_1.
Qed.

(** X13.  A point [evaluate] returns never exceeds [ln 2], the point of a
    certain and right prediction; and a positive point is only given to a
    prediction counted as correct. *)
Theorem evaluate_point_bounded {M : Type} (predict : predict_method M)
    (self : Predictor) (model : M) (game : Game.t) (point : R) (correct : bool) :
  evaluate predict self model game = Ok (point, correct) →
  (point <= ln 2)%R ∧ ((0 < point)%R → correct = true).
Proof.
  unfold evaluate. case_bool_decide as Hdrawn.
  { intros [= <- <-]. pose proof ln_lt_2. split; lra. }
  destruct (predict _ _ _ _ _ _) as [[p_win p_draw]|]; [|done].
  cbn [mbind result_bind].
  pose proof (clamp_range p_win) as Hwin.
  pose proof (clamp_range p_draw) as Hdraw.
  set (win := Rmax 0 (Rmin p_win 1)) in *.
  set (draw := Rmax 0 (Rmin p_draw 1)) in *.
  destruct (bool_decide (_ > _)).
  - case_bool_decide as Hpos; [|done]. intros [= <- <-]. split.
    + apply ln_le_ln_2. lra.
    + intros Hpoint. apply ln_positive_inv in Hpoint; [|done].
      apply bool_decide_eq_true. lra.
  - case_bool_decide as Hpos; [|done]. intros [= <- <-]. split.
    + apply ln_le_ln_2. lra.
    + intros Hpoint. apply ln_positive_inv in Hpoint; [|done].
      apply bool_decide_eq_true. lra.
Qed.

Lemma evaluate_point_bounded_witness :
  match evaluate (fixed_predict (0.75, 0) (0.4, 0.2))%R (init 12) () won_game with
  | Ok (point, correct) => (point <= ln 2)%R ∧ ((0 < point)%R → correct = true)
  | Raise _ => True
  end.
Proof.
  pose proof (evaluate_point_bounded (fixed_predict (0.75, 0) (0.4, 0.2))%R
                (init 12) () won_game) as H.
  destruct (evaluate _ _ _ _) as [[point correct]|e]; [|exact I].
  by apply H.
Defined.

(** X14.  A model that gives the outcome that happened no chance stops the
    training: when [predict] answers a win probability of at most 0 for a
    game the first team won, or of at least 1 for a game it lost, [train]
    raises [ValueError] (the logarithm of zero), and neither the tracker nor
    the model has changed. *)
Theorem train_impossible_outcome_raises {M : Type} (predict : predict_method M)
    (_train : train_method M) (self : Predictor) (model : M) (game : Game.t)
    (p_win p_draw : R) :
  predict self model (Game.teams game) (Game.rosters game) None false =
    Ok (p_win, p_draw) →
  ((Game.score game).1 > (Game.score game).2 ∧ (p_win <= 0)%R) ∨
  ((Game.score game).1 < (Game.score game).2 ∧ (1 <= p_win)%R) →
  train predict _train game self model = (Raise ValueError, (self, model)).
Proof.
  intros Hpredict Hcase. unfold train, evaluate.
  rewrite bool_decide_eq_false_2 by lia.
  rewrite Hpredict. cbn [mbind result_bind].
  pose proof (clamp_range p_draw) as Hdraw.
  set (draw := Rmax 0 (Rmin p_draw 1)) in *.
  destruct Hcase as [[Hscore Hp]|[Hscore Hp]].
  - rewrite (bool_decide_eq_true_2 (_ > _)) by done.
    rewrite (bool_decide_eq_false_2 (0 < _)%R); [done|].
    rewrite clamp_low by done. lra.
  - rewrite (bool_decide_eq_false_2 (_ > _)) by lia.
    rewrite (bool_decide_eq_false_2 (0 < _)%R); [done|].
    rewrite clamp_high by done. lra.
Qed.

Lemma train_impossible_outcome_raises_witness :
  train (fixed_predict (0, 0) (0.4, 0.2))%R Predictor__train won_game
        (init 12) () = (Raise ValueError, (init 12, ())).
Proof.
  apply (train_impossible_outcome_raises
           (fixed_predict (0, 0) (0.4, 0.2))%R Predictor__train
           (init 12) () won_game 0%R 0%R).
  - reflexivity.
  - left. split; [reflexivity|lra].
Defined.

(** ** The evaluation history *)

Lemma same_history_refl (self : Predictor) : same_history self self.
Proof. by split. Qed.

Lemma same_history_trans (a b c : Predictor) :
  same_history a b → same_history b c → same_history a c.
Proof. intros [? ?] [? ?]. split; congruence. Qed.

Lemma _update_stage_history (stage' : string) (self : Predictor) :
  same_history (_update_stage stage' self) self.
Proof.
  unfold _update_stage. case_bool_decide; [|done].
  by destruct (match stage self with Some cur => _ | None => _ end).
Qed.

Lemma _update_match_ids_history (id : Z) (teams : string * string)
    (self : Predictor) :
  same_history (_update_match_ids id teams self) self.
Proof.
  destruct (_update_match_ids_frame id teams self)
    as (_ & _ & _ & _ & _ & _ & _ & Hpoints & Hcorrects).
  by split.
Qed.

Lemma score_set_history (team : string) (n : Z) (self : Predictor) :
  same_history (score_set team n self) self.
Proof.
  unfold score_set. destruct (score self); [|done].
  by destruct (match_id _).
Qed.

Lemma credit_match_history (is_regular is_title is_playoff : bool)
    (winner loser : string) (self : Predictor) :
  same_history (credit_match is_regular is_title is_playoff winner loser self)
               self.
Proof. by destruct is_regular, is_title, is_playoff. Qed.

Lemma uncredit_match_history (is_regular is_title is_playoff : bool)
    (winner loser : string) (self : Predictor) :
  same_history (uncredit_match is_regular is_title is_playoff winner loser self)
               self.
Proof. by destruct is_regular, is_title, is_playoff. Qed.

Lemma handle_result_history (is_regular is_title is_playoff : bool)
    (winner loser : string) (self : Predictor) :
  same_history
    (state_of (handle_result is_regular is_title is_playoff winner loser self))
    self.
Proof.
  unfold handle_result.
  destruct (_ ≫= _) as [[w l]|]; [|done]. cbn [state_of].
  eapply same_history_trans; [apply score_set_history|].
  case_bool_decide; [apply credit_match_history|].
  case_bool_decide; [apply uncredit_match_history|done].
Qed.

Lemma _update_standings_same_history (game : Game.t) (self : Predictor) :
  same_history (state_of (_update_standings game self)) self.
Proof.
  unfold _update_standings.
  assert (Hids : same_history
                   (_update_match_ids (Game.match_id game) (Game.teams game)
                      (_update_stage (Game.stage game) self)) self).
  { eapply same_history_trans;
      [apply _update_match_ids_history|apply _update_stage_history]. }
  revert Hids.
  generalize (_update_match_ids (Game.match_id game) (Game.teams game)
                (_update_stage (Game.stage game) self)).
  intros self' Hids. apply (same_history_trans _ self'); [|done].
  unfold _update_standings_body.
  destruct (Game.teams game) as [team1 team2].
  destruct (Game.score game) as [score1 score2].
  case_bool_decide; [|apply same_history_refl].
  destruct (bool_decide (score1 > score2));
    (eapply same_history_trans; [apply handle_result_history|]);
    by destruct (bool_decide (Game.match_format game = "regular")).
Qed.

Lemma _update_rosters_same_history (game : Game.t) (self : Predictor) :
  same_history (state_of (_update_rosters game self)) self.
Proof.
  unfold _update_rosters.
  destruct (Game.rosters game) as [[roster1 roster2]|]; [|done].
  by destruct (Game.full_rosters game) as [[full_roster1 full_roster2]|].
Qed.

Lemma _update_draws_same_history {M : Type} (predict : predict_method M)
    (game : Game.t) (self : Predictor) (model : M) :
  same_history (state_of (_update_draws predict game self model)) self.
Proof.
  unfold _update_draws. destruct (Game.drawable game).
  - destruct (predict _ _ _ _ _ _) as [[p_win p_draw]|]; [|done].
    cbn [mbind result_bind]. by case_bool_decide.
  - by case_bool_decide.
Qed.

Lemma train_updates_history {M : Type} (predict : predict_method M)
    (_train : train_method M) (game : Game.t) (point : R) (self : Predictor)
    (model : M) :
  same_history (train_updates predict _train game point self model).2.1 self.
Proof.
  unfold train_updates.
  pose proof (_update_rosters_same_history game self) as H1.
  destruct (_update_rosters game self) as [self1|e self1]; [|done].
  pose proof (_update_standings_same_history game self1) as H2.
  destruct (_update_standings game self1) as [self2|e self2];
    [|by eapply same_history_trans].
  pose proof (_update_draws_same_history predict game self2 model) as H3.
  destruct (_update_draws predict game self2 model) as [self3|e self3];
    cbn [state_of] in *.
  - destruct (_train game self3 model); simpl;
      eapply same_history_trans; [exact H3| |exact H3|];
      by eapply same_history_trans.
  - simpl. eapply same_history_trans; [exact H3|]. by eapply same_history_trans.
Qed.

Lemma train_history {M : Type} (predict : predict_method M)
    (_train : train_method M) (game : Game.t) (self self' : Predictor)
    (model model' : M) (point : R) :
  train predict _train game self model = (Ok point, (self', model')) →
  ∃ correct,
    evaluate predict self model game = Ok (point, correct) ∧
    same_history self' (logged point correct self).
Proof.
  unfold train.
  destruct (evaluate predict self model game) as [[point' correct]|]; [|done].
  cbv zeta.
  pose proof (train_updates_history predict _train game point'
                (logged point' correct self) model) as Hlog.
  unfold logged in Hlog |- *. simpl in Hlog |- *.
  intros Hupdates. rewrite Hupdates in Hlog. simpl in Hlog.
  assert (point' = point) as ->.
  { revert Hupdates. unfold train_updates.
    destruct (_update_rosters _ _); [|done].
    destruct (_update_standings _ _); [|done].
    destruct (_update_draws _ _ _ _); [|done].
    destruct (_train _ _ _); [|done]. by intros [= -> _ _]. }
  by exists correct.
Qed.

(** X15.  [train] records the evaluation before it looks at the rosters: on
    a game that carries no rosters, or no full rosters, it raises
    [TypeError], and the tracker it leaves is the one it found with the
    point and the flag of the game appended to the evaluation history;
    standings and model are untouched. *)
Theorem train_without_rosters_raises {M : Type} (predict : predict_method M)
    (_train : train_method M) (self : Predictor) (model : M) (game : Game.t)
    (point : R) (correct : bool) :
  Game.rosters game = None ∨ Game.full_rosters game = None →
  evaluate predict self model game = Ok (point, correct) →
  train predict _train game self model =
    (Raise TypeError, (logged point correct self, model)).
Proof.
  intros Hmissing Hevaluate. unfold train. rewrite Hevaluate. cbv zeta.
  unfold train_updates, _update_rosters.
  destruct Hmissing as [-> | ->]; [done|].
  by destruct (Game.rosters game) as [[roster1 roster2]|].
Qed.

Lemma train_without_rosters_raises_witness :
  train (fixed_predict (0.5, 0) (0.4, 0.2))%R Predictor__train won_game
        (init 12) () =
    (Raise TypeError, (logged (ln (2 * 0.5)) false (init 12), ())).
Proof.
  apply (train_without_rosters_raises
           (fixed_predict (0.5, 0) (0.4, 0.2))%R Predictor__train
           (init 12) () won_game).
  - by left.
  - unfold evaluate, fixed_predict, won_game, a_game.
    cbn [Game.score Game.teams Game.rosters fst snd mbind result_bind].
    rewrite bool_decide_eq_false_2 by lia.
    rewrite bool_decide_eq_true_2 by lia.
    assert (Hclamp : Rmax 0 (Rmin 0.5 1) = 0.5%R).
    { rewrite Rmin_left by lra. by rewrite Rmax_right by lra. }
    assert (Hzero : Rmax 0 (Rmin 0 1) = 0%R).
    { rewrite Rmin_left by lra. by rewrite Rmax_left by lra. }
    rewrite Hclamp, Hzero.
    rewrite bool_decide_eq_true_2 by lra.
    rewrite bool_decide_eq_false_2 by lra. done.
Defined.

Lemma train_games_from_history {M : Type} (predict : predict_method M)
    (_train : train_method M) (games : list Game.t) (self self' : Predictor)
    (model model' : M) (start total_point : R) :
  train_games_from predict _train start games self model =
    (Ok total_point, (self', model')) →
  ∃ new_points new_corrects,
    points self' = points self ++ new_points ∧
    corrects self' = corrects self ++ new_corrects ∧
    length new_points = length games ∧
    length new_corrects = length games ∧
    total_point = foldl Rplus start new_points.
Proof.
  revert self model start.
  induction games as [|game games IH]; intros self model start; simpl.
  - intros [= <- <- <-]. exists [], []. by rewrite !app_nil_r.
  - destruct (train predict _train game self model)
      as [[point|] [self1 model1]] eqn:Htrain; [|done].
    intros Hrest.
    apply train_history in Htrain as (correct & _ & Hpoints & Hcorrects).
    apply IH in Hrest as (new_points & new_corrects & Hp & Hc & Hlp & Hlc & ->).
    exists (point :: new_points), (correct :: new_corrects).
    rewrite Hp, Hc, Hpoints, Hcorrects. unfold logged. simpl.
    rewrite <- !app_assoc. simpl. by rewrite Hlp, Hlc.
Qed.

(** X16.  When [train_games] returns, the evaluation history has grown by
    one point and one flag for each game, in order, and the total it returns
    is the sum of the points it appended. *)
Theorem train_games_total {M : Type} (predict : predict_method M)
    (_train : train_method M) (games : list Game.t) (self self' : Predictor)
    (model model' : M) (total_point : R) :
  train_games predict _train games self model =
    (Ok total_point, (self', model')) →
  ∃ new_points new_corrects,
    points self' = points self ++ new_points ∧
    corrects self' = corrects self ++ new_corrects ∧
    length new_points = length games ∧
    length new_corrects = length games ∧
    total_point = Rsum new_points.
Proof.
  unfold train_games. intros Hgames.
  apply train_games_from_history in Hgames
    as (new_points & new_corrects & Hp & Hc & Hlp & Hlc & ->).
  exists new_points, new_corrects. repeat (split; [done|]).
  unfold Rsum. f_equal. lra.
Qed.

Lemma train_games_total_witness :
  ∃ total_point self' model',
    train_games SimplePredictor.predict SimplePredictor._train
                [drawn_game; drawn_game] (init 12) SimplePredictor.init =
      (Ok total_point, (self', model')) ∧
    ∃ new_points new_corrects,
      points self' = points (init 12) ++ new_points ∧
      corrects self' = corrects (init 12) ++ new_corrects ∧
      length new_points = length [drawn_game; drawn_game] ∧
      length new_corrects = length [drawn_game; drawn_game] ∧
      total_point = Rsum new_points.
Proof.
  eexists _, _, _. split.
  - reflexivity.
  - eapply (train_games_total SimplePredictor.predict SimplePredictor._train
              [drawn_game; drawn_game] (init 12) _ SimplePredictor.init).
    reflexivity.
Defined.

(** ** Roster records *)

Lemma same_rosters_refl (self : Predictor) : same_rosters self self.
Proof. by repeat split. Qed.

Lemma same_rosters_trans (a b c : Predictor) :
  same_rosters a b → same_rosters b c → same_rosters a c.
Proof. intros (? & ? & ?) (? & ? & ?). repeat split; congruence. Qed.

Lemma _update_stage_rosters (stage' : string) (self : Predictor) :
  same_rosters (_update_stage stage' self) self.
Proof.
  unfold _update_stage. case_bool_decide; [|apply same_rosters_refl].
  by destruct (match stage self with Some cur => _ | None => _ end).
Qed.

Lemma _update_match_ids_rosters (id : Z) (teams : string * string)
    (self : Predictor) :
  same_rosters (_update_match_ids id teams self) self.
Proof.
  unfold _update_match_ids. by case_bool_decide.
Qed.

Lemma score_set_rosters (team : string) (n : Z) (self : Predictor) :
  same_rosters (score_set team n self) self.
Proof.
  unfold score_set. destruct (score self); [|done].
  by destruct (match_id _).
Qed.

Lemma credit_match_rosters (is_regular is_title is_playoff : bool)
    (winner loser : string) (self : Predictor) :
  same_rosters (credit_match is_regular is_title is_playoff winner loser self)
               self.
Proof. by destruct is_regular, is_title, is_playoff. Qed.

Lemma uncredit_match_rosters (is_regular is_title is_playoff : bool)
    (winner loser : string) (self : Predictor) :
  same_rosters (uncredit_match is_regular is_title is_playoff winner loser self)
               self.
Proof. by destruct is_regular, is_title, is_playoff. Qed.

Lemma handle_result_rosters (is_regular is_title is_playoff : bool)
    (winner loser : string) (self : Predictor) :
  same_rosters
    (state_of (handle_result is_regular is_title is_playoff winner loser self))
    self.
Proof.
  unfold handle_result.
  destruct (_ ≫= _) as [[w l]|]; [|done]. cbn [state_of].
  eapply same_rosters_trans; [apply score_set_rosters|].
  case_bool_decide; [apply credit_match_rosters|].
  case_bool_decide; [apply uncredit_match_rosters|done].
Qed.

Lemma _update_standings_rosters (game : Game.t) (self : Predictor) :
  same_rosters (state_of (_update_standings game self)) self.
Proof.
  unfold _update_standings.
  assert (Hids : same_rosters
                   (_update_match_ids (Game.match_id game) (Game.teams game)
                      (_update_stage (Game.stage game) self)) self).
  { eapply same_rosters_trans;
      [apply _update_match_ids_rosters|apply _update_stage_rosters]. }
  revert Hids.
  generalize (_update_match_ids (Game.match_id game) (Game.teams game)
                (_update_stage (Game.stage game) self)).
  intros self' Hids. apply (same_rosters_trans _ self'); [|done].
  unfold _update_standings_body.
  destruct (Game.teams game) as [team1 team2].
  destruct (Game.score game) as [score1 score2].
  case_bool_decide; [|apply same_rosters_refl].
  destruct (bool_decide (score1 > score2));
    (eapply same_rosters_trans; [apply handle_result_rosters|]);
    by destruct (bool_decide (Game.match_format game = "regular")).
Qed.

Lemma _update_draws_rosters {M : Type} (predict : predict_method M)
    (game : Game.t) (self : Predictor) (model : M) :
  same_rosters (state_of (_update_draws predict game self model)) self.
Proof.
  unfold _update_draws. destruct (Game.drawable game).
  - destruct (predict _ _ _ _ _ _) as [[p_win p_draw]|]; [|done].
    cbn [mbind result_bind]. by case_bool_decide.
  - by case_bool_decide.
Qed.

Lemma same_rosters_bounded (a b : Predictor) :
  same_rosters a b → queues_bounded b → queues_bounded a.
Proof.
  intros (Hsize & Hqueues & _) Hb team queue. rewrite Hsize, Hqueues. apply Hb.
Qed.

Lemma _update_rosters_returned (game : Game.t) (self self' : Predictor) :
  _update_rosters game self = Returned self' →
  ∃ roster1 roster2 full_roster1 full_roster2,
    Game.rosters game = Some (roster1, roster2) ∧
    Game.full_rosters game = Some (full_roster1, full_roster2) ∧
    roster_queue_size self' = roster_queue_size self ∧
    roster_queues self' =
      (let queues :=
         <[(Game.teams game).1 :=
             take (roster_queue_size self)
                  (roster1 :: default [] (roster_queues self !! (Game.teams game).1))]>
           (roster_queues self) in
       <[(Game.teams game).2 :=
           take (roster_queue_size self)
                (roster2 :: default [] (queues !! (Game.teams game).2))]> queues) ∧
    last_full_rosters self' =
      <[(Game.teams game).2 := full_roster2]>
        (<[(Game.teams game).1 := full_roster1]> (last_full_rosters self)).
Proof.
  unfold _update_rosters.
  destruct (Game.rosters game) as [[roster1 roster2]|]; [|done].
  destruct (Game.full_rosters game) as [[full_roster1 full_roster2]|]; [|done].
  intros [= <-]. by exists roster1, roster2, full_roster1, full_roster2.
Qed.

Lemma _update_rosters_bounded (game : Game.t) (self : Predictor) :
  queues_bounded self → queues_bounded (state_of (_update_rosters game self)).
Proof.
  intros Hb. destruct (_update_rosters game self) as [self'|e self'] eqn:Hupdate.
  - apply _update_rosters_returned in Hupdate
      as (r1 & r2 & f1 & f2 & _ & _ & Hsize & Hqueues & _).
    intros team queue. cbn [state_of]. rewrite Hsize, Hqueues. cbv zeta.
    rewrite lookup_insert. case_decide as H2.
    { intros [= <-]. rewrite length_take. lia. }
    rewrite lookup_insert. case_decide as H1.
    { intros [= <-]. rewrite length_take. lia. }
    apply Hb.
  - revert Hupdate. unfold _update_rosters.
    destruct (Game.rosters game) as [[roster1 roster2]|];
      [destruct (Game.full_rosters game) as [[full_roster1 full_roster2]|]|];
      [done|by intros [= _ <-]..].
Qed.

Lemma train_updates_bounded {M : Type} (predict : predict_method M)
    (_train : train_method M) (game : Game.t) (point : R) (self : Predictor)
    (model : M) :
  queues_bounded self →
  queues_bounded (train_updates predict _train game point self model).2.1.
Proof.
  intros Hb. unfold train_updates.
  pose proof (_update_rosters_bounded game self Hb) as H1.
  destruct (_update_rosters game self) as [self1|e self1]; [|done].
  pose proof (_update_standings_rosters game self1) as H2.
  cbn [state_of] in H1. apply (same_rosters_bounded _ _ H2) in H1.
  destruct (_update_standings game self1) as [self2|e self2]; [|done].
  pose proof (_update_draws_rosters predict game self2 model) as H3.
  cbn [state_of] in H1. apply (same_rosters_bounded _ _ H3) in H1.
  destruct (_update_draws predict game self2 model) as [self3|e self3]; [|done].
  by destruct (_train game self3 model).
Qed.

Lemma train_bounded {M : Type} (predict : predict_method M)
    (_train : train_method M) (game : Game.t) (self : Predictor) (model : M) :
  queues_bounded self →
  queues_bounded (train predict _train game self model).2.1.
Proof.
  intros Hb. unfold train.
  destruct (evaluate predict self model game) as [[point correct]|]; [|done].
  cbv zeta. by apply train_updates_bounded.
Qed.

Lemma train_games_from_bounded {M : Type} (predict : predict_method M)
    (_train : train_method M) (games : list Game.t) (self : Predictor)
    (model : M) (start : R) :
  queues_bounded self →
  queues_bounded (train_games_from predict _train start games self model).2.1.
Proof.
  revert self model start.
  induction games as [|game games IH]; intros self model start Hb; simpl; [done|].
  pose proof (train_bounded predict _train game self model Hb) as Hb'.
  destruct (train predict _train game self model) as [[point|] [self1 model1]];
    [|done].
  by apply IH.
Qed.

(** X17.  When [train] returns, the game carried its rosters and they are on
    record: the full roster of each team is the last full roster known for
    it, and, unless the queues have length zero, the roster each team played
    is at the front of its queue.  (For the first team this needs the two
    teams of the game to differ: the second one is recorded last.) *)
Theorem train_records_rosters {M : Type} (predict : predict_method M)
    (_train : train_method M) (game : Game.t) (self self' : Predictor)
    (model model' : M) (point : R) :
  train predict _train game self model = (Ok point, (self', model')) →
  ∃ roster1 roster2 full_roster1 full_roster2,
    Game.rosters game = Some (roster1, roster2) ∧
    Game.full_rosters game = Some (full_roster1, full_roster2) ∧
    last_full_rosters self' !! (Game.teams game).2 = Some full_roster2 ∧
    ((0 < roster_queue_size self)%nat →
     head (default [] (roster_queues self' !! (Game.teams game).2)) =
       Some roster2) ∧
    ((Game.teams game).1 ≠ (Game.teams game).2 →
     last_full_rosters self' !! (Game.teams game).1 = Some full_roster1 ∧
     ((0 < roster_queue_size self)%nat →
      head (default [] (roster_queues self' !! (Game.teams game).1)) =
        Some roster1)).
Proof.
  unfold train.
  destruct (evaluate predict self model game) as [[point' correct]|]; [|done].
  cbv zeta. unfold train_updates.
  destruct (_update_rosters game _) as [self1|] eqn:Hrosters; [|done].
  pose proof (_update_standings_rosters game self1) as H2.
  destruct (_update_standings game self1) as [self2|]; [|done].
  pose proof (_update_draws_rosters predict game self2 model) as H3.
  destruct (_update_draws predict game self2 model) as [self3|]; [|done].
  destruct (_train game self3 model); [|done].
  intros [= _ <- _]. cbn [state_of] in H2, H3.
  destruct (same_rosters_trans _ _ _ H3 H2) as (_ & -> & ->).
  apply _update_rosters_returned in Hrosters
    as (r1 & r2 & f1 & f2 & Hr & Hf & _ & -> & ->).
  exists r1, r2, f1, f2. simpl. split; [done|]. split; [done|].
  split; [by rewrite lookup_insert_eq|].
  split.
  { intros Hsize. rewrite lookup_insert_eq. simpl.
    by destruct (roster_queue_size self); [lia|]. }
  intros Hne. split.
  { rewrite lookup_insert_ne by done. by rewrite lookup_insert_eq. }
  intros Hsize. rewrite lookup_insert_ne by done. rewrite lookup_insert_eq.
  simpl. by destruct (roster_queue_size self); [lia|].
Qed.

Lemma train_records_rosters_witness :
  ∃ self' model',
    train SimplePredictor.predict SimplePredictor._train drawn_game
          (init 12) SimplePredictor.init = (Ok 0%R, (self', model')) ∧
    ∃ roster1 roster2 full_roster1 full_roster2,
      Game.rosters drawn_game = Some (roster1, roster2) ∧
      Game.full_rosters drawn_game = Some (full_roster1, full_roster2) ∧
      last_full_rosters self' !! (Game.teams drawn_game).2 = Some full_roster2 ∧
      ((0 < roster_queue_size (init 12))%nat →
       head (default [] (roster_queues self' !! (Game.teams drawn_game).2)) =
         Some roster2) ∧
      ((Game.teams drawn_game).1 ≠ (Game.teams drawn_game).2 →
       last_full_rosters self' !! (Game.teams drawn_game).1 = Some full_roster1 ∧
       ((0 < roster_queue_size (init 12))%nat →
        head (default [] (roster_queues self' !! (Game.teams drawn_game).1)) =
          Some roster1)).
Proof.
  eexists _, _. split.
  - reflexivity.
  - eapply (train_records_rosters SimplePredictor.predict SimplePredictor._train
              drawn_game (init 12) _ SimplePredictor.init).
    reflexivity.
Defined.

(** X18.  Training never lets a roster queue grow past
    [roster_queue_size]: if no queue is longer than that before
    [train_games], none is after it, whether the call returned or raised. *)
Theorem roster_queues_stay_bounded {M : Type} (predict : predict_method M)
    (_train : train_method M) (games : list Game.t) (self : Predictor)
    (model : M) :
  queues_bounded self →
  queues_bounded (train_games predict _train games self model).2.1.
Proof. apply train_games_from_bounded. Qed.

Lemma roster_queues_stay_bounded_witness :
  queues_bounded
    (train_games SimplePredictor.predict SimplePredictor._train
                 [drawn_game; drawn_game] (init 12) SimplePredictor.init).2.1.
Proof.
  apply (roster_queues_stay_bounded SimplePredictor.predict
           SimplePredictor._train [drawn_game; drawn_game] (init 12)
           SimplePredictor.init).
  intros team queue. simpl. by rewrite lookup_empty.
Defined.

(** ** Draw counts *)

Lemma same_draws_trans (a b c : Predictor) :
  same_draws a b → same_draws b c → same_draws a c.
Proof. intros [? ?] [? ?]. split; congruence. Qed.

Lemma _update_stage_draws (stage' : string) (self : Predictor) :
  same_draws (_update_stage stage' self) self.
Proof.
  unfold _update_stage. case_bool_decide; [|done].
  by destruct (match stage self with Some cur => _ | None => _ end).
Qed.

Lemma _update_match_ids_draws (id : Z) (teams : string * string)
    (self : Predictor) :
  same_draws (_update_match_ids id teams self) self.
Proof. unfold _update_match_ids. by case_bool_decide. Qed.

Lemma score_set_draws (team : string) (n : Z) (self : Predictor) :
  same_draws (score_set team n self) self.
Proof.
  unfold score_set. destruct (score self); [|done].
  by destruct (match_id _).
Qed.

Lemma credit_match_draws (is_regular is_title is_playoff : bool)
    (winner loser : string) (self : Predictor) :
  same_draws (credit_match is_regular is_title is_playoff winner loser self)
             self.
Proof. by destruct is_regular, is_title, is_playoff. Qed.

Lemma uncredit_match_draws (is_regular is_title is_playoff : bool)
    (winner loser : string) (self : Predictor) :
  same_draws (uncredit_match is_regular is_title is_playoff winner loser self)
             self.
Proof. by destruct is_regular, is_title, is_playoff. Qed.

Lemma handle_result_draws (is_regular is_title is_playoff : bool)
    (winner loser : string) (self : Predictor) :
  same_draws
    (state_of (handle_result is_regular is_title is_playoff winner loser self))
    self.
Proof.
  unfold handle_result.
  destruct (_ ≫= _) as [[w l]|]; [|done]. cbn [state_of].
  eapply same_draws_trans; [apply score_set_draws|].
  case_bool_decide; [apply credit_match_draws|].
  case_bool_decide; [apply uncredit_match_draws|done].
Qed.

Lemma _update_standings_draws (game : Game.t) (self : Predictor) :
  same_draws (state_of (_update_standings game self)) self.
Proof.
  unfold _update_standings.
  assert (Hids : same_draws
                   (_update_match_ids (Game.match_id game) (Game.teams game)
                      (_update_stage (Game.stage game) self)) self).
  { eapply same_draws_trans;
      [apply _update_match_ids_draws|apply _update_stage_draws]. }
  revert Hids.
  generalize (_update_match_ids (Game.match_id game) (Game.teams game)
                (_update_stage (Game.stage game) self)).
  intros self' Hids. apply (same_draws_trans _ self'); [|done].
  unfold _update_standings_body.
  destruct (Game.teams game) as [team1 team2].
  destruct (Game.score game) as [score1 score2].
  case_bool_decide; [|done].
  destruct (bool_decide (score1 > score2));
    (eapply same_draws_trans; [apply handle_result_draws|]);
    by destruct (bool_decide (Game.match_format game = "regular")).
Qed.

Lemma _update_rosters_draws (game : Game.t) (self : Predictor) :
  same_draws (state_of (_update_rosters game self)) self.
Proof.
  unfold _update_rosters.
  destruct (Game.rosters game) as [[roster1 roster2]|]; [|done].
  by destruct (Game.full_rosters game) as [[full_roster1 full_roster2]|].
Qed.

Lemma _update_draws_returned {M : Type} (predict : predict_method M)
    (game : Game.t) (self self' : Predictor) (model : M) :
  no_negative_draw predict →
  _update_draws predict game self model = Returned self' →
  (expected_draws self <= expected_draws self')%R ∧
  real_draws self' =
    (real_draws self +
     INR (drawn_games [game]))%R.
Proof.
  intros Hpredict. unfold _update_draws, drawn_games.
  rewrite filter_cons, filter_nil.
  destruct (Game.drawable game).
  - destruct (predict _ _ _ _ _ _) as [[p_win p_draw]|] eqn:Hp; [|done].
    apply Hpredict in Hp. simpl in Hp. cbn [mbind result_bind].
    case_bool_decide as Hdrawn.
    + rewrite decide_True by done. intros [= <-]. simpl. lra.
    + rewrite decide_False by done. intros [= <-]. simpl. lra.
  - case_bool_decide as Hdrawn.
    + rewrite decide_True by done. intros [= <-]. simpl. lra.
    + rewrite decide_False by done. intros [= <-]. simpl. lra.
Qed.

Lemma train_draws {M : Type} (predict : predict_method M)
    (_train : train_method M) (game : Game.t) (self self' : Predictor)
    (model model' : M) (point : R) :
  no_negative_draw predict →
  train predict _train game self model = (Ok point, (self', model')) →
  (expected_draws self <= expected_draws self')%R ∧
  real_draws self' = (real_draws self + INR (drawn_games [game]))%R.
Proof.
  intros Hpredict. unfold train.
  destruct (evaluate predict self model game) as [[point' correct]|]; [|done].
  cbv zeta. unfold train_updates.
  pose proof (_update_rosters_draws game
                (set_corrects (corrects (set_points (points self ++ [point']) self)
                               ++ [correct])
                   (set_points (points self ++ [point']) self))) as H1.
  destruct (_update_rosters game _) as [self1|]; [|done].
  pose proof (_update_standings_draws game self1) as H2.
  destruct (_update_standings game self1) as [self2|]; [|done].
  destruct (_update_draws predict game self2 model) as [self3|] eqn:H3; [|done].
  destruct (_train game self3 model); [|done].
  intros [= _ <- _]. cbn [state_of] in H1, H2.
  destruct (same_draws_trans _ _ _ H2 H1) as [Hexpected Hreal].
  simpl in Hexpected, Hreal.
  apply _update_draws_returned in H3 as [H3 H4]; [|done].
  rewrite Hexpected in H3. rewrite Hreal in H4. done.
Qed.

Lemma drawn_games_cons (game : Game.t) (games : list Game.t) :
  drawn_games (game :: games) = (drawn_games [game] + drawn_games games)%nat.
Proof.
  unfold drawn_games. rewrite !filter_cons, filter_nil.
  by case_decide.
Qed.

Lemma train_games_from_draws {M : Type} (predict : predict_method M)
    (_train : train_method M) (games : list Game.t) (self self' : Predictor)
    (model model' : M) (start total_point : R) :
  no_negative_draw predict →
  train_games_from predict _train start games self model =
    (Ok total_point, (self', model')) →
  (expected_draws self <= expected_draws self')%R ∧
  real_draws self' = (real_draws self + INR (drawn_games games))%R.
Proof.
  intros Hpredict. revert self model start.
  induction games as [|game games IH]; intros self model start; simpl.
  - intros [= _ <- _]. unfold drawn_games. simpl. lra.
  - destruct (train predict _train game self model)
      as [[point|] [self1 model1]] eqn:Htrain; [|done].
    intros Hrest. apply train_draws in Htrain as [He Hr]; [|done].
    apply IH in Hrest as [He' Hr'].
    rewrite drawn_games_cons, plus_INR. split; lra.
Qed.

(** X20.  When [train_games] returns, [real_draws] has grown by exactly the
    number of drawn games among those trained; and [expected_draws] has not
    decreased, provided [predict] never answers a negative draw
    probability. *)
Theorem train_games_counts_draws {M : Type} (predict : predict_method M)
    (_train : train_method M) (games : list Game.t) (self self' : Predictor)
    (model model' : M) (total_point : R) :
  no_negative_draw predict →
  train_games predict _train games self model =
    (Ok total_point, (self', model')) →
  (expected_draws self <= expected_draws self')%R ∧
  real_draws self' = (real_draws self + INR (drawn_games games))%R.
Proof. apply train_games_from_draws. Qed.

Lemma train_games_counts_draws_witness :
  ∃ total_point self' model',
    train_games SimplePredictor.predict SimplePredictor._train
                [drawn_game; drawn_game] (init 12) SimplePredictor.init =
      (Ok total_point, (self', model')) ∧
    (expected_draws (init 12) <= expected_draws self')%R ∧
    real_draws self' =
      (real_draws (init 12) + INR (drawn_games [drawn_game; drawn_game]))%R.
Proof.
  eexists _, _, _. split.
  - reflexivity.
  - eapply (train_games_counts_draws SimplePredictor.predict
              SimplePredictor._train [drawn_game; drawn_game] (init 12) _
              SimplePredictor.init).
    + intros self model [team1 team2] rosters full_rosters drawable p.
      unfold SimplePredictor.predict. intros [= <-]. simpl. lra.
    + reflexivity.
Defined.

(** ** Simulated standings *)

(** The pair of updates [d[(a, b)] += n; d[(b, a)] -= n]. *)
Lemma antisymmetric_incr_by (d : gmap (string * string) Z) (a b : string)
    (n : Z) :
  antisymmetric d → antisymmetric (incr (b, a) (- n) (incr (a, b) n d)).
Proof.
  intros Hd x y. rewrite !dget_incr, (Hd x y).
  repeat case_decide; simplify_eq; lia.
Qed.

Lemma simulate_match_antisymmetric (teams : string * string) (score : Z * Z)
    (tables : gmap string Z * gmap string Z * gmap (string * string) Z) :
  antisymmetric tables.2 → antisymmetric (simulate_match teams score tables).2.
Proof.
  destruct tables as [[wins map_diffs] h2h], teams as [team1 team2],
    score as [score1 score2]. simpl.
  apply antisymmetric_incr_by.
Qed.

Lemma simulate_matches_antisymmetric (self : Predictor) (matches : list Game.t)
    (samples : list (Z * Z)) :
  antisymmetric (stage_head_to_head_map_diffs self) →
  antisymmetric (simulate_matches self matches samples).2.
Proof.
  unfold simulate_matches. intros Hself.
  set (tables := (stage_wins self, stage_map_diffs self,
                  stage_head_to_head_map_diffs self)).
  assert (Htables : antisymmetric tables.2) by done.
  clearbody tables. revert tables Htables.
  generalize (zip matches samples) as played.
  induction played as [|[match_ score] played IH]; intros tables Htables;
    cbn [foldl]; [done|].
  apply IH. by apply simulate_match_antisymmetric.
Qed.

Lemma cmp_team_separated (wins map_diffs : gmap string Z)
    (head_to_head_map_diffs : gmap (string * string) Z)
    (p_wins_regular p_wins_regular' : gmap (string * string) R) (u u' : R)
    (team1 team2 : string) :
  antisymmetric head_to_head_map_diffs →
  separated wins map_diffs head_to_head_map_diffs team1 team2 →
  ∃ c, (c = 1 ∨ c = -1) ∧
    cmp_team wins map_diffs head_to_head_map_diffs p_wins_regular u
             team1 team2 = Ok c ∧
    cmp_team wins map_diffs head_to_head_map_diffs p_wins_regular' u'
             team2 team1 = Ok (- c).
Proof.
  intros Hanti Hsep. unfold cmp_team, separated in *.
  rewrite (Hanti team2 team1).
  repeat case_bool_decide; try lia;
    first [ exists 1; split; [by left|]; by split
          | exists (-1); split; [by right|]; by split ].
Qed.

(** X21.  In the simulation of [_predict_stage], run on a tracker that was
    fed any games from fresh, with any scores drawn for any matches: when the
    simulated records tell two teams apart (they differ in wins or in map
    diff, or their head-to-head map diff is not level), [cmp_team] of
    [_stage_standings] answers 1 or -1 without consulting [random()] or the
    win probabilities, and answers the opposite when the two teams are
    swapped. *)
Theorem simulated_standings_comparison (roster_queue_size : nat)
    (games matches : list Game.t) (samples : list (Z * Z))
    (p_wins_regular p_wins_regular' : gmap (string * string) R) (u u' : R)
    (team1 team2 : string) :
  let self := state_of (update_standings_all games (init roster_queue_size)) in
  let tables := simulate_matches self matches samples in
  separated tables.1.1 tables.1.2 tables.2 team1 team2 →
  ∃ c, (c = 1 ∨ c = -1) ∧
    cmp_team tables.1.1 tables.1.2 tables.2 p_wins_regular u team1 team2 =
      Ok c ∧
    cmp_team tables.1.1 tables.1.2 tables.2 p_wins_regular' u' team2 team1 =
      Ok (- c).
Proof.
  intros self tables. apply cmp_team_separated.
  apply simulate_matches_antisymmetric.
  by destruct (update_standings_all_antisymmetric games (init roster_queue_size)
                 (init_antisymmetric roster_queue_size)) as (_ & _ & Hs).
Qed.

Lemma simulated_standings_comparison_witness :
  let tables := simulate_matches (init 12) [regular_match] [(4, 0)] in
  ∃ c, (c = 1 ∨ c = -1) ∧
    cmp_team tables.1.1 tables.1.2 tables.2 ∅ 0.5%R "NYE" "PHI" = Ok c ∧
    cmp_team tables.1.1 tables.1.2 tables.2 ∅ 0.5%R "PHI" "NYE" = Ok (- c).
Proof.
  apply (simulated_standings_comparison 12 [] [regular_match] [(4, 0)]
           ∅ ∅ 0.5%R 0.5%R "NYE" "PHI").
  left. vm_compute. discriminate.
Defined.

(** ** The simulation stays within the bounds of [predict_stage] *)

Lemma simulate_match_step (teams : string * string) (score : Z * Z)
    (tables : gmap string Z * gmap string Z * gmap (string * string) Z)
    (team : string) :
  decided 4 score →
  let k := (if decide (teams.1 = team) then 1 else 0) +
           (if decide (teams.2 = team) then 1 else 0) in
  let tables' := simulate_match teams score tables in
  dget tables.1.1 team ≤ dget tables'.1.1 team ≤ dget tables.1.1 team + k ∧
  dget tables.1.2 team - 4 * k ≤ dget tables'.1.2 team
    ≤ dget tables.1.2 team + 4 * k.
Proof.
  destruct tables as [[wins map_diffs] h2h], teams as [team1 team2],
    score as [score1 score2].
  intros (Hne & H1 & H2). simpl in Hne, H1, H2. cbv zeta.
  unfold simulate_match. cbn [fst snd].
  rewrite !dget_incr.
  destruct (bool_decide (score1 > score2)) eqn:Hgt;
    [|destruct (bool_decide (score1 < score2)) eqn:Hlt];
    rewrite ?dget_incr;
    destruct (decide (team1 = team)); destruct (decide (team2 = team)); lia.
Qed.

Lemma simulate_played_within (played : list (Game.t * (Z * Z)))
    (tables : gmap string Z * gmap string Z * gmap (string * string) Z)
    (team : string) :
  Forall (fun p => decided 4 p.2) played →
  let k := appearances played.*1 team in
  let tables' :=
    foldl (fun tables '(match_, score) =>
             simulate_match (Game.teams match_) score tables)
          tables played in
  dget tables.1.1 team ≤ dget tables'.1.1 team ≤ dget tables.1.1 team + k ∧
  dget tables.1.2 team - 4 * k ≤ dget tables'.1.2 team
    ≤ dget tables.1.2 team + 4 * k.
Proof.
  intros Hplayed. revert tables.
  induction Hplayed as [|[match_ score] played Hscore _ IH]; intros tables.
  - cbn [foldl fmap list_fmap]. unfold appearances. simpl. lia.
  - cbn [foldl]. csimpl. rewrite appearances_cons. cbv zeta in *.
    pose proof (simulate_match_step (Game.teams match_) score tables team
                  Hscore) as Hstep.
    cbv zeta in Hstep.
    specialize (IH (simulate_match (Game.teams match_) score tables)).
    pose proof (appearances_nonneg played.*1 team).
    lia.
Qed.

(** X22.  The bounds [predict_stage] works with hold for every run of the
    simulation: whatever decided scores (two different numbers between 0 and
    4) are drawn for the remaining matches, the simulated standing (wins,
    map diff) of a team is, in the order on tuples, at least its standing
    with every remaining match of its own lost 0-4 and at most its standing
    with every one of them won 4-0. *)
Theorem simulation_within_bounds (self : Predictor) (matches : list Game.t)
    (samples : list (Z * Z)) (team : string) :
  length samples = length matches →
  Forall (decided 4) samples →
  let tables := simulate_matches self matches samples in
  let simulated := (dget tables.1.1 team, dget tables.1.2 team) in
  tuple_le (worst_possible (stage_standing self team) (appearances matches team))
           simulated ∧
  tuple_le simulated
           (best_possible (stage_standing self team) (appearances matches team)).
Proof.
  intros Hlen Hsamples tables simulated.
  pose proof (simulate_played_within (zip matches samples)
                (stage_wins self, stage_map_diffs self,
                 stage_head_to_head_map_diffs self) team) as H.
  rewrite fst_zip in H by lia. cbv zeta in H. cbn [fst snd] in H.
  destruct H as [Hwins Hdiffs].
  { apply Forall_forall. intros [match_ score] Hin.
    apply elem_of_zip_r in Hin. simpl.
    by eapply Forall_forall in Hsamples. }
  fold (simulate_matches self matches samples) in Hwins, Hdiffs.
  fold tables in Hwins, Hdiffs.
  pose proof (appearances_nonneg matches team).
  unfold tuple_le, worst_possible, best_possible, stage_standing, simulated.
  cbn [fst snd]. lia.
Qed.

Lemma simulation_within_bounds_witness :
  let tables := simulate_matches late_stage_1 last_matches [(4, 0); (1, 3); (3, 2)] in
  let simulated := (dget tables.1.1 "SHD", dget tables.1.2 "SHD") in
  tuple_le (worst_possible (stage_standing late_stage_1 "SHD")
                           (appearances last_matches "SHD"))
           simulated ∧
  tuple_le simulated
           (best_possible (stage_standing late_stage_1 "SHD")
                          (appearances last_matches "SHD")).
Proof.
  apply (simulation_within_bounds late_stage_1 last_matches
           [(4, 0); (1, 3); (3, 2)] "SHD").
  - reflexivity.
  - repeat constructor; simpl; lia.
Defined.

(** ** Seeds and title matches *)

Section Playoffs_facts.
Context {Division : Type} `{EqDecision Division}.
Variable TEAM_DIVISIONS : gmap string Division.

Lemma other_division_found (seed0 : string) (teams : list string)
    (seed1 : string) (rest : list string) :
  other_division TEAM_DIVISIONS seed0 teams = Ok (Some (seed1, rest)) →
  ∃ ahead behind,
    teams = ahead ++ seed1 :: behind ∧ rest = ahead ++ behind ∧
    Forall (fun team => TEAM_DIVISIONS !! team = TEAM_DIVISIONS !! seed0) ahead ∧
    is_Some (TEAM_DIVISIONS !! seed1) ∧
    TEAM_DIVISIONS !! seed1 ≠ TEAM_DIVISIONS !! seed0.
Proof.
  revert rest. induction teams as [|team teams IH]; intros rest; [done|].
  cbn [other_division]. unfold dict_get.
  destruct (TEAM_DIVISIONS !! team) as [division|] eqn:Hteam; [|done].
  cbn [mbind result_bind].
  destruct (TEAM_DIVISIONS !! seed0) as [division0|] eqn:Hseed0; [|done].
  cbn [mbind result_bind].
  case_bool_decide as Hne.
  - intros [= -> <-]. exists [], teams. rewrite Hteam.
    repeat split; [constructor|by eexists|congruence].
  - destruct (other_division TEAM_DIVISIONS seed0 teams) as [[[s r]|]|];
      cbn [mbind result_bind]; [|done..].
    intros [= -> <-].
    destruct (IH r eq_refl) as (ahead & behind & -> & -> & Hahead & Hs & Hd).
    exists (team :: ahead), behind. repeat split; [|done..].
    constructor; [|done]. congruence.
Qed.

Lemma other_division_none (seed0 : string) (teams : list string) :
  other_division TEAM_DIVISIONS seed0 teams = Ok None →
  Forall (fun team => TEAM_DIVISIONS !! team = TEAM_DIVISIONS !! seed0) teams.
Proof.
  induction teams as [|team teams IH]; [constructor|].
  cbn [other_division]. unfold dict_get.
  destruct (TEAM_DIVISIONS !! team) as [division|] eqn:Hteam; [|done].
  cbn [mbind result_bind].
  destruct (TEAM_DIVISIONS !! seed0) as [division0|] eqn:Hseed0; [|done].
  cbn [mbind result_bind].
  case_bool_decide as Hne; [done|].
  destruct (other_division TEAM_DIVISIONS seed0 teams) as [[[s r]|]|];
    cbn [mbind result_bind]; [done| |done].
  intros _. constructor; [|by apply IH].
  congruence.
Qed.

Lemma take_without (ahead behind : list string) (seed1 team : string)
    (n : nat) :
  team ∈ take n (ahead ++ seed1 :: behind) →
  team = seed1 ∨ team ∈ take n (ahead ++ behind).
Proof.
  rewrite !elem_of_take. intros (i & Hi & Hlt).
  destruct (decide (i < length ahead)%nat) as [Hahead|Hahead].
  - right. exists i. rewrite lookup_app_l in Hi by done.
    by rewrite lookup_app_l by done.
  - rewrite lookup_app_r in Hi by lia.
    destruct (i - length ahead)%nat as [|k] eqn:Hk; simpl in Hi.
    + left. congruence.
    + right. exists (length ahead + k)%nat. split; [|lia].
      rewrite lookup_app_r by lia.
      by replace (length ahead + k - length ahead)%nat with k by lia.
Qed.
End Playoffs_facts.

Lemma stage_seeds_facts {Division : Type} `{EqDecision Division}
    (TEAM_DIVISIONS : gmap string Division) (teams seeds : list string) :
  NoDup teams →
  stage_seeds TEAM_DIVISIONS teams = Ok seeds →
  NoDup seeds ∧ seeds ⊆ teams ∧ (length seeds ≤ 8)%nat ∧
  seeds !! 0%nat = teams !! 0%nat ∧
  (∀ team, team ∈ take 7 teams → team ∈ seeds) ∧
  ((∃ seed0 seed1,
      seeds !! 0%nat = Some seed0 ∧ seeds !! 1%nat = Some seed1 ∧
      TEAM_DIVISIONS !! seed1 ≠ TEAM_DIVISIONS !! seed0) ∨
   ((length seeds ≤ 7)%nat ∧
    ∀ seed0 team,
      teams !! 0%nat = Some seed0 → team ∈ teams →
      TEAM_DIVISIONS !! team = TEAM_DIVISIONS !! seed0)).
Proof.
  intros Hnodup. unfold stage_seeds.
  destruct teams as [|seed0 teams]; [done|].
  apply NoDup_cons in Hnodup as [Hseed0 Hnodup].
  destruct (other_division TEAM_DIVISIONS seed0 teams) as [[[seed1 rest]|]|]
    eqn:Hfound; cbn [mbind result_bind]; [| |done].
  - apply other_division_found in Hfound
      as (ahead & behind & -> & -> & Hahead & Hsome & Hother).
    intros [= <-]. cbn [app].
    assert (Hsub : take 6 (ahead ++ behind) ⊆ ahead ++ behind)
      by apply subseteq_take.
    assert (Hin : ∀ team, team ∈ ahead ++ behind →
                          team ∈ ahead ++ seed1 :: behind).
    { intros team. rewrite !elem_of_app, elem_of_cons. tauto. }
    assert (Hrest : NoDup (seed1 :: ahead ++ behind)).
    { eapply NoDup_Permutation_proper; [|exact Hnodup].
      by rewrite Permutation_middle. }
    apply NoDup_cons in Hrest as [Hseed1 Hrest].
    split.
    { apply NoDup_cons. split.
      - intros [->|Hin0%Hsub%Hin]%elem_of_cons; [|done].
        apply Hseed0. rewrite elem_of_app, elem_of_cons. tauto.
      - apply NoDup_cons. split.
        + by intros Hin1%Hsub.
        + eapply sublist_NoDup; [done|apply sublist_take]. }
    split.
    { intros team. rewrite !elem_of_cons.
      intros [->|[->|Hteam%Hsub%Hin]]; [by left|right|by right].
      rewrite elem_of_app, elem_of_cons. tauto. }
    split; [simpl; rewrite length_take; lia|].
    split; [done|].
    split.
    { intros team. change (take 7 (seed0 :: ?l)) with (seed0 :: take 6 l).
      rewrite !elem_of_cons.
      intros [->|[->|Hteam]%take_without]; tauto. }
    left. by exists seed0, seed1.
  - apply other_division_none in Hfound. intros [= <-]. cbn [app].
    split.
    { apply NoDup_cons. split.
      - by intros Hin%subseteq_take.
      - eapply sublist_NoDup; [done|apply sublist_take]. }
    split.
    { intros team. rewrite !elem_of_cons.
      intros [->|Hteam%subseteq_take]; tauto. }
    split; [simpl; rewrite length_take; lia|].
    split; [done|].
    split; [done|].
    right. split; [simpl; rewrite length_take; lia|].
    intros seed team [= <-] [->|Hteam]%elem_of_cons; [done|].
    by eapply Forall_forall in Hfound.
Qed.


(** X23.  The seeds [_predict_stage] takes from standings without
    repetition are distinct teams of the standings, at most eight, led by
    the leader of the standings; the seven best-placed teams are always
    among them; and seed 1 is of another division than seed 0, unless every
    team of the standings is in the leader's division, in which case there
    are at most seven seeds. *)
Theorem stage_seeds_chosen {Division : Type} `{EqDecision Division}
    (TEAM_DIVISIONS : gmap string Division) (teams seeds : list string) :
  NoDup teams →
  stage_seeds TEAM_DIVISIONS teams = Ok seeds →
  NoDup seeds ∧ seeds ⊆ teams ∧ (length seeds ≤ 8)%nat ∧
  seeds !! 0%nat = teams !! 0%nat ∧
  (∀ team, team ∈ take 7 teams → team ∈ seeds) ∧
  ((∃ seed0 seed1,
      seeds !! 0%nat = Some seed0 ∧ seeds !! 1%nat = Some seed1 ∧
      TEAM_DIVISIONS !! seed1 ≠ TEAM_DIVISIONS !! seed0) ∨
   ((length seeds ≤ 7)%nat ∧
    ∀ seed0 team,
      teams !! 0%nat = Some seed0 → team ∈ teams →
      TEAM_DIVISIONS !! team = TEAM_DIVISIONS !! seed0)).
Proof. apply stage_seeds_facts. Qed.

Lemma stage_seeds_chosen_witness :
  ∃ seeds,
    stage_seeds TWO_DIVISIONS some_standings = Ok seeds ∧
    NoDup seeds ∧ seeds ⊆ some_standings ∧ (length seeds ≤ 8)%nat ∧
    seeds !! 0%nat = some_standings !! 0%nat ∧
    (∀ team, team ∈ take 7 some_standings → team ∈ seeds) ∧
    ((∃ seed0 seed1,
        seeds !! 0%nat = Some seed0 ∧ seeds !! 1%nat = Some seed1 ∧
        TWO_DIVISIONS !! seed1 ≠ TWO_DIVISIONS !! seed0) ∨
     ((length seeds ≤ 7)%nat ∧
      ∀ seed0 team,
        some_standings !! 0%nat = Some seed0 → team ∈ some_standings →
        TWO_DIVISIONS !! team = TWO_DIVISIONS !! seed0)).
Proof.
  eexists. split.
  - vm_compute. reflexivity.
  - apply (stage_seeds_chosen TWO_DIVISIONS some_standings).
    + apply (bool_decide_unpack _). vm_compute. exact I.
    + vm_compute. reflexivity.
Defined.

Lemma count_up_all_raise (e : exn) (teams : list string) :
  foldl (fun acc team => count ← acc; count_up count team) (Raise e) teams =
    Raise e.
Proof. by induction teams. Qed.

Lemma count_up_all (teams : list string) (count count' : gmap string Z) :
  NoDup teams →
  foldl (fun acc team => count ← acc; count_up count team) (Ok count) teams =
    Ok count' →
  ∀ team,
    count' !! team =
      if decide (team ∈ teams) then (fun n => n + 1) <$> count !! team
      else count !! team.
Proof.
  intros Hnodup. revert count.
  induction Hnodup as [|first teams Hfirst Hnodup IH]; intros count;
    cbn [foldl].
  - intros [= <-] team. by destruct (decide (team ∈ [])) as [?%elem_of_nil|].
  - cbn [mbind result_bind]. unfold count_up at 2, dict_get.
    destruct (count !! first) as [n|] eqn:Hn; cbn [mbind result_bind];
      [|by rewrite count_up_all_raise].
    intros Hrest team. rewrite (IH _ Hrest team).
    destruct (decide (team ∈ first :: teams)) as [Hin'|Hin'];
      destruct (decide (team ∈ teams)) as [Hin|Hin].
    + rewrite lookup_insert_ne; [done|]. by intros <-.
    + apply elem_of_cons in Hin' as [->|?]; [|done].
      by rewrite lookup_insert_eq, Hn.
    + exfalso. apply Hin'. by right.
    + rewrite lookup_insert_ne; [done|]. intros <-. apply Hin'. by left.
Qed.

Lemma duel_from_seeds (p_wins : gmap (string * string) R) (u : R) (i j : nat)
    (seeds : list string) (bracket bracket' : list (option string)) :
  from_seeds seeds bracket →
  duel p_wins u i j bracket = Ok bracket' →
  from_seeds seeds bracket' ∧ (j < length bracket)%nat.
Proof.
  intros Hfrom. unfold duel.
  destruct (bracket !! i) as [entry1|] eqn:Hi; [|done].
  destruct (bracket !! j) as [entry2|] eqn:Hj; [|done].
  apply lookup_lt_Some in Hj.
  destruct entry1 as [team1|]; [|done].
  destruct entry2 as [team2|]; [|done].
  destruct (p_wins !! (team1, team2)); [|done].
  case_bool_decide; intros [= <-]; (split; [|done]);
    by apply Forall_insert.
Qed.

Lemma survivors_from_seeds (seeds : list string)
    (bracket : list (option string)) :
  from_seeds seeds bracket → from_seeds seeds (survivors bracket).
Proof.
  unfold from_seeds, survivors. rewrite !Forall_forall.
  intros Hfrom entry [_ Hin]%list_elem_of_filter. by apply Hfrom.
Qed.

Lemma title_matches_from_seeds (p_wins_ft3 p_wins_ft4 : gmap (string * string) R)
    (u : nat → R) (seeds : list string) (top1 : option string) :
  title_matches p_wins_ft3 p_wins_ft4 u seeds = Ok top1 →
  (8 ≤ length seeds)%nat ∧ ∃ champion, top1 = Some champion ∧ champion ∈ seeds.
Proof.
  unfold title_matches.
  assert (H0 : from_seeds seeds (Some <$> seeds)).
  { apply Forall_fmap, Forall_forall. by intros team Hteam ? [= <-]. }
  destruct (duel _ _ 0 7 _) as [b1|] eqn:H1; cbn [mbind result_bind]; [|done].
  apply (duel_from_seeds _ _ _ _ seeds) in H1 as [H1 Hlen]; [|done].
  rewrite length_fmap in Hlen.
  destruct (duel _ _ 1 6 _) as [b2|] eqn:H2; cbn [mbind result_bind]; [|done].
  apply (duel_from_seeds _ _ _ _ seeds) in H2 as [H2 _]; [|done].
  destruct (duel _ _ 2 5 _) as [b3|] eqn:H3; cbn [mbind result_bind]; [|done].
  apply (duel_from_seeds _ _ _ _ seeds) in H3 as [H3 _]; [|done].
  destruct (duel _ _ 3 4 _) as [b4|] eqn:H4; cbn [mbind result_bind]; [|done].
  apply (duel_from_seeds _ _ _ _ seeds) in H4 as [H4 _]; [|done].
  apply survivors_from_seeds in H4.
  destruct (duel _ _ 0 3 _) as [b5|] eqn:H5; cbn [mbind result_bind]; [|done].
  apply (duel_from_seeds _ _ _ _ seeds) in H5 as [H5 _]; [|done].
  destruct (duel _ _ 1 2 _) as [b6|] eqn:H6; cbn [mbind result_bind]; [|done].
  apply (duel_from_seeds _ _ _ _ seeds) in H6 as [H6 _]; [|done].
  apply survivors_from_seeds in H6.
  destruct (duel _ _ 0 1 _) as [b7|] eqn:H7; cbn [mbind result_bind]; [|done].
  apply (duel_from_seeds _ _ _ _ seeds) in H7 as [H7 _]; [|done].
  apply survivors_from_seeds in H7.
  destruct (survivors b7 !! 0%nat) as [entry|] eqn:Hentry; [|done].
  intros [= <-]. split; [lia|].
  assert (Hin : entry ∈ survivors b7) by by eapply list_elem_of_lookup_2.
  pose proof Hin as Halive. unfold survivors in Halive.
  apply list_elem_of_filter in Halive as [Halive _].
  destruct entry as [champion|]; [|done].
  exists champion. split; [done|].
  eapply Forall_forall in H7; [|exact Hin]. by apply H7.
Qed.

(** X24.  When one iteration of the simulation completes on standings
    without repetition, there were exactly eight seeds, all different; each
    of them, and no other team, has its title count raised by one; and
    exactly one team, one of the eight seeds, has its top-1 count raised by
    one. *)
Theorem stage_iteration_counts {Division : Type} `{EqDecision Division}
    (TEAM_DIVISIONS : gmap string Division)
    (p_wins_ft3 p_wins_ft4 : gmap (string * string) R) (u : nat → R)
    (teams : list string)
    (title_count top1_count title_count' top1_count' : gmap string Z) :
  NoDup teams →
  stage_iteration TEAM_DIVISIONS p_wins_ft3 p_wins_ft4 u teams
                  (title_count, top1_count) = Ok (title_count', top1_count') →
  ∃ seeds champion,
    stage_seeds TEAM_DIVISIONS teams = Ok seeds ∧
    length seeds = 8%nat ∧ NoDup seeds ∧ champion ∈ seeds ∧
    (∀ team,
       title_count' !! team =
         if decide (team ∈ seeds) then (fun n => n + 1) <$> title_count !! team
         else title_count !! team) ∧
    (∀ team,
       top1_count' !! team =
         if decide (team = champion) then (fun n => n + 1) <$> top1_count !! team
         else top1_count !! team).
Proof.
  intros Hnodup. unfold stage_iteration.
  destruct (stage_seeds TEAM_DIVISIONS teams) as [seeds|] eqn:Hseeds;
    cbn [mbind result_bind]; [|done].
  destruct (stage_seeds_facts _ _ _ Hnodup Hseeds)
    as (Hdistinct & _ & Hlen & _).
  destruct (foldl _ _ seeds) as [title|] eqn:Htitle;
    cbn [mbind result_bind]; [|done].
  destruct (title_matches _ _ _ _) as [top1|] eqn:Htop1;
    cbn [mbind result_bind]; [|done].
  apply title_matches_from_seeds in Htop1 as (Hlen' & champion & -> & Hin).
  unfold count_up, dict_get.
  destruct (top1_count !! champion) as [n|] eqn:Hn; cbn [mbind result_bind];
    [|done].
  intros [= <- <-]. exists seeds, champion.
  split; [done|]. split; [lia|]. split; [done|]. split; [done|].
  split; [by apply count_up_all|].
  intros team. destruct (decide (team = champion)) as [->|Hne].
  - by rewrite lookup_insert_eq, Hn.
  - by rewrite lookup_insert_ne.
Qed.

Lemma duel_returns (p_wins : gmap (string * string) R) (u : R) (i j : nat)
    (bracket : list (option string)) (team1 team2 : string) :
  bracket !! i = Some (Some team1) → bracket !! j = Some (Some team2) →
  is_Some (p_wins !! (team1, team2)) →
  duel p_wins u i j bracket = Ok (<[j := None]> bracket) ∨
  duel p_wins u i j bracket = Ok (<[i := None]> bracket).
Proof.
  intros Hi Hj [p Hp]. unfold duel. rewrite Hi, Hj, Hp.
  case_bool_decide; [by left|by right].
Qed.

Ltac play_duel Hp :=
  lazymatch goal with
  | |- context [duel ?p ?u ?i ?j ?l] =>
      let a := eval vm_compute in (l !! i) in
      let b := eval vm_compute in (l !! j) in
      lazymatch a with
      | Some (Some ?a) =>
          lazymatch b with
          | Some (Some ?b) =>
              let H := fresh "Hduel" in
              destruct (duel_returns p u i j l a b eq_refl eq_refl) as [H|H];
              [apply Hp; assumption
              |rewrite H; clear H; cbn [mbind result_bind]; simpl
              |rewrite H; clear H; cbn [mbind result_bind]; simpl]
          end
      end
  end.

Ltac distinct_from Hne i j :=
  lazymatch j with
  | O => idtac
  | S ?j' =>
      try pose proof (Hne i j' _ _ eq_refl eq_refl ltac:(discriminate));
      distinct_from Hne i j'
  end.

Ltac all_distinct Hne i :=
  lazymatch i with
  | O => idtac
  | S ?i' => distinct_from Hne i' 8%nat; all_distinct Hne i'
  end.

Ltac all_members Hin i :=
  lazymatch i with
  | O => idtac
  | S ?i' => pose proof (Hin i' _ eq_refl); all_members Hin i'
  end.

Lemma title_matches_returns (p_wins_ft3 p_wins_ft4 : gmap (string * string) R)
    (u : nat → R) (seeds : list string) :
  NoDup seeds → length seeds = 8%nat →
  (∀ a b, a ∈ seeds → b ∈ seeds → a ≠ b →
          is_Some (p_wins_ft3 !! (a, b)) ∧ is_Some (p_wins_ft4 !! (a, b))) →
  ∃ champion,
    title_matches p_wins_ft3 p_wins_ft4 u seeds = Ok (Some champion).
Proof.
  intros Hnodup Hlen Hp.
  destruct seeds as [|s0 [|s1 [|s2 [|s3 [|s4 [|s5 [|s6 [|s7 [|]]]]]]]]];
    try discriminate Hlen.
  clear Hlen.
  assert (H3 : ∀ a b, a ∈ [s0; s1; s2; s3; s4; s5; s6; s7] →
                      b ∈ [s0; s1; s2; s3; s4; s5; s6; s7] → a ≠ b →
                      is_Some (p_wins_ft3 !! (a, b))) by (intros; by apply Hp).
  assert (H4 : ∀ a b, a ∈ [s0; s1; s2; s3; s4; s5; s6; s7] →
                      b ∈ [s0; s1; s2; s3; s4; s5; s6; s7] → a ≠ b →
                      is_Some (p_wins_ft4 !! (a, b))) by (intros; by apply Hp).
  clear Hp.
  assert (Hne : ∀ i j a b, [s0; s1; s2; s3; s4; s5; s6; s7] !! i = Some a →
                  [s0; s1; s2; s3; s4; s5; s6; s7] !! j = Some b →
                  i ≠ j → a ≠ b).
  { intros i j a b Hi Hj Hij ->. apply Hij. by eapply NoDup_lookup. }
  assert (Hin : ∀ i a, [s0; s1; s2; s3; s4; s5; s6; s7] !! i = Some a →
                       a ∈ [s0; s1; s2; s3; s4; s5; s6; s7]).
  { intros i a. apply list_elem_of_lookup_2. }
  all_distinct Hne 8%nat. all_members Hin 8%nat. clear Hne Hin Hnodup.
  unfold title_matches. cbn [fmap list_fmap].
  play_duel H3; play_duel H3; play_duel H3; play_duel H3;
    play_duel H4; play_duel H4; play_duel H4; by eexists.
Qed.

Lemma other_division_returns {Division : Type} `{EqDecision Division}
    (TEAM_DIVISIONS : gmap string Division) (seed0 : string)
    (teams : list string) :
  is_Some (TEAM_DIVISIONS !! seed0) →
  Forall (fun team => is_Some (TEAM_DIVISIONS !! team)) teams →
  ∃ found, other_division TEAM_DIVISIONS seed0 teams = Ok found.
Proof.
  intros [division0 Hseed0].
  induction 1 as [|team teams [division Hteam] _ [found IH]]; [by eexists|].
  cbn [other_division]. unfold dict_get. rewrite Hteam, Hseed0.
  cbn [mbind result_bind]. case_bool_decide; [by eexists|].
  rewrite IH. cbn [mbind result_bind]. destruct found as [[seed1 rest]|];
    by eexists.
Qed.

Lemma stage_seeds_returns {Division : Type} `{EqDecision Division}
    (TEAM_DIVISIONS : gmap string Division) (teams : list string) :
  (8 ≤ length teams)%nat →
  (∀ team, team ∈ teams → is_Some (TEAM_DIVISIONS !! team)) →
  (∃ seed0 team,
     teams !! 0%nat = Some seed0 ∧ team ∈ teams ∧
     TEAM_DIVISIONS !! team ≠ TEAM_DIVISIONS !! seed0) →
  ∃ seeds, stage_seeds TEAM_DIVISIONS teams = Ok seeds ∧ length seeds = 8%nat.
Proof.
  intros Hlen Hknown (seed0 & other & Hseed0 & Hother & Hne).
  destruct teams as [|seed teams]; [done|]. injection Hseed0 as ->.
  unfold stage_seeds.
  destruct (other_division_returns TEAM_DIVISIONS seed0 teams) as [found Hfound].
  { apply Hknown. by left. }
  { apply Forall_forall. intros team Hteam. apply Hknown. by right. }
  rewrite Hfound. cbn [mbind result_bind].
  destruct found as [[seed1 rest]|].
  - apply other_division_found in Hfound
      as (ahead & behind & -> & -> & _).
    eexists. split; [done|]. simpl in *. rewrite length_take.
    rewrite length_app in *. simpl in Hlen. lia.
  - apply other_division_none in Hfound. exfalso.
    apply elem_of_cons in Hother as [->|Hother]; [done|].
    by eapply Forall_forall in Hfound.
Qed.

Lemma count_up_all_returns (teams : list string) (count : gmap string Z) :
  (∀ team, team ∈ teams → is_Some (count !! team)) →
  ∃ count',
    foldl (fun acc team => count ← acc; count_up count team) (Ok count) teams =
      Ok count'.
Proof.
  revert count. induction teams as [|team teams IH]; intros count Hcount;
    cbn [foldl]; [by eexists|].
  cbn [mbind result_bind]. unfold count_up at 2, dict_get.
  destruct (Hcount team) as [n ->]; [by left|]. cbn [mbind result_bind].
  apply IH. intros team' Hteam'.
  destruct (decide (team = team')) as [->|Hne].
  - rewrite lookup_insert_eq. by eexists.
  - rewrite lookup_insert_ne by done. apply Hcount. by right.
Qed.

Lemma constant_p_wins_known (p : R) (teams : list string) (a b : string) :
  a ∈ teams → b ∈ teams → is_Some (constant_p_wins p teams !! (a, b)).
Proof.
  intros Ha Hb. unfold constant_p_wins.
  destruct (list_to_map _ !! (a, b)) as [q|] eqn:Hq; [by eexists|].
  apply not_elem_of_list_to_map in Hq. exfalso. apply Hq.
  rewrite <- list_fmap_compose. apply list_elem_of_fmap.
  exists (a, b). split; [done|]. apply list_elem_of_In, in_prod; by apply list_elem_of_In.
Qed.

Lemma zero_count_known (teams : list string) (team : string) :
  team ∈ teams → is_Some (zero_count teams !! team).
Proof.
  intros Hteam. unfold zero_count.
  destruct (list_to_map _ !! team) as [n|] eqn:Hn; [by eexists|].
  apply not_elem_of_list_to_map in Hn. exfalso. apply Hn.
  rewrite <- list_fmap_compose. apply list_elem_of_fmap.
  by exists team.
Qed.

(** X25.  One iteration of the simulation completes whenever the standings
    list at least eight teams without repetition, every team has a division
    and an entry in both counters, some team is of another division than the
    leader, and the two tables of win probabilities have an entry for every
    pair of different teams. *)
Theorem stage_iteration_returns {Division : Type} `{EqDecision Division}
    (TEAM_DIVISIONS : gmap string Division)
    (p_wins_ft3 p_wins_ft4 : gmap (string * string) R) (u : nat → R)
    (teams : list string) (title_count top1_count : gmap string Z) :
  NoDup teams → (8 ≤ length teams)%nat →
  (∀ team, team ∈ teams →
     is_Some (TEAM_DIVISIONS !! team) ∧ is_Some (title_count !! team) ∧
     is_Some (top1_count !! team)) →
  (∃ seed0 team,
     teams !! 0%nat = Some seed0 ∧ team ∈ teams ∧
     TEAM_DIVISIONS !! team ≠ TEAM_DIVISIONS !! seed0) →
  (∀ a b, a ∈ teams → b ∈ teams → a ≠ b →
     is_Some (p_wins_ft3 !! (a, b)) ∧ is_Some (p_wins_ft4 !! (a, b))) →
  ∃ counts,
    stage_iteration TEAM_DIVISIONS p_wins_ft3 p_wins_ft4 u teams
                    (title_count, top1_count) = Ok counts.
Proof.
  intros Hnodup Hlen Hknown Hother Hp. unfold stage_iteration.
  destruct (stage_seeds_returns TEAM_DIVISIONS teams Hlen) as (seeds & Hseeds & Hlen8);
    [by intros team [? _]%Hknown|done|].
  rewrite Hseeds. cbn [mbind result_bind].
  destruct (stage_seeds_facts _ _ _ Hnodup Hseeds) as (Hdistinct & Hsub & _).
  destruct (count_up_all_returns seeds title_count) as [title_count' ->].
  { intros team Hteam%Hsub. by apply Hknown. }
  cbn [mbind result_bind].
  destruct (title_matches_returns p_wins_ft3 p_wins_ft4 u seeds Hdistinct Hlen8)
    as [champion Hchampion].
  { intros a b Ha%Hsub Hb%Hsub. by apply Hp. }
  rewrite Hchampion. cbn [mbind result_bind].
  apply title_matches_from_seeds in Hchampion
    as (_ & champion' & [= <-] & Hin%Hsub).
  unfold count_up, dict_get.
  destruct (Hknown champion Hin) as (_ & _ & [n ->]).
  cbn [mbind result_bind]. by eexists.
Qed.

Lemma stage_iteration_returns_witness :
  ∃ counts,
    stage_iteration TWO_DIVISIONS (constant_p_wins 0.5 some_standings)
      (constant_p_wins 0.5 some_standings) (fun _ => 0.25%R) some_standings
      (zero_count some_standings, zero_count some_standings) = Ok counts.
Proof.
  apply (stage_iteration_returns TWO_DIVISIONS).
  - apply (bool_decide_unpack _). vm_compute. exact I.
  - vm_compute. lia.
  - intros team Hteam. split; [|split; by apply zero_count_known].
    unfold some_standings in Hteam.
    repeat (apply elem_of_cons in Hteam as [->|Hteam]; [by eexists|]).
    by apply elem_of_nil in Hteam.
  - exists "NYE", "SEO". split; [done|]. split; [|done].
    unfold some_standings. set_solver.
  - intros a b Ha Hb _. split; by apply constant_p_wins_known.
Defined.

Lemma stage_iteration_counts_witness :
  match
    stage_iteration TWO_DIVISIONS (constant_p_wins 0.5 some_standings)
      (constant_p_wins 0.5 some_standings) (fun _ => 0.25%R) some_standings
      (zero_count some_standings, zero_count some_standings)
  with
  | Ok (title_count', top1_count') =>
      ∃ seeds champion,
        stage_seeds TWO_DIVISIONS some_standings = Ok seeds ∧
        length seeds = 8%nat ∧ NoDup seeds ∧ champion ∈ seeds ∧
        (∀ team,
           title_count' !! team =
             if decide (team ∈ seeds)
             then (fun n => n + 1) <$> zero_count some_standings !! team
             else zero_count some_standings !! team) ∧
        (∀ team,
           top1_count' !! team =
             if decide (team = champion)
             then (fun n => n + 1) <$> zero_count some_standings !! team
             else zero_count some_standings !! team)
  | Raise _ => True
  end.
Proof.
  pose proof (stage_iteration_counts TWO_DIVISIONS
                (constant_p_wins 0.5 some_standings)
                (constant_p_wins 0.5 some_standings) (fun _ => 0.25%R)
                some_standings (zero_count some_standings)
                (zero_count some_standings)) as H.
  destruct (stage_iteration _ _ _ _ _ _) as [[title_count' top1_count']|];
    [|exact I].
  apply H; [|done]. apply (bool_decide_unpack _). vm_compute. exact I.
Defined.
